(** * bulk-vcard-qr-codes: contact list -> vCard files -> QR images -> workbook

    A shallow embedding of the Go program and the properties its
    specification states.  The repository holds three variants of one
    [main.go]: the QR-only tool, the CSV list tool, and the full tool
    (UTF-16 tab-separated list, response status, spreadsheet).  The full
    tool is embedded at top level, the contact record and the formatter of
    the CSV list tool in [Module ListCSV]; [geneateQRCodeByFile] and
    [formatCellNo] are textually the same in every variant that has them.

    Go strings are byte sequences: they are modelled by [string], one
    [ascii] per byte, so [String.length] is Go's [len] and
    [String.substring] is Go's slicing.  [int] is taken to be 64 bits
    wide.  The libraries the program calls (csv, qrcode, excelize,
    filepath, the UTF-16 decoder) are parameters or small models of their
    documented behaviour. *)

From stdpp Require Import gmap strings list pretty.
From Stdlib Require Import ZArith Lia Ascii.

Open Scope string_scope.
Open Scope Z_scope.

(** * Part I: the embedding *)

(** ** Outcomes of Go code: a value, a returned [error], or a run-time panic *)

Inductive error : Type :=
| ErrNotExist (path : string)          (* os: the file cannot be opened or read *)
| ErrPermission (path : string)        (* os: the file cannot be written *)
| ErrFieldCount                        (* csv.ErrFieldCount *)
| ErrCsvSyntax                         (* csv: any other *csv.ParseError *)
| ErrInvalidName (vcfFname : string)   (* "invalid vCard file name: %s" *)
| ErrEmptyVCard (vcfFname : string)    (* "empty vCard file: %s" *)
| ErrEncode                            (* qrcode: the content cannot be encoded *)
| ErrExcelize (op : string).           (* excelize: the named call failed *)

Inductive panic : Type :=
| IndexOutOfRange (i len : nat).       (* "index out of range [i] with length len" *)

Inductive result (A : Type) : Type :=
| Ok (a : A)
| Err (e : error)
| Panic (p : panic).

Arguments Ok {A} a.
Arguments Err {A} e.
Arguments Panic {A} p.

Definition bind {A B : Type} (m : result A) (k : A -> result B) : result B :=
  match m with
  | Ok a => k a
  | Err e => Err e
  | Panic p => Panic p
  end.

Notation "'let?' x ':=' m 'in' k" := (bind m (fun x => k))
  (at level 10, x name, m at level 100, k at level 200).

(** [s[i]] on a slice: Go panics when [i] is out of range. *)
Definition index {A : Type} (s : list A) (i : nat) : result A :=
  match s !! i with
  | Some a => Ok a
  | None => Panic (IndexOutOfRange i (length s))
  end.

(** The newline byte, and 64-bit two's complement wrap-around of [int] and
    [int64] arithmetic. *)
Definition nl : string := String (ascii_of_nat 10) "".

Definition wrap64 (z : Z) : Z := (z + 2 ^ 63) mod 2 ^ 64 - 2 ^ 63.

(** ** Package [strings] *)

Module strings.

(** [s[lo:hi]] and [s[lo:]]; every use below is guarded by a length test. *)
Definition slice (s : string) (lo hi : nat) : string :=
  String.substring lo (hi - lo) s.

Definition sliceFrom (s : string) (lo : nat) : string :=
  String.substring lo (String.length s - lo) s.

Definition HasPrefix (s prefix : string) : bool := String.prefix prefix s.

(** [strings.Trim(s, cutset)] for a cutset of ASCII bytes: every leading
    and trailing byte that occurs in [cutset] is removed. *)
Fixpoint inCutset (c : ascii) (cutset : string) : bool :=
  match cutset with
  | "" => false
  | String d rest => Ascii.eqb c d || inCutset c rest
  end.

Fixpoint TrimLeft (s cutset : string) : string :=
  match s with
  | "" => ""
  | String c s' => if inCutset c cutset then TrimLeft s' cutset else s
  end.

Definition TrimRight (s cutset : string) : string :=
  String.rev (TrimLeft (String.rev s) cutset).

Definition Trim (s cutset : string) : string :=
  TrimLeft (TrimRight s cutset) cutset.

(** [strings.ReplaceAll(s, old, new)] for a non-empty [old]: the
    non-overlapping occurrences of [old] are replaced from left to right.
    [skip] counts the bytes of a matched occurrence still to be dropped. *)
Fixpoint replaceFrom (skip : nat) (s old new : string) : string :=
  match s with
  | "" => ""
  | String c s' =>
      match skip with
      | S k => replaceFrom k s' old new
      | O =>
          if String.prefix old s
          then new +:+ replaceFrom (String.length old - 1) s' old new
          else String c (replaceFrom 0 s' old new)
      end
  end.

Definition ReplaceAll (s old new : string) : string := replaceFrom 0 s old new.

(** A [strings.Builder]: the chunks handed to [WriteString], in order;
    [String()] is their concatenation. *)
Definition Builder : Type := list string.

Definition WriteString (sb : Builder) (s : string) : Builder := (sb ++ [s])%list.

Fixpoint String_ (sb : Builder) : string :=
  match sb with
  | [] => ""
  | chunk :: rest => chunk +:+ String_ rest
  end.

End strings.

(** ** Package [strconv] *)

Module strconv.

Definition isDigit (c : ascii) : bool :=
  let n := Z.of_N (N_of_ascii c) in (48 <=? n) && (n <=? 57).

Definition digitVal (c : ascii) : Z := Z.of_N (N_of_ascii c) - 48.

(** The digits of [s] read in base 10 onto the accumulator [acc]; [None]
    at a byte that is no digit. *)
Fixpoint digits (acc : Z) (s : string) : option Z :=
  match s with
  | "" => Some acc
  | String c s' =>
      if isDigit c then digits (10 * acc + digitVal c) s' else None
  end.

Definition parseUnsigned (s : string) : option Z :=
  match s with
  | "" => None
  | _ => digits 0 s
  end.

(** [strconv.ParseInt(s, 10, 64)]: [None] stands for a non-nil [err]
    (syntax or range); the program never reads the value returned beside
    an error. *)
Definition ParseInt (s : string) : option Z :=
  match s with
  | "" => None
  | String c s' =>
      let signed :=
        if Ascii.eqb c "+"%char then parseUnsigned s'
        else if Ascii.eqb c "-"%char then option_map Z.opp (parseUnsigned s')
        else parseUnsigned s in
      match signed with
      | Some v => if (- 2 ^ 63 <=? v) && (v <? 2 ^ 63) then Some v else None
      | None => None
      end
  end.

(** [strconv.FormatInt(i, 10)] *)
Definition FormatInt (i : Z) : string := pretty i.

End strconv.

(** ** Package [unicode/utf8], as used by the conversions [[]rune(s)],
    [string(r)] and [string(rs)] *)

Module utf8.

Definition rune : Type := Z.

Definition RuneError : rune := 0xFFFD.
Definition MaxRune : rune := 0x10FFFF.
Definition surrogateMin : rune := 0xD800.
Definition surrogateMax : rune := 0xDFFF.

Definition byteVal (c : ascii) : Z := Z.of_N (N_of_ascii c).

(** [byte(x)]: the conversion keeps the low eight bits. *)
Definition toByte (x : Z) : ascii := ascii_of_N (Z.to_N (Z.land x 0xFF)).

(** [s[i]], read only below the length tested before. *)
Definition byteAt (s : string) (i : nat) : Z :=
  match String.get i s with
  | Some c => byteVal c
  | None => 0
  end.

(** The table [first] with [acceptRanges]: what a leading byte announces. *)
Inductive firstInfo : Type :=
| ASCII                               (* as: the byte is the rune *)
| Invalid                             (* xx *)
| Lead (size : nat) (lo hi : Z).      (* size and the range of the second byte *)

Definition first (b : Z) : firstInfo :=
  if b <? 0x80 then ASCII
  else if b <? 0xC2 then Invalid
  else if b <? 0xE0 then Lead 2 0x80 0xBF
  else if b =? 0xE0 then Lead 3 0xA0 0xBF
  else if b <? 0xED then Lead 3 0x80 0xBF
  else if b =? 0xED then Lead 3 0x80 0x9F
  else if b <? 0xF0 then Lead 3 0x80 0xBF
  else if b =? 0xF0 then Lead 4 0x90 0xBF
  else if b <? 0xF4 then Lead 4 0x80 0xBF
  else if b =? 0xF4 then Lead 4 0x80 0x8F
  else Invalid.

Definition isCont (b : Z) : bool := (0x80 <=? b) && (b <=? 0xBF).

(** [utf8.DecodeRuneInString(s)]: the first rune of [s] and its width. *)
Definition DecodeRuneInString (s : string) : rune * nat :=
  let n := String.length s in
  if (n <? 1)%nat then (RuneError, 0%nat)
  else
    let s0 := byteAt s 0 in
    match first s0 with
    | ASCII => (s0, 1%nat)
    | Invalid => (RuneError, 1%nat)
    | Lead sz lo hi =>
        if (n <? sz)%nat then (RuneError, 1%nat)
        else
          let s1 := byteAt s 1 in
          if (s1 <? lo) || (hi <? s1) then (RuneError, 1%nat)
          else if (sz <=? 2)%nat then
            (Z.lor (Z.shiftl (Z.land s0 0x1F) 6) (Z.land s1 0x3F), 2%nat)
          else
            let s2 := byteAt s 2 in
            if negb (isCont s2) then (RuneError, 1%nat)
            else if (sz <=? 3)%nat then
              (Z.lor (Z.lor (Z.shiftl (Z.land s0 0x0F) 12)
                            (Z.shiftl (Z.land s1 0x3F) 6))
                     (Z.land s2 0x3F), 3%nat)
            else
              let s3 := byteAt s 3 in
              if negb (isCont s3) then (RuneError, 1%nat)
              else
                (Z.lor (Z.lor (Z.lor (Z.shiftl (Z.land s0 0x07) 18)
                                     (Z.shiftl (Z.land s1 0x3F) 12))
                              (Z.shiftl (Z.land s2 0x3F) 6))
                       (Z.land s3 0x3F), 4%nat)
    end.

(** [[]rune(s)]: the runes of [s] from left to right.  Every rune of a
    non-empty string is at least one byte wide, so [String.length s] steps
    reach the end of [s]. *)
Fixpoint runesFrom (fuel : nat) (s : string) : list rune :=
  match fuel with
  | O => []
  | S fuel' =>
      match s with
      | "" => []
      | _ =>
          let '(r, w) := DecodeRuneInString s in
          r :: runesFrom fuel' (strings.sliceFrom s w)
      end
  end.

Definition runes (s : string) : list rune := runesFrom (String.length s) s.

(** [utf8.AppendRune]: the bytes of one rune, U+FFFD for what is no
    Unicode scalar value. *)
Definition encode3 (r : rune) : string :=
  String (toByte (Z.lor 0xE0 (Z.shiftr r 12)))
    (String (toByte (Z.lor 0x80 (Z.land (Z.shiftr r 6) 0x3F)))
       (String (toByte (Z.lor 0x80 (Z.land r 0x3F))) "")).

Definition EncodeRune (r : rune) : string :=
  if (0 <=? r) && (r <=? 0x7F) then String (toByte r) ""
  else if (0 <=? r) && (r <=? 0x7FF) then
    String (toByte (Z.lor 0xC0 (Z.shiftr r 6)))
      (String (toByte (Z.lor 0x80 (Z.land r 0x3F))) "")
  else if (r <? 0) || (MaxRune <? r)
          || ((surrogateMin <=? r) && (r <=? surrogateMax)) then
    encode3 RuneError
  else if r <=? 0xFFFF then encode3 r
  else
    String (toByte (Z.lor 0xF0 (Z.shiftr r 18)))
      (String (toByte (Z.lor 0x80 (Z.land (Z.shiftr r 12) 0x3F)))
         (String (toByte (Z.lor 0x80 (Z.land (Z.shiftr r 6) 0x3F)))
            (String (toByte (Z.lor 0x80 (Z.land r 0x3F))) ""))).

(** [string(rs)] for a slice of runes. *)
Fixpoint stringOfRunes (rs : list rune) : string :=
  match rs with
  | [] => ""
  | r :: rest => EncodeRune r +:+ stringOfRunes rest
  end.

End utf8.

(** ** Package [encoding/csv]: the reader's field-count rule

    The decoder and the tokeniser are collaborators of the program; what
    the program sees of a list file is the sequence of its non-empty lines,
    each either split into its fields (at least one) or rejected. *)

Module csv.

Inductive line : Type :=
| Fields (first : string) (others : list string)
| Malformed.

(** One call of [r.Read()] on a pending line, with the reader's
    [FieldsPerRecord] before and after: zero means not yet set, and the
    first record sets it. *)
Definition readRecord (FieldsPerRecord : nat) (l : line)
  : result (list string) * nat :=
  match l with
  | Malformed => (Err ErrCsvSyntax, FieldsPerRecord)
  | Fields f0 fs =>
      let record := f0 :: fs in
      if (0 <? FieldsPerRecord)%nat then
        if negb (length record =? FieldsPerRecord)%nat
        then (Err ErrFieldCount, FieldsPerRecord)
        else (Ok record, FieldsPerRecord)
      else (Ok record, length record)
  end.

End csv.

(** ** Package [excelize]: a workbook and the calls the program makes

    The library is a black box: a call either fails, leaving the workbook
    as it was, or has its documented effect.  Which calls fail is decided
    by an oracle that may look at the workbook and the call. *)

Module excelize.

Record File : Type := mkFile {
  sheets : list string;
  cells : gmap (string * string) string;        (* (sheet, cell) -> value *)
  cellStyles : gmap (string * string) Z;        (* (sheet, cell) -> style id *)
  pictures : gmap (string * string) string;     (* (sheet, cell) -> image file *)
  rowHeights : gmap (string * Z) Z;             (* (sheet, row) -> height *)
  styles : list (list string)                   (* borders of each new style *)
}.

Inductive call : Type :=
| SetCellValue (sheet cell value : string)
| NewSheet (sheet : string)
| SetPageMargins (sheet : string)
| SetColWidth (sheet startCol endCol : string) (width : Z)
| NewStyle (borders : list string)
| SetRowHeight (sheet : string) (row height : Z)
| SetCellStyle (sheet hCell vCell : string) (styleID : Z)
| AddPicture (sheet cell name : string)
| SaveAs (name : string).

Definition callName (c : call) : string :=
  match c with
  | SetCellValue _ _ _ => "SetCellValue"
  | NewSheet _ => "NewSheet"
  | SetPageMargins _ => "SetPageMargins"
  | SetColWidth _ _ _ _ => "SetColWidth"
  | NewStyle _ => "NewStyle"
  | SetRowHeight _ _ _ => "SetRowHeight"
  | SetCellStyle _ _ _ _ => "SetCellStyle"
  | AddPicture _ _ _ => "AddPicture"
  | SaveAs _ => "SaveAs"
  end.

(** [excelize.NewFile()] *)
Definition NewFile : File :=
  mkFile ["Sheet1"] ∅ ∅ ∅ ∅ [].

(** The effect of a call that succeeds (page margins and column widths are
    not tracked; [SaveAs] leaves the workbook in memory as it is). *)
Definition effect (f : File) (c : call) : File :=
  match c with
  | SetCellValue sheet cell value =>
      mkFile (sheets f) (<[(sheet, cell) := value]> (cells f)) (cellStyles f)
             (pictures f) (rowHeights f) (styles f)
  | NewSheet sheet =>
      mkFile (sheets f ++ [sheet])%list (cells f) (cellStyles f)
             (pictures f) (rowHeights f) (styles f)
  | NewStyle borders =>
      mkFile (sheets f) (cells f) (cellStyles f)
             (pictures f) (rowHeights f) (styles f ++ [borders])%list
  | SetRowHeight sheet row height =>
      mkFile (sheets f) (cells f) (cellStyles f)
             (pictures f) (<[(sheet, row) := height]> (rowHeights f)) (styles f)
  | SetCellStyle sheet hCell _ styleID =>
      mkFile (sheets f) (cells f) (<[(sheet, hCell) := styleID]> (cellStyles f))
             (pictures f) (rowHeights f) (styles f)
  | AddPicture sheet cell name =>
      mkFile (sheets f) (cells f) (cellStyles f)
             (<[(sheet, cell) := name]> (pictures f)) (rowHeights f) (styles f)
  | SetPageMargins _ | SetColWidth _ _ _ _ | SaveAs _ => f
  end.

(** A call against the oracle [fails]: the returned [error] and the
    workbook afterwards. *)
Definition exec (fails : File -> call -> bool) (f : File) (c : call)
  : result unit * File :=
  if fails f c then (Err (ErrExcelize (callName c)), f)
  else (Ok tt, effect f c).

End excelize.

(** ** The file system, and package [os] *)

(** [files] and [readonly] are the file system.  [workbooks] is no second
    file system: it remembers, for each path, the workbook whose bytes
    [SaveAs] last wrote to the file at that path (see [SaveAs] below). *)
Record World : Type := mkWorld {
  files : gmap string string;                   (* path -> bytes *)
  readonly : gset string;                       (* paths that cannot be written *)
  workbooks : gmap string excelize.File         (* path -> workbook saved there *)
}.

Module os.

Definition ReadFile (w : World) (name : string) : result string :=
  match files w !! name with
  | Some content => Ok content
  | None => Err (ErrNotExist name)
  end.

(** [os.Open] followed by reading the handle to its end. *)
Definition Open (w : World) (name : string) : result string := ReadFile w name.

Definition Stat (w : World) (name : string) : result unit :=
  match files w !! name with
  | Some _ => Ok tt
  | None => Err (ErrNotExist name)
  end.

Definition WriteFile (w : World) (name data : string) : result unit * World :=
  if decide (name ∈ readonly w) then (Err (ErrPermission name), w)
  else (Ok tt, mkWorld (<[name := data]> (files w)) (readonly w) (workbooks w)).

End os.

(** ** Package [qrcode]: [qrcode.WriteFile(content, qrcode.Medium, 256, filename)]

    [png content] is the rendering of [content] at medium error correction
    and 256 pixels, [None] when the content cannot be encoded.  The library
    renders, then writes the file. *)

Module qrcode.

Definition WriteFile (png : string -> option string) (w : World)
    (content filename : string) : result unit * World :=
  match png content with
  | None => (Err ErrEncode, w)
  | Some image => os.WriteFile w filename image
  end.

End qrcode.

(** ** The program: data model *)

Definition defaultVCFExtension : string := ".vcf".

(** [type answerType int] with its four named values. *)
Definition answerType : Type := Z.

Definition AnswerNo : answerType := 0.
Definition AnswerYes : answerType := 1.
Definition AnswerCustom : answerType := 2.
Definition AnswerCancel : answerType := -1.

Record contact : Type := mkContact {
  Class : string;
  Fullname : string;
  VcfFname : string;
  Cell : string;
  Email : string;
  Answer : answerType
}.

(** ** The phone formatter *)

Definition formatCellNo (orig : string) : string :=
  if negb (String.length orig =? 10)%nat then orig
  else if negb (strings.HasPrefix orig "09") then orig
  else "+886 " +:+ strings.slice orig 1 4 +:+ "-" +:+ strings.slice orig 4 7
       +:+ "-" +:+ strings.sliceFrom orig 7.

(** The domestic mobile pattern: ten bytes, the first two being "09". *)
Definition isDomesticCell (s : string) : Prop :=
  String.length s = 10%nat /\ strings.HasPrefix s "09" = true.

(** ** The vCard formatter *)

Definition emailLine (email : string) : string :=
  "EMAIL;TYPE=INTERNET;TYPE=WORK:" +:+ email +:+ nl.

Definition telLine (cell : string) : string :=
  "TEL;TYPE=CELL:" +:+ cell +:+ nl.

(** The [strings.Builder] of [generateVCard] when it reaches
    [os.WriteFile]; indexing the first rune panics on an empty name. *)
Definition vcardBuilder (cnt : contact) : result strings.Builder :=
  let sb : strings.Builder := [] in
  let sb := strings.WriteString sb
              ("BEGIN:VCARD" +:+ nl +:+ "VERSION:3.0" +:+ nl) in
  let sb := strings.WriteString sb ("FN:" +:+ Fullname cnt +:+ nl) in
  let nRunes := utf8.runes (Fullname cnt) in
  let? r0 := index nRunes 0 in
  let sb := strings.WriteString sb
              ("N:" +:+ utf8.EncodeRune r0 +:+ ";"
               +:+ utf8.stringOfRunes (drop 1 nRunes) +:+ ";;;" +:+ nl) in
  let sb :=
    if Answer cnt =? AnswerYes then
      let sb :=
        if negb (String.eqb (Email cnt) "")
        then strings.WriteString sb (emailLine (Email cnt)) else sb in
      let sb :=
        if negb (String.eqb (Cell cnt) "")
        then strings.WriteString sb (telLine (Cell cnt)) else sb in
      sb
    else sb in
  let sb := strings.WriteString sb
              ("NOTE:建中42屆" +:+ Class cnt +:+ "班同學" +:+ nl) in
  let sb := strings.WriteString sb ("END:VCARD" +:+ nl) in
  Ok sb.

Definition generateVCard (w : World) (cnt : contact) : result unit * World :=
  match vcardBuilder cnt with
  | Ok sb => os.WriteFile w (VcfFname cnt) (strings.String_ sb)
  | Err e => (Err e, w)
  | Panic p => (Panic p, w)
  end.

(** The optional chunks: what [generateVCard] writes between the N line
    and the NOTE line. *)
Definition contactLines (cnt : contact) : list string :=
  if Answer cnt =? AnswerYes then
    (if negb (String.eqb (Email cnt) "") then [emailLine (Email cnt)] else [])
    ++ (if negb (String.eqb (Cell cnt) "") then [telLine (Cell cnt)] else [])
  else [].

(** ** The CSV list variant: its contact has no response status, and its
    formatter writes the EMAIL and TEL lines whenever the fields are set *)

Module ListCSV.

Record contact : Type := mkContact {
  Class : string;
  Fullname : string;
  VcfFname : string;
  Cell : string;
  Email : string
}.

Definition vcardBuilder (cnt : contact) : result strings.Builder :=
  let sb : strings.Builder := [] in
  let sb := strings.WriteString sb
              ("BEGIN:VCARD" +:+ nl +:+ "VERSION:3.0" +:+ nl) in
  let sb := strings.WriteString sb ("FN:" +:+ Fullname cnt +:+ nl) in
  let nRunes := utf8.runes (Fullname cnt) in
  let? r0 := index nRunes 0 in
  let sb := strings.WriteString sb
              ("N:" +:+ utf8.EncodeRune r0 +:+ ";"
               +:+ utf8.stringOfRunes (drop 1 nRunes) +:+ ";;;" +:+ nl) in
  let sb :=
    if negb (String.eqb (Email cnt) "")
    then strings.WriteString sb (emailLine (Email cnt)) else sb in
  let sb :=
    if negb (String.eqb (Cell cnt) "")
    then strings.WriteString sb (telLine (Cell cnt)) else sb in
  let sb := strings.WriteString sb
              ("NOTE:建中42屆" +:+ Class cnt +:+ "班同學" +:+ nl) in
  let sb := strings.WriteString sb ("END:VCARD" +:+ nl) in
  Ok sb.

Definition generateVCard (w : World) (cnt : contact) : result unit * World :=
  match vcardBuilder cnt with
  | Ok sb => os.WriteFile w (VcfFname cnt) (strings.String_ sb)
  | Err e => (Err e, w)
  | Panic p => (Panic p, w)
  end.

End ListCSV.

(** ** The program: operations over the collaborators *)

Section Program.

(** [filepath.Join(dir, name)] *)
Variable Join : string -> string -> string.
(** The UTF-16 decoder and the tab-separated tokeniser on a file's bytes. *)
Variable decode : string -> list csv.line.
(** The QR renderer (see [qrcode.WriteFile]). *)
Variable png : string -> option string.
(** Which spreadsheet calls fail (see [excelize.exec]). *)
Variable fails : excelize.File -> excelize.call -> bool.
(** The bytes of a workbook as [SaveAs] writes them (the XLSX encoding). *)
Variable xlsx : excelize.File -> string.

(** *** The QR encoder adapter *)

Definition geneateQRCodeByFile (w : World) (vcfFname : string)
  : result unit * World :=
  let fname := strings.Trim vcfFname defaultVCFExtension in
  if negb (String.eqb fname "") then
    let outFname := fname +:+ ".png" in
    match os.ReadFile w vcfFname with
    | Err e => (Err e, w)
    | Panic p => (Panic p, w)
    | Ok content =>
        if (String.length content =? 0)%nat
        then (Err (ErrEmptyVCard vcfFname), w)
        else
          (* the error returned by qrcode.WriteFile is dropped *)
          let '(_, w') := qrcode.WriteFile png w content outFname in
          (Ok tt, w')
    end
  else (Err (ErrInvalidName vcfFname), w).

(** *** The list parser *)

(** The body of the read loop on one record: [Some] contact to append,
    [None] for [continue]. *)
Definition parseRecord (dataFolder : string) (rec : list string)
  : result (option contact) :=
  let? rec0 := index rec 0 in
  if String.eqb rec0 "no" then Ok None
  else
    match strconv.ParseInt rec0 with
    | None => Ok None
    | Some v =>
        if v =? 0 then Ok None
        else
          let? rec1 := index rec 1 in
          let? rec2 := index rec 2 in
          let? rec3 := index rec 3 in
          let? rec4 := index rec 4 in
          let? rec5 := index rec 5 in
          let? rec6 := index rec 6 in
          match strconv.ParseInt rec6 with
          | None => Ok None
          | Some v =>
              if v <? 0 then Ok None
              else
                Ok (Some (mkContact rec1 rec2
                            (Join dataFolder (rec3 +:+ defaultVCFExtension))
                            (formatCellNo rec4) rec5 v))
          end
    end.

(** The read loop: [pending] are the lines the reader has not returned
    yet, [contactLst] the contacts appended so far. *)
Fixpoint readLoop (dataFolder : string) (FieldsPerRecord : nat)
    (pending : list csv.line) (contactLst : list contact)
  : result (list contact) :=
  match pending with
  | [] => Ok contactLst
  | l :: pending' =>
      let '(read, FieldsPerRecord') := csv.readRecord FieldsPerRecord l in
      let? rec := read in
      let? parsed := parseRecord dataFolder rec in
      match parsed with
      | Some oneContact =>
          readLoop dataFolder FieldsPerRecord' pending'
                   (contactLst ++ [oneContact])%list
      | None => readLoop dataFolder FieldsPerRecord' pending' contactLst
      end
  end.

Definition parseInputList (w : World) (dataFolder lstFname : string)
  : result (list contact) :=
  let? fin := os.Open w (Join dataFolder lstFname) in
  readLoop dataFolder 0 (decode fin) [].

(** *** The spreadsheet builder *)

Definition sheet1Name : string := "Sheet1".
Definition sheet2Name : string := "Sheet2".

(** The loop of [fillListSheet] from index [idx] on: a failed call ends
    the loop ([break]) with the workbook as it is. *)
Fixpoint fillListRows (idx : Z) (fout : excelize.File)
    (contactList : list contact) : excelize.File :=
  match contactList with
  | [] => fout
  | cnt :: rest =>
      let rowID := strconv.FormatInt (wrap64 (idx + 2)) in
      match excelize.exec fails fout
              (excelize.SetCellValue sheet1Name ("A" +:+ rowID) (Class cnt)) with
      | (Ok _, fout) =>
          match excelize.exec fails fout
                  (excelize.SetCellValue sheet1Name ("B" +:+ rowID)
                     (Fullname cnt)) with
          | (Ok _, fout) => fillListRows (idx + 1) fout rest
          | (_, fout) => fout
          end
      | (_, fout) => fout
      end
  end.

Definition fillListSheet (fout : excelize.File) (contactList : list contact)
  : result unit * excelize.File :=
  match excelize.exec fails fout
          (excelize.SetCellValue sheet1Name "A1" "class") with
  | (Ok _, fout) =>
      match excelize.exec fails fout
              (excelize.SetCellValue sheet1Name "B1" "name") with
      | (Ok _, fout) => (Ok tt, fillListRows 0 fout contactList)
      | (r, fout) => (r, fout)
      end
  | (r, fout) => (r, fout)
  end.

(** The cells of contact [idx] on the second sheet. *)
Definition qrRowID (idx : Z) : Z := wrap64 (wrap64 (Z.quot idx 2 * 2) + 1).

Definition qrColID (idx : Z) : string :=
  if Z.rem idx 2 =? 0 then "A" else "B".

Definition txtCellID (idx : Z) : string :=
  qrColID idx +:+ strconv.FormatInt (qrRowID idx).

Definition imgCellID (idx : Z) : string :=
  qrColID idx +:+ strconv.FormatInt (wrap64 (qrRowID idx + 1)).

Definition imgFname (cnt : contact) : string :=
  strings.ReplaceAll (VcfFname cnt) defaultVCFExtension ".png".

(** The id [NewStyle] returns: styles are numbered from 1 as created. *)
Definition nextStyleID (fout : excelize.File) : Z :=
  Z.of_nat (length (excelize.styles fout)) + 1.

(** The loop of [genQRCodeSheet] from index [idx] on; the results of
    [SetRowHeight] and [SetCellStyle] are not looked at. *)
Fixpoint genQRCodeCells (txtStyleID imgStyleID : Z) (idx : Z)
    (fout : excelize.File) (contactList : list contact) : excelize.File :=
  match contactList with
  | [] => fout
  | cnt :: rest =>
      let rowID := qrRowID idx in
      let fout :=
        if Z.rem idx 2 =? 0
        then snd (excelize.exec fails fout
                    (excelize.SetRowHeight sheet2Name (wrap64 (rowID + 1)) 155))
        else fout in
      let cellText := Class cnt +:+ " " +:+ Fullname cnt in
      let fout := snd (excelize.exec fails fout
                    (excelize.SetCellStyle sheet2Name (txtCellID idx)
                       (txtCellID idx) txtStyleID)) in
      match excelize.exec fails fout
              (excelize.SetCellValue sheet2Name (txtCellID idx) cellText) with
      | (Ok _, fout) =>
          let fout := snd (excelize.exec fails fout
                        (excelize.SetCellStyle sheet2Name (imgCellID idx)
                           (imgCellID idx) imgStyleID)) in
          match excelize.exec fails fout
                  (excelize.AddPicture sheet2Name (imgCellID idx)
                     (imgFname cnt)) with
          | (Ok _, fout) =>
              genQRCodeCells txtStyleID imgStyleID (idx + 1) fout rest
          | (_, fout) => fout
          end
      | (_, fout) => fout
      end
  end.

Definition genQRCodeSheet (fout : excelize.File) (contactList : list contact)
  : result unit * excelize.File :=
  match excelize.exec fails fout (excelize.NewSheet sheet2Name) with
  | (Ok _, fout) =>
      match excelize.exec fails fout (excelize.SetPageMargins sheet2Name) with
      | (Ok _, fout) =>
          let fout := snd (excelize.exec fails fout
                        (excelize.SetColWidth sheet2Name "A" "B" 36)) in
          let txtStyleID := nextStyleID fout in
          match excelize.exec fails fout
                  (excelize.NewStyle ["top"; "left"; "right"]) with
          | (Ok _, fout) =>
              let imgStyleID := nextStyleID fout in
              match excelize.exec fails fout
                      (excelize.NewStyle ["left"; "right"; "bottom"]) with
              | (Ok _, fout) =>
                  (Ok tt,
                   genQRCodeCells txtStyleID imgStyleID 0 fout contactList)
              | (r, fout) => (r, fout)
              end
          | (r, fout) => (r, fout)
          end
      | (r, fout) => (r, fout)
      end
  | (r, fout) => (r, fout)
  end.

(** [fout.SaveAs(name)]: the library may refuse (the oracle); otherwise
    it creates or truncates the file [name] and writes the workbook's bytes,
    which the file system refuses for a path that cannot be written. *)
Definition SaveAs (w : World) (fout : excelize.File) (name : string)
  : result unit * World :=
  match excelize.exec fails fout (excelize.SaveAs name) with
  | (Ok _, _) =>
      match os.WriteFile w name (xlsx fout) with
      | (Ok _, w) =>
          (Ok tt,
           mkWorld (files w) (readonly w) (<[name := fout]> (workbooks w)))
      | (r, w) => (r, w)
      end
  | (r, _) => (r, w)
  end.

(** [generateExcelFile]: the returned error, the workbook in memory when
    the function returns, and the world (the saved file in it). *)
Definition generateExcelFile (w : World) (outFname : string)
    (contactList : list contact) : result unit * excelize.File * World :=
  let fout := excelize.NewFile in
  match fillListSheet fout contactList with
  | (Ok _, fout) =>
      match genQRCodeSheet fout contactList with
      | (Ok _, fout) =>
          let '(r, w) := SaveAs w fout outFname in
          (r, fout, w)
      | (r, fout) => (r, fout, w)
      end
  | (r, fout) => (r, fout, w)
  end.

End Program.

(** ** Words of the specification, to be compared with the code *)

(** The records of a list file: the fields of each line the tokeniser
    could split. *)
Definition records (lines : list csv.line) : list (list string) :=
  omap (fun l => match l with
                 | csv.Fields f0 fs => Some (f0 :: fs)
                 | csv.Malformed => None
                 end) lines.

Definition failsOrNegative (s : string) : bool :=
  match strconv.ParseInt s with
  | None => true
  | Some v => v <? 0
  end.

Definition failsOrZero (s : string) : bool :=
  match strconv.ParseInt s with
  | None => true
  | Some v => v =? 0
  end.

(** A row to skip: the first column is the header label, is no integer or
    is zero, or the response-status column is no integer or is negative. *)
Definition skippedRow (rec : list string) : bool :=
  match rec !! 0%nat with
  | None => false
  | Some rec0 =>
      String.eqb rec0 "no" || failsOrZero rec0
      || match rec !! 6%nat with
         | Some rec6 => failsOrNegative rec6
         | None => false
         end
  end.

(** The contact record made from a row: fields copied from the fixed
    columns, the phone reformatted, the path joined from folder and id. *)
Definition madeFrom (Join : string -> string -> string) (dataFolder : string)
    (rec : list string) (c : contact) : Prop :=
  rec !! 1%nat = Some (Class c)
  /\ rec !! 2%nat = Some (Fullname c)
  /\ (exists id, rec !! 3%nat = Some id
                 /\ VcfFname c = Join dataFolder (id +:+ ".vcf"))
  /\ (exists phone, rec !! 4%nat = Some phone /\ Cell c = formatCellNo phone)
  /\ rec !! 5%nat = Some (Email c)
  /\ (exists status, rec !! 6%nat = Some status
                     /\ strconv.ParseInt status = Some (Answer c)).

(** What the reader answers for line [l] after the lines [before]:
    the error, if it rejects the line. *)
Definition readerRejects (before : list csv.line) (l : csv.line)
  : option error :=
  match l with
  | csv.Malformed => Some ErrCsvSyntax
  | csv.Fields f0 fs =>
      match before with
      | csv.Fields g0 gs :: _ =>
          if (length (f0 :: fs) =? length (g0 :: gs))%nat then None
          else Some ErrFieldCount
      | _ => None
      end
  end.

(** The reader's [FieldsPerRecord] after it has returned the lines [read]. *)
Fixpoint fieldsAfter (FieldsPerRecord : nat) (read : list csv.line) : nat :=
  match read with
  | [] => FieldsPerRecord
  | l :: rest => fieldsAfter (snd (csv.readRecord FieldsPerRecord l)) rest
  end.

(** The column letter the specification gives contact [i] on the grid. *)
Definition gridColumn (i : Z) : string := if Z.even i then "A" else "B".

(** The calls whose error [generateExcelFile] returns: the two header
    cells of the first sheet, the new sheet, its margins, the two styles and
    the save.  Every other call is one of the calls made once per contact
    (cell values, row heights, cell styles, pictures), whose error ends a
    loop at most, or the column width, whose error is not looked at. *)
Definition checkedCall (c : excelize.call) : bool :=
  match c with
  | excelize.SetCellValue sheet cell value =>
      String.eqb sheet "Sheet1"
      && ((String.eqb cell "A1" && String.eqb value "class")
          || (String.eqb cell "B1" && String.eqb value "name"))
  | excelize.NewSheet sheet => String.eqb sheet "Sheet2"
  | excelize.SetPageMargins sheet => String.eqb sheet "Sheet2"
  | excelize.NewStyle _ => true
  | excelize.SaveAs _ => true
  | _ => false
  end.

(** ** Sample collaborators and inputs *)

(** Joining a clean relative folder and a plain file name. *)
Definition joinPath (dir name : string) : string := dir +:+ "/" +:+ name.

(** Splitting at a separator byte. *)
Fixpoint splitOn (sep : ascii) (s : string) : list string :=
  match s with
  | "" => [""]
  | String c s' =>
      if Ascii.eqb c sep then "" :: splitOn sep s'
      else match splitOn sep s' with
           | h :: t => String c h :: t
           | [] => [String c ""]
           end
  end.

Definition tab : ascii := ascii_of_nat 9.

(** A tokeniser for plain tab-separated text without quoting: one line per
    non-empty text line. *)
Definition plainLines (content : string) : list csv.line :=
  omap (fun ln => match splitOn tab ln with
                  | f0 :: fs => if String.eqb ln "" then None
                                else Some (csv.Fields f0 fs)
                  | [] => None
                  end)
       (splitOn (ascii_of_nat 10) content).

(** A renderer that encodes up to 2331 bytes, the capacity of the largest
    QR code at medium error correction. *)
Definition samplePng (content : string) : option string :=
  if (2331 <? String.length content)%nat then None
  else Some ("PNG:" +:+ content).

(** A renderer that can encode nothing. *)
Definition noPng (content : string) : option string := None.

Definition neverFails (f : excelize.File) (c : excelize.call) : bool := false.

(** An encoding that keeps the names of the sheets. *)
Definition sampleXlsx (f : excelize.File) : string :=
  "XLSX:" +:+ strings.String_ (excelize.sheets f).

(** The oracle under which every call fails whose error
    [generateExcelFile] does not return: the first text cell of the grid
    and the column width among them. *)
Definition loopCallsFail (f : excelize.File) (c : excelize.call) : bool :=
  negb (checkedCall c).

(** The oracle under which exactly the image embedding fails. *)
Definition picturesFail (f : excelize.File) (c : excelize.call) : bool :=
  match c with
  | excelize.AddPicture _ _ _ => true
  | _ => false
  end.

Definition sampleContact : contact :=
  mkContact "301" "Jeff Lin" "testdata/jeff.vcf" "+886 912-345-678"
            "jeff@example.org" AnswerYes.

Definition declinedContact : contact :=
  mkContact "302" "Amy Wu" "testdata/1002.vcf" "+886 922-000-111"
            "amy@example.org" AnswerNo.

Definition emptyWorld : World := mkWorld ∅ ∅ ∅.

Definition sampleWorld : World :=
  mkWorld {[ "testdata/jeff.vcf" := "BEGIN:VCARD" ]} ∅ ∅.

(** A world in which the vCard of contact 1001 can be read and its PNG
    cannot be written. *)
Definition unwritableWorld : World :=
  mkWorld {[ "testdata/1001.vcf" := "BEGIN:VCARD" ]} {[ "testdata/1001.png" ]} ∅.

Definition listWorld (content : string) : World :=
  mkWorld {[ "testdata/list.txt" := content ]} ∅ ∅.

(** The fields of a row, separated by tabs. *)
Fixpoint tabbed (fields : list string) : string :=
  match fields with
  | [] => ""
  | f :: rest =>
      match rest with
      | [] => f
      | _ => f +:+ String tab (tabbed rest)
      end
  end.

Definition headerRow : string :=
  tabbed ["no"; "class"; "name"; "id"; "cell"; "email"; "answer"] +:+ nl.

(** A header, an accepted contact, a cancelled one, a declined one. *)
Definition sampleList : string :=
  headerRow
  +:+ tabbed ["1"; "301"; "Jeff Lin"; "jeff"; "0912345678";
              "jeff@example.org"; "1"] +:+ nl
  +:+ tabbed ["2"; "301"; "Bob"; "1003"; "0911222333"; "b@example.org"; "-1"]
  +:+ nl
  +:+ tabbed ["3"; "302"; "Amy Wu"; "1002"; "02-2345-6789"; "-"; "0"] +:+ nl.

Definition sampleContacts : list contact :=
  [mkContact "301" "Jeff Lin" "testdata/jeff.vcf" "+886 912-345-678"
     "jeff@example.org" 1;
   mkContact "302" "Amy Wu" "testdata/1002.vcf" "02-2345-6789" "-" 0].

(** A list file whose only row has three columns. *)
Definition shortList : string := tabbed ["1"; "301"; "Bob"] +:+ nl.

(** ** Lines of a text *)

Definition newline : ascii := ascii_of_nat 10.

(** No line break among the bytes of [s]. *)
Fixpoint noBreak (s : string) : bool :=
  match s with
  | "" => true
  | String c s' => negb (Ascii.eqb c newline) && noBreak s'
  end.

(** The lines of a text, each with the line break that ends it; a last
    line without line break is kept as it is. *)
Fixpoint textLines (s : string) : list string :=
  match s with
  | "" => []
  | String c s' =>
      if Ascii.eqb c newline then nl :: textLines s'
      else match textLines s' with
           | [] => [String c ""]
           | l :: ls => String c l :: ls
           end
  end.

(** A chunk that is one line: a text without line break, then the break. *)
Definition isLine (chunk : string) : Prop :=
  exists body : string, chunk = body +:+ nl /\ noBreak body = true.

Definition fieldsWithoutBreak (cnt : contact) : bool :=
  noBreak (Class cnt) && noBreak (Fullname cnt)
  && noBreak (Cell cnt) && noBreak (Email cnt).

(** A declined contact whose name holds a line break and, after it, the
    bytes of an EMAIL line. *)
Definition twoLineName : contact :=
  mkContact "302" ("Amy" +:+ nl +:+ "EMAIL;TYPE=INTERNET;TYPE=WORK:amy@example.org")
            "testdata/1002.vcf" "" "amy@example.org" AnswerNo.

(** ** The orchestrators

    [mainAction] of the three variants, over the flags the command line
    gave. *)

Record Flags : Type := mkFlags {
  Args : list string;          (* c.Args().Slice() *)
  dataFolder : string;         (* c.String("folder") *)
  lstFname : string;           (* c.String("list") *)
  outExcelFname : string       (* c.String("excel") *)
}.

Section Orchestrators.

Variable Join : string -> string -> string.
Variable decode : string -> list csv.line.
Variable png : string -> option string.
Variable fails : excelize.File -> excelize.call -> bool.
Variable xlsx : excelize.File -> string.

(** The loop over the file arguments: the first error ends it. *)
Fixpoint qrcodeEach (w : World) (args : list string) : result unit * World :=
  match args with
  | [] => (Ok tt, w)
  | vcfFname :: rest =>
      match geneateQRCodeByFile png w vcfFname with
      | (Ok _, w) => qrcodeEach w rest
      | (r, w) => (r, w)
      end
  end.

(** The body of the loop over the contacts, in the full tool: a Custom
    contact must have its vCard on disk, any other has it generated; then
    the QR code is made from the file. *)
Definition contactStep (w : World) (cnt : contact) : result unit * World :=
  let '(r, w) :=
    if Answer cnt =? AnswerCustom then (os.Stat w (VcfFname cnt), w)
    else generateVCard w cnt in
  match r with
  | Ok _ => geneateQRCodeByFile png w (VcfFname cnt)
  | _ => (r, w)
  end.

Fixpoint contactLoop (w : World) (contactLst : list contact)
  : result unit * World :=
  match contactLst with
  | [] => (Ok tt, w)
  | cnt :: rest =>
      match contactStep w cnt with
      | (Ok _, w) => contactLoop w rest
      | (r, w) => (r, w)
      end
  end.

Definition mainAction (w : World) (c : Flags) : result unit * World :=
  match qrcodeEach w (Args c) with
  | (Ok _, w) =>
      let dataFolder := dataFolder c in
      let lstFname := lstFname c in
      let outExcelFname := outExcelFname c in
      if String.eqb lstFname "" then (Ok tt, w)
      else
        match parseInputList Join decode w dataFolder lstFname with
        | Ok contactLst =>
            match contactLoop w contactLst with
            | (Ok _, w) =>
                if negb (String.eqb outExcelFname "") then
                  let outExcelFname := Join dataFolder outExcelFname in
                  let '(r, _, w) :=
                    generateExcelFile fails xlsx w outExcelFname contactLst in
                  (r, w)
                else (Ok tt, w)
            | (r, w) => (r, w)
            end
        | Err e => (Err e, w)
        | Panic p => (Panic p, w)
        end
  | (r, w) => (r, w)
  end.

End Orchestrators.

(** The QR-only tool. *)
Module QRTool.

Definition mainAction (png : string -> option string) (w : World) (c : Flags)
  : result unit * World :=
  match Args c with
  | [] => (Ok tt, w)
  | args => qrcodeEach png w args
  end.

End QRTool.

(** The CSV list tool: its parser has neither the header test nor the
    response status, and its orchestrator generates a vCard only where none
    is on disk, and reads the list before the file arguments. *)
Module CSVTool.

Section Tool.

Variable Join : string -> string -> string.
Variable decode : string -> list csv.line.
Variable png : string -> option string.

Definition parseRecord (dataFolder : string) (rec : list string)
  : result (option ListCSV.contact) :=
  let? rec0 := index rec 0 in
  match strconv.ParseInt rec0 with
  | None => Ok None
  | Some v =>
      if v =? 0 then Ok None
      else
        let? rec1 := index rec 1 in
        let? rec2 := index rec 2 in
        let? rec3 := index rec 3 in
        let? rec4 := index rec 4 in
        let? rec5 := index rec 5 in
        Ok (Some (ListCSV.mkContact rec1 rec2
                    (Join dataFolder (rec3 +:+ defaultVCFExtension))
                    (formatCellNo rec4) rec5))
  end.

Fixpoint readLoop (dataFolder : string) (FieldsPerRecord : nat)
    (pending : list csv.line) (contactLst : list ListCSV.contact)
  : result (list ListCSV.contact) :=
  match pending with
  | [] => Ok contactLst
  | l :: pending' =>
      let '(read, FieldsPerRecord') := csv.readRecord FieldsPerRecord l in
      let? rec := read in
      let? parsed := parseRecord dataFolder rec in
      match parsed with
      | Some oneContact =>
          readLoop dataFolder FieldsPerRecord' pending'
                   (contactLst ++ [oneContact])%list
      | None => readLoop dataFolder FieldsPerRecord' pending' contactLst
      end
  end.

Definition parseInputList (w : World) (dataFolder lstFname : string)
  : result (list ListCSV.contact) :=
  let? fin := os.Open w (Join dataFolder lstFname) in
  readLoop dataFolder 0 (decode fin) [].

Definition contactStep (w : World) (cnt : ListCSV.contact)
  : result unit * World :=
  let '(r, w) :=
    match os.Stat w (ListCSV.VcfFname cnt) with
    | Err (ErrNotExist _) => ListCSV.generateVCard w cnt
    | _ => (Ok tt, w)
    end in
  match r with
  | Ok _ => geneateQRCodeByFile png w (ListCSV.VcfFname cnt)
  | _ => (r, w)
  end.

Fixpoint contactLoop (w : World) (contactLst : list ListCSV.contact)
  : result unit * World :=
  match contactLst with
  | [] => (Ok tt, w)
  | cnt :: rest =>
      match contactStep w cnt with
      | (Ok _, w) => contactLoop w rest
      | (r, w) => (r, w)
      end
  end.

Definition mainAction (w : World) (c : Flags) : result unit * World :=
  let dataFolder := dataFolder c in
  let lstFname := lstFname c in
  let '(r, w) :=
    if negb (String.eqb lstFname "") then
      match parseInputList w dataFolder lstFname with
      | Ok contactLst => contactLoop w contactLst
      | Err e => (Err e, w)
      | Panic p => (Panic p, w)
      end
    else (Ok tt, w) in
  match r with
  | Ok _ =>
      match Args c with
      | [] => (Ok tt, w)
      | args => qrcodeEach png w args
      end
  | _ => (r, w)
  end.

End Tool.

End CSVTool.

(** ** Auxiliary notions on strings *)

(** Every byte of [s] occurs in [cutset]. *)
Fixpoint allInCutset (s cutset : string) : bool :=
  match s with
  | "" => true
  | String c s' => strings.inCutset c cutset && allInCutset s' cutset
  end.

(** [s] is empty or its first byte occurs in [cutset]. *)
Definition headInCutset (s cutset : string) : bool :=
  match s with
  | "" => true
  | String c _ => strings.inCutset c cutset
  end.

(** [s] is not empty, and neither its first nor its last byte occurs in
    [cutset]. *)
Definition cleanEnds (s cutset : string) : bool :=
  negb (headInCutset s cutset) && negb (headInCutset (String.rev s) cutset).

(** [old] occurs in [s]. *)
Fixpoint occursIn (old s : string) : bool :=
  String.prefix old s
  || match s with
     | "" => false
     | String _ s' => occursIn old s'
     end.

(** The number of bytes [c] in [s]. *)
Fixpoint countByte (c : ascii) (s : string) : nat :=
  match s with
  | "" => 0
  | String d s' => (if Ascii.eqb c d then 1 else 0) + countByte c s'
  end.

(** ** The two vCard formatters compared *)

(** A contact of the full tool as the CSV list tool would hold it: the
    contact data is kept when the status is Accepted and blank otherwise. *)
Definition released (cnt : contact) : ListCSV.contact :=
  if Answer cnt =? AnswerYes
  then ListCSV.mkContact (Class cnt) (Fullname cnt) (VcfFname cnt)
         (Cell cnt) (Email cnt)
  else ListCSV.mkContact (Class cnt) (Fullname cnt) (VcfFname cnt) "" "".

(** A contact of the CSV list tool as an Accepted contact of the full
    tool. *)
Definition accepted (cnt : ListCSV.contact) : contact :=
  mkContact (ListCSV.Class cnt) (ListCSV.Fullname cnt) (ListCSV.VcfFname cnt)
            (ListCSV.Cell cnt) (ListCSV.Email cnt) AnswerYes.

(** ** Words for the rows of the CSV list tool *)

(** A row the CSV list tool skips: the first column is no integer or is
    zero. *)
Definition skippedRowCSV (rec : list string) : bool :=
  match rec !! 0%nat with
  | None => false
  | Some rec0 => failsOrZero rec0
  end.

(** The contact record the CSV list tool makes from a row. *)
Definition madeFromCSV (Join : string -> string -> string) (dataFolder : string)
    (rec : list string) (c : ListCSV.contact) : Prop :=
  rec !! 1%nat = Some (ListCSV.Class c)
  /\ rec !! 2%nat = Some (ListCSV.Fullname c)
  /\ (exists id, rec !! 3%nat = Some id
                 /\ ListCSV.VcfFname c = Join dataFolder (id +:+ ".vcf"))
  /\ (exists phone, rec !! 4%nat = Some phone
                    /\ ListCSV.Cell c = formatCellNo phone)
  /\ rec !! 5%nat = Some (ListCSV.Email c).

(** A contact of the full tool without its response status. *)
Definition withoutAnswer (cnt : contact) : ListCSV.contact :=
  ListCSV.mkContact (Class cnt) (Fullname cnt) (VcfFname cnt)
                    (Cell cnt) (Email cnt).

(** Every line is a row of [n] columns. *)
Definition rowsOfWidth (n : nat) (lines : list csv.line) : Prop :=
  Forall (fun l => match l with
                   | csv.Fields f0 fs => length (f0 :: fs) = n
                   | csv.Malformed => False
                   end) lines.

(** A tokeniser for plain comma-separated text without quoting. *)
Definition commaLines (content : string) : list csv.line :=
  omap (fun ln => match splitOn ","%char ln with
                  | f0 :: fs => if String.eqb ln "" then None
                                else Some (csv.Fields f0 fs)
                  | [] => None
                  end)
       (splitOn (ascii_of_nat 10) content).

(** A list of the CSV list tool: a header, a contact, a row numbered
    zero, a contact without email. *)
Definition sampleCSV : string :=
  "no,class,name,id,cell,email" +:+ nl
  +:+ "1,301,Jeff Lin,jeff,0912345678,jeff@example.org" +:+ nl
  +:+ "0,301,Bob,1003,0911222333,b@example.org" +:+ nl
  +:+ "3,302,Amy Wu,1002,02-2345-6789," +:+ nl.

Definition sampleCSVContacts : list ListCSV.contact :=
  [ListCSV.mkContact "301" "Jeff Lin" "testdata/jeff.vcf" "+886 912-345-678"
     "jeff@example.org";
   ListCSV.mkContact "302" "Amy Wu" "testdata/1002.vcf" "02-2345-6789" ""].

(** ** Words for the file system across a run *)

(** [w'] comes after [w]: the permissions are the same, no read-only file
    has changed, and no file has gone. *)
Definition comesAfter (w w' : World) : Prop :=
  readonly w' = readonly w
  /\ (forall p : string, p ∈ readonly w -> files w' !! p = files w !! p)
  /\ (forall p : string, is_Some (files w !! p) -> is_Some (files w' !! p)).

(** A list file of the full tool holding one Custom contact, and a world
    in which the vCard of that contact is missing. *)
Definition customList : string :=
  headerRow
  +:+ tabbed ["1"; "301"; "Jeff Lin"; "jeff"; "0912345678";
              "jeff@example.org"; "2"] +:+ nl.

Definition sampleFlags : Flags :=
  mkFlags [] "testdata" "list.txt" "out.xlsx".

(** ** Well-formed UTF-8

    The decoder signals an encoding error by [(RuneError, 1)]; a string is
    valid UTF-8 ([utf8.ValidString]) when decoding it meets none. *)

Definition encodingError (step : utf8.rune * nat) : bool :=
  (fst step =? utf8.RuneError) && (snd step <=? 1)%nat.

Fixpoint validFrom (fuel : nat) (s : string) : bool :=
  match fuel with
  | O => true
  | S fuel' =>
      match s with
      | "" => true
      | _ =>
          negb (encodingError (utf8.DecodeRuneInString s))
          && validFrom fuel' (strings.sliceFrom s (snd (utf8.DecodeRuneInString s)))
      end
  end.

Definition ValidString (s : string) : bool := validFrom (String.length s) s.

(** * Part II: properties *)

(** ** Strings *)

Lemma append_cons (c : ascii) (s t : string) :
  String c s +:+ t = String c (s +:+ t).
Proof. reflexivity. Qed.

Lemma append_nil (t : string) : "" +:+ t = t.
Proof. reflexivity. Qed.

Lemma length_append (s t : string) :
  String.length (s +:+ t) = (String.length s + String.length t)%nat.
Proof.
  induction s as [|c s IH]; [reflexivity|].
  rewrite append_cons. simpl. now rewrite IH.
Qed.

Lemma length_substring (s : string) (n m : nat) :
  (n + m <= String.length s)%nat ->
  String.length (String.substring n m s) = m.
Proof.
  revert n m. induction s as [|c s IH]; intros n m H; simpl in *.
  - destruct n, m; simpl; try reflexivity; lia.
  - destruct n as [|n].
    + destruct m as [|m]; simpl; [reflexivity|].
      f_equal. apply IH. lia.
    + apply IH. lia.
Qed.

Lemma eqb_empty (s : string) : String.eqb s "" = true <-> s = "".
Proof. destruct s; simpl; split; congruence. Qed.

(** ** The phone formatter *)

Lemma formatCellNo_hit (s : string) :
  isDomesticCell s ->
  formatCellNo s =
    "+886 " +:+ strings.slice s 1 4 +:+ "-" +:+ strings.slice s 4 7
    +:+ "-" +:+ strings.slice s 7 10.
Proof.
  intros [Hlen Hpre]. unfold formatCellNo, strings.sliceFrom, strings.slice.
  rewrite Hlen, Hpre. reflexivity.
Qed.

Lemma formatCellNo_miss (s : string) :
  ~ isDomesticCell s -> formatCellNo s = s.
Proof.
  intros Hn. unfold formatCellNo.
  destruct (String.length s =? 10)%nat eqn:Hlen; simpl; [|reflexivity].
  destruct (strings.HasPrefix s "09") eqn:Hpre; simpl; [|reflexivity].
  exfalso. apply Hn. split; [now apply Nat.eqb_eq | assumption].
Qed.

Lemma formatCellNo_hit_length (s : string) :
  isDomesticCell s -> String.length (formatCellNo s) = 16%nat.
Proof.
  intros H. rewrite (formatCellNo_hit s H). destruct H as [Hlen _].
  unfold strings.slice.
  rewrite !length_append, !length_substring by lia. reflexivity.
Qed.

Lemma isDomesticCell_dec (s : string) :
  isDomesticCell s \/ ~ isDomesticCell s.
Proof.
  unfold isDomesticCell.
  destruct (Nat.eq_dec (String.length s) 10) as [->|Hn];
    destruct (strings.HasPrefix s "09"); intuition congruence.
Qed.

(** C2: [formatCellNo] rewrites its input to "+886 " s[1:4] "-" s[4:7] "-"
    s[7:10] exactly when the input is ten bytes long and starts with "09",
    returns it unchanged otherwise, and is idempotent: its output is
    sixteen bytes long when it rewrites, so a second pass changes nothing. *)
Theorem formatCellNo_spec (s : string) :
  (isDomesticCell s ->
     formatCellNo s =
       "+886 " +:+ strings.slice s 1 4 +:+ "-" +:+ strings.slice s 4 7
       +:+ "-" +:+ strings.slice s 7 10)
  /\ (~ isDomesticCell s -> formatCellNo s = s)
  /\ (formatCellNo s <> s <-> isDomesticCell s)
  /\ formatCellNo (formatCellNo s) = formatCellNo s.
Proof.
  split; [apply formatCellNo_hit|].
  split; [apply formatCellNo_miss|].
  split; [split|].
  - intros Hne. destruct (isDomesticCell_dec s) as [H|H]; [assumption|].
    exfalso. apply Hne. now apply formatCellNo_miss.
  - intros H Heq. pose proof (formatCellNo_hit_length s H) as Hl.
    rewrite Heq in Hl. destruct H as [H10 _]. lia.
  - destruct (isDomesticCell_dec s) as [H|H].
    + apply formatCellNo_miss. intros [Hl _].
      rewrite (formatCellNo_hit_length s H) in Hl. lia.
    + now rewrite !(formatCellNo_miss s H).
Qed.

Example formatCellNo_mobile : formatCellNo "0912345678" = "+886 912-345-678".
Proof. reflexivity. Qed.

Example formatCellNo_landline : formatCellNo "0223456789" = "0223456789".
Proof. reflexivity. Qed.

Example formatCellNo_formatted :
  formatCellNo "+886 912-345-678" = "+886 912-345-678".
Proof. reflexivity. Qed.

(** ** The vCard formatter *)

Lemma runes_empty (s : string) : utf8.runes s = [] <-> s = "".
Proof.
  split.
  - destruct s as [|c s]; [reflexivity|].
    unfold utf8.runes. cbn [String.length utf8.runesFrom].
    destruct (utf8.DecodeRuneInString (String c s)). discriminate.
  - intros ->. reflexivity.
Qed.

Lemma index_first_rune (s : string) :
  s <> "" -> exists r0, index (utf8.runes s) 0 = Ok r0.
Proof.
  intros Hs. destruct (utf8.runes s) as [|r0 rs] eqn:Hr.
  - apply runes_empty in Hr. contradiction.
  - exists r0. reflexivity.
Qed.

Lemma vcardBuilder_empty_name (cnt : contact) :
  Fullname cnt = "" -> vcardBuilder cnt = Panic (IndexOutOfRange 0 0).
Proof. intros H. unfold vcardBuilder. rewrite H. reflexivity. Qed.

Lemma vcardBuilder_named (cnt : contact) :
  Fullname cnt <> "" -> exists sb, vcardBuilder cnt = Ok sb.
Proof.
  intros H. destruct (index_first_rune _ H) as [r0 Hr0].
  unfold vcardBuilder. rewrite Hr0. cbn [bind]. eexists. reflexivity.
Qed.

Lemma ListCSV_vcardBuilder_empty_name (cnt : ListCSV.contact) :
  ListCSV.Fullname cnt = "" ->
  ListCSV.vcardBuilder cnt = Panic (IndexOutOfRange 0 0).
Proof. intros H. unfold ListCSV.vcardBuilder. rewrite H. reflexivity. Qed.

Lemma ListCSV_vcardBuilder_named (cnt : ListCSV.contact) :
  ListCSV.Fullname cnt <> "" -> exists sb, ListCSV.vcardBuilder cnt = Ok sb.
Proof.
  intros H. destruct (index_first_rune _ H) as [r0 Hr0].
  unfold ListCSV.vcardBuilder. rewrite Hr0. cbn [bind]. eexists. reflexivity.
Qed.

Lemma WriteFile_no_panic (w : World) (name data : string) (p : panic) :
  fst (os.WriteFile w name data) <> Panic p.
Proof. unfold os.WriteFile. case_decide; simpl; discriminate. Qed.

(** C10: [generateVCard] indexes the first rune of [Fullname] without a
    test: in both list variants it panics (index out of range), rather than
    return an error, exactly for the contacts whose [Fullname] is empty, and
    it leaves the file system untouched then. *)
Theorem generateVCard_panics_iff_empty_name :
  (forall (w : World) (cnt : contact),
      (Fullname cnt = "" <-> exists p, fst (generateVCard w cnt) = Panic p)
      /\ (Fullname cnt = "" ->
          generateVCard w cnt = (Panic (IndexOutOfRange 0 0), w)))
  /\ (forall (w : World) (cnt : ListCSV.contact),
      (ListCSV.Fullname cnt = ""
       <-> exists p, fst (ListCSV.generateVCard w cnt) = Panic p)
      /\ (ListCSV.Fullname cnt = "" ->
          ListCSV.generateVCard w cnt = (Panic (IndexOutOfRange 0 0), w))).
Proof.
  split; intros w cnt.
  - assert (Hp : Fullname cnt = "" ->
                 generateVCard w cnt = (Panic (IndexOutOfRange 0 0), w)).
    { intros H. unfold generateVCard.
      now rewrite (vcardBuilder_empty_name cnt H). }
    split; [split|exact Hp].
    + intros H. rewrite (Hp H). eexists. reflexivity.
    + intros [p Hpanic]. destruct (decide (Fullname cnt = "")) as [|Hne];
        [assumption|exfalso].
      destruct (vcardBuilder_named cnt Hne) as [sb Hsb].
      unfold generateVCard in Hpanic. rewrite Hsb in Hpanic.
      exact (WriteFile_no_panic _ _ _ _ Hpanic).
  - assert (Hp : ListCSV.Fullname cnt = "" ->
                 ListCSV.generateVCard w cnt
                 = (Panic (IndexOutOfRange 0 0), w)).
    { intros H. unfold ListCSV.generateVCard.
      now rewrite (ListCSV_vcardBuilder_empty_name cnt H). }
    split; [split|exact Hp].
    + intros H. rewrite (Hp H). eexists. reflexivity.
    + intros [p Hpanic].
      destruct (decide (ListCSV.Fullname cnt = "")) as [|Hne];
        [assumption|exfalso].
      destruct (ListCSV_vcardBuilder_named cnt Hne) as [sb Hsb].
      unfold ListCSV.generateVCard in Hpanic. rewrite Hsb in Hpanic.
      exact (WriteFile_no_panic _ _ _ _ Hpanic).
Qed.

Lemma prefix_append (p s : string) : String.prefix p (p +:+ s) = true.
Proof.
  induction p as [|c p IH]; [now destruct s|].
  rewrite append_cons. simpl. destruct (ascii_dec c c); [exact IH|congruence].
Qed.

(** The chunks of the builder other than the EMAIL and TEL lines. *)
Lemma vcardBuilder_chunks (cnt : contact) (sb : strings.Builder) :
  vcardBuilder cnt = Ok sb ->
  exists nLine,
    String.prefix "N:" nLine = true
    /\ sb = (["BEGIN:VCARD" +:+ nl +:+ "VERSION:3.0" +:+ nl;
              "FN:" +:+ Fullname cnt +:+ nl; nLine]
             ++ (if Answer cnt =? AnswerYes then
                   (if negb (String.eqb (Email cnt) "")
                    then [emailLine (Email cnt)] else [])
                   ++ (if negb (String.eqb (Cell cnt) "")
                       then [telLine (Cell cnt)] else [])
                 else [])
             ++ ["NOTE:建中42屆" +:+ Class cnt +:+ "班同學" +:+ nl;
                 "END:VCARD" +:+ nl])%list.
Proof.
  unfold vcardBuilder. destruct (index (utf8.runes (Fullname cnt)) 0) as [r0| |];
    cbn [bind]; [|discriminate..].
  intros [= <-]. eexists. split; cycle 1.
  - unfold strings.WriteString.
    destruct (Answer cnt =? AnswerYes);
      destruct (negb (String.eqb (Email cnt) ""));
      destruct (negb (String.eqb (Cell cnt) "")); reflexivity.
  - apply prefix_append.
Qed.

Lemma prefix_head (p s : string) (a b : ascii) (t : string) :
  String.prefix (String a p) s = true -> a <> b -> s <> String b t.
Proof.
  intros Hp Hab ->. simpl in Hp. destruct (ascii_dec a b); congruence.
Qed.

(** An EMAIL or TEL line among the chunks of the builder is one of the
    optional chunks: the fixed chunks start with other bytes. *)
Lemma vcardBuilder_contact_chunk (cnt : contact) (sb : strings.Builder) :
  vcardBuilder cnt = Ok sb ->
  forall x : string,
    (In (emailLine x) sb <-> In (emailLine x) (contactLines cnt))
    /\ (In (telLine x) sb <-> In (telLine x) (contactLines cnt)).
Proof.
  intros Hsb x.
  destruct (vcardBuilder_chunks cnt sb Hsb) as (nLine & HN & ->).
  fold (contactLines cnt).
  assert (HnE : nLine <> emailLine x).
  { unfold emailLine. rewrite append_cons.
    apply (prefix_head _ _ _ _ _ HN). discriminate. }
  assert (HnT : nLine <> telLine x).
  { unfold telLine. rewrite append_cons.
    apply (prefix_head _ _ _ _ _ HN). discriminate. }
  rewrite !in_app_iff. cbn [In]. unfold emailLine, telLine in *.
  rewrite !append_cons in *.
  split; (split; [|tauto]);
    (intros [[H|[H|[H|[]]]]|[H|[H|[H|[]]]]];
     [discriminate H|discriminate H|congruence|assumption
     |discriminate H|discriminate H]).
Qed.

Lemma email_is_not_tel (x y : string) : emailLine x <> telLine y.
Proof. unfold emailLine, telLine. rewrite !append_cons. discriminate. Qed.

(** Among the chunks of the builder, the EMAIL and TEL lines. *)
Lemma vcardBuilder_contact_iff (cnt : contact) (sb : strings.Builder) :
  vcardBuilder cnt = Ok sb ->
  (In (emailLine (Email cnt)) sb
   <-> Answer cnt = AnswerYes /\ Email cnt <> "")
  /\ (In (telLine (Cell cnt)) sb
      <-> Answer cnt = AnswerYes /\ Cell cnt <> "")
  /\ (Answer cnt <> AnswerYes ->
      forall x : string, ~ In (emailLine x) sb /\ ~ In (telLine x) sb).
Proof.
  intros Hsb.
  pose proof (vcardBuilder_contact_chunk cnt sb Hsb) as Hchunk.
  pose proof email_is_not_tel as Het.
  split; [|split].
  - rewrite (proj1 (Hchunk _)); unfold contactLines.
    destruct (Z.eqb_spec (Answer cnt) AnswerYes) as [Hyes|Hno];
      [|cbn [In]; tauto].
    destruct (String.eqb (Email cnt) "") eqn:He;
      destruct (String.eqb (Cell cnt) "") eqn:Hc; cbn [negb app In];
      try (apply eqb_empty in He);
      try (assert (Email cnt <> "")
             by (intros E; apply eqb_empty in E; congruence));
      split; try tauto; intros H'; exfalso;
      repeat (destruct H' as [H'|H']); try tauto;
      solve [ symmetry in H'; apply (Het _ _ H') ].
  - rewrite (proj2 (Hchunk _)); unfold contactLines.
    destruct (Z.eqb_spec (Answer cnt) AnswerYes) as [Hyes|Hno];
      [|cbn [In]; tauto].
    destruct (String.eqb (Email cnt) "") eqn:He;
      destruct (String.eqb (Cell cnt) "") eqn:Hc; cbn [negb app In];
      try (apply eqb_empty in Hc);
      try (assert (Cell cnt <> "")
             by (intros E; apply eqb_empty in E; congruence));
      split; try tauto; intros H'; exfalso;
      repeat (destruct H' as [H'|H']); try tauto;
      solve [ apply (Het _ _ H') ].
  - intros Hno x.
    rewrite (proj1 (Hchunk x)), (proj2 (Hchunk x)); unfold contactLines.
    destruct (Z.eqb_spec (Answer cnt) AnswerYes); [contradiction|].
    cbn [In]. tauto.
Qed.

Lemma generateVCard_writes (w w' : World) (cnt : contact) :
  generateVCard w cnt = (Ok tt, w') ->
  exists sb : strings.Builder,
    vcardBuilder cnt = Ok sb
    /\ files w' !! VcfFname cnt = Some (strings.String_ sb).
Proof.
  unfold generateVCard. destruct (vcardBuilder cnt) as [sb| |] eqn:Hsb;
    [|discriminate..].
  intros Hw. exists sb. split; [reflexivity|].
  unfold os.WriteFile in Hw. case_decide; [discriminate|].
  injection Hw as <-. simpl. apply lookup_insert_eq.
Qed.

(** A declined contact with every field set: neither line is written. *)
Example generateVCard_declined :
  vcardBuilder declinedContact
  = Ok ["BEGIN:VCARD" +:+ nl +:+ "VERSION:3.0" +:+ nl;
        "FN:Amy Wu" +:+ nl; "N:A;my Wu;;;" +:+ nl;
        "NOTE:建中42屆302班同學" +:+ nl; "END:VCARD" +:+ nl].
Proof. vm_compute. reflexivity. Qed.

(** ** The QR encoder adapter *)

Section Adapter.

Variable png : string -> option string.

Lemma geneateQRCodeByFile_unreadable (w : World) (vcfFname : string) :
  files w !! vcfFname = None ->
  exists e, geneateQRCodeByFile png w vcfFname = (Err e, w).
Proof.
  intros Hnone. unfold geneateQRCodeByFile, os.ReadFile. rewrite Hnone.
  destruct (negb _); eexists; reflexivity.
Qed.

Lemma geneateQRCodeByFile_empty (w : World) (vcfFname : string) :
  files w !! vcfFname = Some "" ->
  exists e, geneateQRCodeByFile png w vcfFname = (Err e, w).
Proof.
  intros Hsome. unfold geneateQRCodeByFile, os.ReadFile. rewrite Hsome.
  destruct (negb _); eexists; reflexivity.
Qed.

(** X2: once the name is accepted and the content is read and non-empty,
    the adapter answers [nil], whatever [qrcode.WriteFile] returned. *)
Lemma geneateQRCodeByFile_ignores_WriteFile (w : World)
    (vcfFname content : string) :
  strings.Trim vcfFname defaultVCFExtension <> "" ->
  files w !! vcfFname = Some content ->
  content <> "" ->
  geneateQRCodeByFile png w vcfFname =
    (Ok tt,
     snd (qrcode.WriteFile png w content
            (strings.Trim vcfFname defaultVCFExtension +:+ ".png"))).
Proof.
  intros Hname Hfile Hcontent. unfold geneateQRCodeByFile, os.ReadFile.
  rewrite Hfile.
  destruct (String.eqb (strings.Trim vcfFname defaultVCFExtension) "") eqn:Ht.
  { apply eqb_empty in Ht. contradiction. }
  cbn [negb]. destruct content as [|c content]; [contradiction|].
  cbn [String.length Nat.eqb].
  destruct (qrcode.WriteFile png w _ _). reflexivity.
Qed.

End Adapter.

(** When the vCard file cannot be read, or is empty,
    [geneateQRCodeByFile] returns an error and leaves the file system as it
    was (no PNG is written). *)
Lemma geneateQRCodeByFile_read_errors (png : string -> option string)
    (w : World) (vcfFname : string) :
  (files w !! vcfFname = None \/ files w !! vcfFname = Some "") ->
  exists e, geneateQRCodeByFile png w vcfFname = (Err e, w).
Proof.
  intros [H|H];
    [now apply geneateQRCodeByFile_unreadable
    |now apply geneateQRCodeByFile_empty].
Qed.

(** C3: a failure of the rendering step does not propagate.  The vCard of
    contact 1001 is read and is not empty; the PNG is not produced, because
    the renderer rejects the content or because the target cannot be
    written; [qrcode.WriteFile] returns the error, and
    [geneateQRCodeByFile] reports success. *)
Theorem geneateQRCodeByFile_drops_render_error :
  (qrcode.WriteFile noPng unwritableWorld "BEGIN:VCARD" "testdata/1001.png"
     = (Err ErrEncode, unwritableWorld)
   /\ geneateQRCodeByFile noPng unwritableWorld "testdata/1001.vcf"
      = (Ok tt, unwritableWorld))
  /\ (qrcode.WriteFile samplePng unwritableWorld "BEGIN:VCARD"
        "testdata/1001.png"
      = (Err (ErrPermission "testdata/1001.png"), unwritableWorld)
      /\ geneateQRCodeByFile samplePng unwritableWorld "testdata/1001.vcf"
         = (Ok tt, unwritableWorld))
  /\ files unwritableWorld !! "testdata/1001.png" = None.
Proof. repeat split; vm_compute; reflexivity. Qed.

(** C4: for the vCard path testdata/jeff.vcf the adapter trims the bytes
    '.', 'v', 'c', 'f' off both ends of the path instead of replacing the
    extension: the PNG goes to testdata/je.png, not to testdata/jeff.png,
    which is where the spreadsheet builder looks for it. *)
Theorem png_path_trims_name :
  strings.Trim "testdata/jeff.vcf" defaultVCFExtension +:+ ".png"
    = "testdata/je.png"
  /\ fst (geneateQRCodeByFile samplePng sampleWorld "testdata/jeff.vcf") = Ok tt
  /\ files (snd (geneateQRCodeByFile samplePng sampleWorld "testdata/jeff.vcf"))
       !! "testdata/je.png" = Some "PNG:BEGIN:VCARD"
  /\ files (snd (geneateQRCodeByFile samplePng sampleWorld "testdata/jeff.vcf"))
       !! "testdata/jeff.png" = None
  /\ imgFname sampleContact = "testdata/jeff.png".
Proof. repeat split; vm_compute; reflexivity. Qed.

(** ** The list parser *)

Section Parser.

Variable Join : string -> string -> string.
Variable decode : string -> list csv.line.

Lemma index_lookup {A : Type} (s : list A) (i : nat) (a : A) :
  s !! i = Some a -> index s i = Ok a.
Proof. intros H. unfold index. now rewrite H. Qed.

Lemma index_Ok {A : Type} (s : list A) (i : nat) (a : A) :
  index s i = Ok a -> s !! i = Some a.
Proof. unfold index. destruct (s !! i); [congruence|discriminate]. Qed.

Lemma lookup_below {A : Type} (s : list A) (i j : nat) (a : A) :
  s !! j = Some a -> (i <= j)%nat -> exists b, s !! i = Some b.
Proof.
  intros Hj Hle. apply lookup_lt_Some in Hj.
  destruct (lookup_lt_is_Some_2 s i) as [b Hb]; [lia|]. now exists b.
Qed.

Lemma parseRecord_skipped (dataFolder : string) (rec : list string) :
  skippedRow rec = true -> parseRecord Join dataFolder rec = Ok None.
Proof.
  unfold skippedRow, parseRecord.
  destruct (rec !! 0%nat) as [rec0|] eqn:H0; [|discriminate].
  rewrite (index_lookup _ _ _ H0). cbn [bind].
  destruct (String.eqb rec0 "no"); [reflexivity|].
  unfold failsOrZero. destruct (strconv.ParseInt rec0) as [v|]; [|reflexivity].
  destruct (v =? 0); [reflexivity|]. cbn [orb].
  destruct (rec !! 6%nat) as [rec6|] eqn:H6; [|discriminate].
  intros Hneg.
  destruct (lookup_below rec 1 6 _ H6 ltac:(lia)) as [rec1 H1].
  destruct (lookup_below rec 2 6 _ H6 ltac:(lia)) as [rec2 H2].
  destruct (lookup_below rec 3 6 _ H6 ltac:(lia)) as [rec3 H3].
  destruct (lookup_below rec 4 6 _ H6 ltac:(lia)) as [rec4 H4].
  destruct (lookup_below rec 5 6 _ H6 ltac:(lia)) as [rec5 H5].
  rewrite (index_lookup _ _ _ H1), (index_lookup _ _ _ H2),
    (index_lookup _ _ _ H3), (index_lookup _ _ _ H4),
    (index_lookup _ _ _ H5), (index_lookup _ _ _ H6).
  cbn [bind]. unfold failsOrNegative in Hneg.
  destruct (strconv.ParseInt rec6) as [a|]; [|reflexivity].
  now rewrite Hneg.
Qed.

(** C5, for the rows the reader returns: such a row whose first column is
    "no", is no integer or is zero, or whose response-status column is no
    integer or is negative, yields no contact and no error, and the read
    loop goes on with the remaining rows and the contacts it had.  (A row
    the reader rejects ends the parse with the reader's error, whatever its
    first column holds: see [parseInputList_marker_row_aborts].) *)
Theorem parseInputList_skips_row (dataFolder : string) (rec : list string) :
  skippedRow rec = true ->
  parseRecord Join dataFolder rec = Ok None
  /\ forall (FieldsPerRecord : nat) (l : csv.line) (pending : list csv.line)
            (contactLst : list contact),
       fst (csv.readRecord FieldsPerRecord l) = Ok rec ->
       readLoop Join dataFolder FieldsPerRecord (l :: pending) contactLst
       = readLoop Join dataFolder (snd (csv.readRecord FieldsPerRecord l))
           pending contactLst.
Proof.
  intros Hskip. pose proof (parseRecord_skipped dataFolder rec Hskip) as Hnone.
  split; [exact Hnone|].
  intros fpr l pending contactLst Hread. cbn [readLoop].
  destruct (csv.readRecord fpr l) as [read fpr']. cbn [fst snd] in *.
  subst read. cbn [bind]. rewrite Hnone. reflexivity.
Qed.

Lemma parseRecord_kept (dataFolder : string) (rec : list string) (c : contact) :
  parseRecord Join dataFolder rec = Ok (Some c) ->
  madeFrom Join dataFolder rec c /\ 0 <= Answer c /\ skippedRow rec = false.
Proof.
  unfold parseRecord, skippedRow, madeFrom, failsOrZero, failsOrNegative.
  destruct (index rec 0) as [rec0| |] eqn:H0; cbn [bind]; [|discriminate..].
  apply index_Ok in H0. rewrite H0.
  destruct (String.eqb rec0 "no"); [discriminate|].
  destruct (strconv.ParseInt rec0) as [v|]; [|discriminate].
  destruct (v =? 0); [discriminate|].
  destruct (index rec 1) as [rec1| |] eqn:H1; cbn [bind]; [|discriminate..].
  destruct (index rec 2) as [rec2| |] eqn:H2; cbn [bind]; [|discriminate..].
  destruct (index rec 3) as [rec3| |] eqn:H3; cbn [bind]; [|discriminate..].
  destruct (index rec 4) as [rec4| |] eqn:H4; cbn [bind]; [|discriminate..].
  destruct (index rec 5) as [rec5| |] eqn:H5; cbn [bind]; [|discriminate..].
  destruct (index rec 6) as [rec6| |] eqn:H6; cbn [bind]; [|discriminate..].
  apply index_Ok in H1, H2, H3, H4, H5, H6. rewrite H6.
  destruct (strconv.ParseInt rec6) as [a|] eqn:Ha; [|discriminate].
  destruct (a <? 0) eqn:Hneg; [discriminate|].
  intros [= <-]. cbn [Class Fullname VcfFname Cell Email Answer orb].
  apply Z.ltb_ge in Hneg.
  repeat split; try assumption; try reflexivity; eauto.
Qed.

Lemma readRecord_Ok (FieldsPerRecord : nat) (l : csv.line) (rec : list string) :
  fst (csv.readRecord FieldsPerRecord l) = Ok rec ->
  exists f0 fs, l = csv.Fields f0 fs /\ rec = f0 :: fs.
Proof.
  destruct l as [f0 fs|]; [|discriminate]. unfold csv.readRecord.
  destruct (0 <? FieldsPerRecord)%nat; [destruct (negb _)|];
    cbn [fst]; intros [= <-]; eauto.
Qed.

(** The contacts of a successful read loop: those it had, then one for each
    row that is not skipped, in the order of the rows. *)
Lemma readLoop_Ok (dataFolder : string) (pending : list csv.line) :
  forall (FieldsPerRecord : nat) (contactLst cs : list contact),
    readLoop Join dataFolder FieldsPerRecord pending contactLst = Ok cs ->
    exists new : list contact,
      cs = (contactLst ++ new)%list
      /\ Forall2 (madeFrom Join dataFolder)
           (List.filter (fun rec => negb (skippedRow rec)) (records pending))
           new
      /\ Forall (fun c => 0 <= Answer c) new.
Proof.
  induction pending as [|l pending IH]; intros fpr contactLst cs; cbn [readLoop].
  - intros [= <-]. exists []. rewrite app_nil_r. repeat constructor.
  - destruct (csv.readRecord fpr l) as [read fpr'] eqn:Hread.
    destruct read as [rec| |]; cbn [bind]; [|discriminate..].
    destruct (readRecord_Ok fpr l rec) as (f0 & fs & -> & ->);
      [now rewrite Hread|].
    destruct (parseRecord Join dataFolder (f0 :: fs)) as [[c|]| |] eqn:Hp;
      cbn [bind]; [| |discriminate..].
    + intros Hloop. destruct (IH _ _ _ Hloop) as (new & -> & Hrows & Hans).
      destruct (parseRecord_kept _ _ _ Hp) as (Hmade & Hnonneg & Hkeep).
      exists (c :: new). rewrite <- app_assoc. split; [reflexivity|].
      unfold records. cbn [omap list_omap List.filter].
      fold (records pending). rewrite Hkeep. cbn [negb].
      split; constructor; assumption.
    + intros Hloop. destruct (IH _ _ _ Hloop) as (new & -> & Hrows & Hans).
      exists new. split; [reflexivity|].
      unfold records. cbn [omap list_omap List.filter].
      fold (records pending).
      destruct (skippedRow (f0 :: fs)) eqn:Hskip; cbn [negb];
        [now split|].
      exfalso. revert Hp Hskip. clear.
      unfold parseRecord, skippedRow, failsOrZero, failsOrNegative.
      assert (H0 : (f0 :: fs) !! 0%nat = Some f0) by reflexivity.
      rewrite (index_lookup _ _ _ H0), H0. cbn [bind].
      destruct (String.eqb f0 "no"); [discriminate|].
      destruct (strconv.ParseInt f0) as [v|]; [|discriminate].
      destruct (v =? 0); [discriminate|]. cbn [orb].
      destruct (index (f0 :: fs) 1) as [rec1| |] eqn:H1; cbn [bind]; [|discriminate..].
      destruct (index (f0 :: fs) 2) as [rec2| |] eqn:H2; cbn [bind]; [|discriminate..].
      destruct (index (f0 :: fs) 3) as [rec3| |] eqn:H3; cbn [bind]; [|discriminate..].
      destruct (index (f0 :: fs) 4) as [rec4| |] eqn:H4; cbn [bind]; [|discriminate..].
      destruct (index (f0 :: fs) 5) as [rec5| |] eqn:H5; cbn [bind]; [|discriminate..].
      destruct (index (f0 :: fs) 6) as [rec6| |] eqn:H6; cbn [bind]; [|discriminate..].
      apply index_Ok in H6. rewrite H6.
      destruct (strconv.ParseInt rec6) as [a|]; [|discriminate].
      destruct (a <? 0); discriminate.
Qed.

(** C6: the list [parseInputList] returns holds, in the order of the rows
    of the file, one contact for each row that is not skipped; each contact
    is made from the fixed columns of its row, its [VcfFname] being the data
    folder joined with the file-base-name column plus ".vcf"; and every
    [Answer] is non-negative, so no Cancelled contact is in the list. *)
Theorem parseInputList_invariants (w : World) (dataFolder lstFname : string)
    (cs : list contact) :
  parseInputList Join decode w dataFolder lstFname = Ok cs ->
  exists content : string,
    files w !! Join dataFolder lstFname = Some content
    /\ Forall2 (madeFrom Join dataFolder)
         (List.filter (fun rec => negb (skippedRow rec))
            (records (decode content)))
         cs
    /\ Forall (fun c => 0 <= Answer c /\ Answer c <> AnswerCancel) cs.
Proof.
  unfold parseInputList, os.Open, os.ReadFile.
  destruct (files w !! Join dataFolder lstFname) as [content|];
    cbn [bind]; [|discriminate].
  intros Hloop. exists content. split; [reflexivity|].
  destruct (readLoop_Ok _ _ _ _ _ Hloop) as (new & -> & Hrows & Hans).
  cbn [app]. split; [exact Hrows|].
  eapply Forall_impl; [exact Hans|].
  intros c Hc. cbn beta in *. unfold AnswerCancel. lia.
Qed.

Lemma readLoop_reader_error (dataFolder : string) (FieldsPerRecord : nat)
    (l : csv.line) (pending : list csv.line) (contactLst : list contact)
    (e : error) :
  fst (csv.readRecord FieldsPerRecord l) = Err e ->
  readLoop Join dataFolder FieldsPerRecord (l :: pending) contactLst = Err e.
Proof.
  intros Hread. cbn [readLoop]. destruct (csv.readRecord FieldsPerRecord l).
  cbn [fst] in Hread. now subst.
Qed.

Lemma readRecord_set (n : nat) (l : csv.line) (rec : list string) :
  (0 < n)%nat -> fst (csv.readRecord n l) = Ok rec ->
  snd (csv.readRecord n l) = n /\ length rec = n.
Proof.
  intros Hn. destruct l as [f0 fs|]; [|discriminate]. unfold csv.readRecord.
  destruct (Nat.ltb_spec 0 n); [|lia].
  destruct (Nat.eqb_spec (length (f0 :: fs)) n); cbn [negb fst snd];
    [|discriminate].
  intros [= <-]. now split.
Qed.

Lemma readLoop_app (dataFolder : string) (before : list csv.line) :
  forall (FieldsPerRecord : nat) (after : list csv.line)
         (contactLst cs : list contact),
    readLoop Join dataFolder FieldsPerRecord before contactLst = Ok cs ->
    readLoop Join dataFolder FieldsPerRecord (before ++ after) contactLst
    = readLoop Join dataFolder (fieldsAfter FieldsPerRecord before) after cs.
Proof.
  induction before as [|l before IH]; intros fpr after contactLst cs;
    cbn [readLoop app fieldsAfter].
  - now intros [= <-].
  - destruct (csv.readRecord fpr l) as [read fpr']. cbn [snd].
    destruct read as [rec| |]; cbn [bind]; [|discriminate..].
    destruct (parseRecord Join dataFolder rec) as [[c|]| |];
      cbn [bind]; [| |discriminate..]; apply IH.
Qed.

Lemma fieldsAfter_set (dataFolder : string) (before : list csv.line) :
  forall (n : nat) (contactLst cs : list contact),
    (0 < n)%nat ->
    readLoop Join dataFolder n before contactLst = Ok cs ->
    fieldsAfter n before = n.
Proof.
  induction before as [|l before IH]; intros n contactLst cs Hn;
    cbn [readLoop fieldsAfter]; [reflexivity|].
  destruct (csv.readRecord n l) as [read fpr'] eqn:Hread.
  destruct read as [rec| |]; cbn [bind snd]; [|discriminate..].
  destruct (readRecord_set n l rec Hn) as [Hsame _]; [now rewrite Hread|].
  rewrite Hread in Hsame. cbn [snd] in Hsame. subst fpr'.
  destruct (parseRecord Join dataFolder rec) as [[c|]| |];
    cbn [bind]; [| |discriminate..]; now apply IH.
Qed.

(** After the lines [before] were read without error, the reader answers
    for the next line what the field-count rule says. *)
Lemma readerRejects_sound (dataFolder : string) (before : list csv.line)
    (l : csv.line) (cs : list contact) (e : error) :
  readLoop Join dataFolder 0 before [] = Ok cs ->
  readerRejects before l = Some e ->
  fst (csv.readRecord (fieldsAfter 0 before) l) = Err e.
Proof.
  intros Hloop Hrej. destruct l as [f0 fs|];
    [|injection Hrej as <-; reflexivity].
  destruct before as [|[g0 gs|] before]; [discriminate| |discriminate].
  cbn [readerRejects] in Hrej.
  destruct (Nat.eqb_spec (length (f0 :: fs)) (length (g0 :: gs)));
    [discriminate|]. injection Hrej as <-.
  assert (Hfirst : csv.readRecord 0 (csv.Fields g0 gs)
                   = (Ok (g0 :: gs), length (g0 :: gs))) by reflexivity.
  cbn [readLoop fieldsAfter] in *. rewrite Hfirst in *. cbn [snd bind] in *.
  assert (Hset : fieldsAfter (length (g0 :: gs)) before = length (g0 :: gs)).
  { destruct (parseRecord Join dataFolder (g0 :: gs)) as [[c|]| |];
      cbn [bind] in Hloop; [| |discriminate..];
      (eapply fieldsAfter_set; [cbn [length]; lia|exact Hloop]). }
  rewrite Hset. unfold csv.readRecord.
  assert (Hpos : (0 <? length (g0 :: gs))%nat = true) by reflexivity.
  rewrite Hpos.
  destruct (Nat.eqb_spec (length (f0 :: fs)) (length (g0 :: gs)));
    [contradiction|reflexivity].
Qed.

Lemma parseRecord_wide (dataFolder : string) (rec : list string) (p : panic) :
  (7 <= length rec)%nat -> parseRecord Join dataFolder rec <> Panic p.
Proof.
  intros Hlen. unfold parseRecord.
  destruct (lookup_lt_is_Some_2 rec 0 ltac:(lia)) as [r0 H0].
  destruct (lookup_lt_is_Some_2 rec 1 ltac:(lia)) as [r1 H1].
  destruct (lookup_lt_is_Some_2 rec 2 ltac:(lia)) as [r2 H2].
  destruct (lookup_lt_is_Some_2 rec 3 ltac:(lia)) as [r3 H3].
  destruct (lookup_lt_is_Some_2 rec 4 ltac:(lia)) as [r4 H4].
  destruct (lookup_lt_is_Some_2 rec 5 ltac:(lia)) as [r5 H5].
  destruct (lookup_lt_is_Some_2 rec 6 ltac:(lia)) as [r6 H6].
  rewrite (index_lookup _ _ _ H0), (index_lookup _ _ _ H1),
    (index_lookup _ _ _ H2), (index_lookup _ _ _ H3),
    (index_lookup _ _ _ H4), (index_lookup _ _ _ H5),
    (index_lookup _ _ _ H6).
  cbn [bind]. destruct (String.eqb r0 "no"); [discriminate|].
  destruct (strconv.ParseInt r0) as [v|]; [|discriminate].
  destruct (v =? 0); [discriminate|].
  destruct (strconv.ParseInt r6) as [a|]; [|discriminate].
  destruct (a <? 0); discriminate.
Qed.

(** Once the reader expects seven columns or more, the loop cannot panic. *)
Lemma readLoop_wide (dataFolder : string) (pending : list csv.line) :
  forall (n : nat) (contactLst : list contact) (p : panic),
    (7 <= n)%nat ->
    readLoop Join dataFolder n pending contactLst <> Panic p.
Proof.
  induction pending as [|l pending IH]; intros n contactLst p Hn;
    cbn [readLoop]; [discriminate|].
  destruct (csv.readRecord n l) as [read fpr'] eqn:Hread.
  destruct read as [rec| |]; cbn [bind]; [|discriminate|].
  - destruct (readRecord_set n l rec) as [Hsame Hlen];
      [lia|now rewrite Hread|].
    rewrite Hread in Hsame. cbn [snd] in Hsame. subst fpr'.
    pose proof (parseRecord_wide dataFolder rec p ltac:(lia)) as Hnp.
    destruct (parseRecord Join dataFolder rec) as [[c|]| |];
      cbn [bind]; [now apply IH|now apply IH|discriminate|congruence].
  - destruct l as [f0 fs|]; unfold csv.readRecord in Hread;
      [|discriminate].
    destruct (0 <? n)%nat; [destruct (negb _)|]; discriminate.
Qed.

(** C7, as the code has it: [parseInputList] fails with the error of
    [os.Open] when the list file cannot be opened; it fails with the
    reader's error, for the whole parse, at the first line the reader
    rejects (a malformed line, or a row whose column count differs from
    that of the first row), the rows before it having been read; and when
    the first row has seven columns or more it never panics, so every
    short row is such an error. *)
Theorem parseInputList_fatal_errors (w : World) (dataFolder lstFname : string) :
  (files w !! Join dataFolder lstFname = None ->
   parseInputList Join decode w dataFolder lstFname
   = Err (ErrNotExist (Join dataFolder lstFname)))
  /\ (forall (content : string) (before : list csv.line) (l : csv.line)
             (after : list csv.line) (contacts : list contact) (e : error),
        files w !! Join dataFolder lstFname = Some content ->
        decode content = (before ++ l :: after)%list ->
        readLoop Join dataFolder 0 before [] = Ok contacts ->
        readerRejects before l = Some e ->
        parseInputList Join decode w dataFolder lstFname = Err e)
  /\ (forall (content f0 : string) (fs : list string) (rest : list csv.line)
             (p : panic),
        files w !! Join dataFolder lstFname = Some content ->
        decode content = csv.Fields f0 fs :: rest ->
        (7 <= length (f0 :: fs))%nat ->
        parseInputList Join decode w dataFolder lstFname <> Panic p).
Proof.
  unfold parseInputList, os.Open, os.ReadFile. split; [|split].
  - intros ->. reflexivity.
  - intros content before l after contacts e Hfile Hdec Hloop Hrej.
    rewrite Hfile. cbn [bind]. rewrite Hdec.
    rewrite (readLoop_app _ _ _ _ _ _ Hloop).
    apply readLoop_reader_error.
    exact (readerRejects_sound _ _ _ _ _ Hloop Hrej).
  - intros content f0 fs rest p Hfile Hdec Hlen.
    rewrite Hfile. cbn [bind]. rewrite Hdec. cbn [readLoop].
    assert (Hfirst : csv.readRecord 0 (csv.Fields f0 fs)
                     = (Ok (f0 :: fs), length (f0 :: fs))) by reflexivity.
    rewrite Hfirst. cbn [bind].
    pose proof (parseRecord_wide dataFolder (f0 :: fs) p Hlen) as Hnp.
    destruct (parseRecord Join dataFolder (f0 :: fs)) as [[c|]| |];
      cbn [bind]; [now apply readLoop_wide|now apply readLoop_wide
                  |discriminate|congruence].
Qed.

End Parser.

(** A header row, an accepted contact, a cancelled one and a declined
    one, as tab-separated text: the cancelled one is left out. *)
Example parseInputList_sample :
  parseInputList joinPath plainLines (listWorld sampleList) "testdata" "list.txt"
  = Ok sampleContacts.
Proof. vm_compute. reflexivity. Qed.

Lemma parseInputList_skips_row_witness :
  skippedRow ["3"; "301"; "Bob"; "1003"; "0911222333"; ""; "-1"] = true
  /\ parseRecord joinPath "testdata"
       ["3"; "301"; "Bob"; "1003"; "0911222333"; ""; "-1"] = Ok None.
Proof.
  split; [reflexivity|].
  apply (parseInputList_skips_row joinPath "testdata"
           ["3"; "301"; "Bob"; "1003"; "0911222333"; ""; "-1"]).
  reflexivity.
Defined.

Lemma parseInputList_invariants_witness :
  parseInputList joinPath plainLines (listWorld sampleList) "testdata" "list.txt"
  = Ok sampleContacts
  /\ exists content : string,
       files (listWorld sampleList) !! joinPath "testdata" "list.txt"
       = Some content
       /\ Forall2 (madeFrom joinPath "testdata")
            (List.filter (fun rec => negb (skippedRow rec))
               (records (plainLines content)))
            sampleContacts
       /\ Forall (fun c => 0 <= Answer c /\ Answer c <> AnswerCancel)
            sampleContacts.
Proof.
  split; [vm_compute; reflexivity|].
  apply (parseInputList_invariants joinPath plainLines (listWorld sampleList)
           "testdata" "list.txt" sampleContacts).
  vm_compute. reflexivity.
Defined.

(** C5 as stated fails: a row numbered zero that has two columns, after a
    header of seven, is a row to skip by its first column, but the reader
    rejects it for its column count and the whole parse fails. *)
Lemma parseInputList_marker_row_aborts :
  skippedRow ["0"; "end of list"] = true
  /\ plainLines (headerRow +:+ tabbed ["0"; "end of list"] +:+ nl)
     = [csv.Fields "no" ["class"; "name"; "id"; "cell"; "email"; "answer"];
        csv.Fields "0" ["end of list"]]
  /\ parseInputList joinPath plainLines
       (listWorld (headerRow +:+ tabbed ["0"; "end of list"] +:+ nl))
       "testdata" "list.txt"
     = Err ErrFieldCount.
Proof. repeat split; vm_compute; reflexivity. Qed.

(** C7 as stated fails: a list file whose only row has three columns is
    accepted by the reader (the first row sets the column count), and
    [parseInputList] panics at the missing fourth column instead of
    returning an error. *)
Lemma parseInputList_short_first_row_panics :
  plainLines shortList = [csv.Fields "1" ["301"; "Bob"]]
  /\ parseInputList joinPath plainLines (listWorld shortList)
       "testdata" "list.txt"
     = Panic (IndexOutOfRange 3 3).
Proof. split; vm_compute; reflexivity. Qed.

(** With a header row of seven columns the same short row is an error. *)
Lemma parseInputList_fatal_errors_witness :
  plainLines (headerRow +:+ shortList)
  = [csv.Fields "no" ["class"; "name"; "id"; "cell"; "email"; "answer"];
     csv.Fields "1" ["301"; "Bob"]]
  /\ parseInputList joinPath plainLines
       (listWorld (headerRow +:+ shortList)) "testdata" "list.txt"
     = Err ErrFieldCount.
Proof.
  split; [vm_compute; reflexivity|].
  apply (proj1 (proj2 (parseInputList_fatal_errors joinPath plainLines
                         (listWorld (headerRow +:+ shortList))
                         "testdata" "list.txt"))
           (headerRow +:+ shortList)
           [csv.Fields "no" ["class"; "name"; "id"; "cell"; "email"; "answer"]]
           (csv.Fields "1" ["301"; "Bob"]) [] []);
    vm_compute; reflexivity.
Defined.

(** ** The spreadsheet builder *)

Ltac pow_consts :=
  change (2 ^ 62) with 4611686018427387904 in *;
  change (2 ^ 63) with 9223372036854775808 in *;
  change (2 ^ 64) with 18446744073709551616 in *.

Lemma wrap64_small (z : Z) : - 2 ^ 63 <= z < 2 ^ 63 -> wrap64 z = z.
Proof.
  intros H. unfold wrap64. pow_consts.
  rewrite Z.mod_small; lia.
Qed.

Lemma FormatInt_inj (a b : Z) :
  strconv.FormatInt a = strconv.FormatInt b -> a = b.
Proof. apply pretty_Z_inj. Qed.

Lemma cell_inj (c d : ascii) (a b : Z) :
  String c "" +:+ strconv.FormatInt a = String d "" +:+ strconv.FormatInt b ->
  c = d /\ a = b.
Proof.
  rewrite !append_cons, !append_nil. intros [= -> H].
  split; [reflexivity|now apply FormatInt_inj].
Qed.

Lemma gridColumn_letter (i : Z) :
  gridColumn i = String (if Z.even i then "A"%char else "B"%char) "".
Proof. unfold gridColumn. now destruct (Z.even i). Qed.

Lemma qrColID_grid (i : Z) : 0 <= i -> qrColID i = gridColumn i.
Proof.
  intros Hi. unfold qrColID, gridColumn.
  rewrite Z.rem_mod_nonneg by lia.
  rewrite Zeven_mod. reflexivity.
Qed.

Lemma qrRowID_grid (i : Z) :
  0 <= i < 2 ^ 62 -> qrRowID i = 2 * (i / 2) + 1.
Proof.
  intros Hi. unfold qrRowID.
  rewrite Z.quot_div_nonneg by lia.
  assert (0 <= i / 2 <= i) by (split; [apply Z.div_pos|apply Z.div_le_upper_bound]; lia).
  pow_consts.
  rewrite (wrap64_small (i / 2 * 2)) by (pow_consts; lia).
  rewrite wrap64_small by (pow_consts; lia). lia.
Qed.

(** The cells of contact [i] on the grid, in the words of the
    specification. *)
Lemma txtCellID_grid (i : Z) :
  0 <= i < 2 ^ 62 ->
  txtCellID i = gridColumn i +:+ strconv.FormatInt (2 * (i / 2) + 1).
Proof.
  intros Hi. unfold txtCellID.
  rewrite qrColID_grid, qrRowID_grid by lia. reflexivity.
Qed.

Lemma imgCellID_grid (i : Z) :
  0 <= i < 2 ^ 62 ->
  imgCellID i = gridColumn i +:+ strconv.FormatInt (2 * (i / 2) + 2).
Proof.
  intros Hi. unfold imgCellID.
  rewrite qrColID_grid, qrRowID_grid by lia.
  assert (0 <= 2 * (i / 2) <= i)
    by (split; [apply Z.mul_nonneg_nonneg; [|apply Z.div_pos]
               |apply Z.mul_div_le]; lia).
  pow_consts. rewrite wrap64_small by (pow_consts; lia).
  now replace (2 * (i / 2) + 1 + 1) with (2 * (i / 2) + 2) by lia.
Qed.

Lemma grid_position_inj (i j : Z) :
  0 <= i -> 0 <= j ->
  Z.even i = Z.even j -> i / 2 = j / 2 -> i = j.
Proof.
  intros Hi Hj Hev Hdiv.
  rewrite (Z.div_mod i 2), (Z.div_mod j 2) by lia.
  rewrite Hdiv. f_equal.
  rewrite !Zeven_mod in Hev.
  pose proof (Z.mod_pos_bound i 2 ltac:(lia)).
  pose proof (Z.mod_pos_bound j 2 ltac:(lia)).
  destruct (Z.eqb_spec (i mod 2) 0), (Z.eqb_spec (j mod 2) 0);
    try discriminate; lia.
Qed.

Lemma txtCellID_inj (i j : Z) :
  0 <= i < 2 ^ 62 -> 0 <= j < 2 ^ 62 -> txtCellID i = txtCellID j -> i = j.
Proof.
  intros Hi Hj. rewrite !txtCellID_grid, !gridColumn_letter by lia.
  intros H. apply cell_inj in H as [Hc Hr].
  apply grid_position_inj; try lia.
  destruct (Z.even i), (Z.even j); congruence.
Qed.

Lemma imgCellID_inj (i j : Z) :
  0 <= i < 2 ^ 62 -> 0 <= j < 2 ^ 62 -> imgCellID i = imgCellID j -> i = j.
Proof.
  intros Hi Hj. rewrite !imgCellID_grid, !gridColumn_letter by lia.
  intros H. apply cell_inj in H as [Hc Hr].
  apply grid_position_inj; try lia.
  destruct (Z.even i), (Z.even j); congruence.
Qed.

Section Workbook.

Variable fails : excelize.File -> excelize.call -> bool.
Variable xlsx : excelize.File -> string.
Hypothesis never : forall f c, fails f c = false.

Lemma exec_ok (f : excelize.File) (c : excelize.call) :
  excelize.exec fails f c = (Ok tt, excelize.effect f c).
Proof. unfold excelize.exec. now rewrite never. Qed.

Lemma SaveAs_ok (w : World) (fout : excelize.File) (name : string) :
  name ∉ readonly w ->
  SaveAs fails xlsx w fout name
  = (Ok tt,
     mkWorld (<[name := xlsx fout]> (files w)) (readonly w)
             (<[name := fout]> (workbooks w))).
Proof.
  intros Hw. unfold SaveAs, os.WriteFile. rewrite exec_ok.
  now rewrite decide_False by exact Hw.
Qed.

(** The first sheet: the rows from [idx] on hold the contacts, and no
    other cell is touched. *)
Lemma fillListRows_cells (contactList : list contact) :
  forall (idx : Z) (fout : excelize.File),
    0 <= idx -> idx + Z.of_nat (length contactList) < 2 ^ 62 ->
    (forall (i : nat) (cnt : contact),
        contactList !! i = Some cnt ->
        excelize.cells (fillListRows fails idx fout contactList)
          !! (sheet1Name, "A" +:+ strconv.FormatInt (idx + Z.of_nat i + 2))
        = Some (Class cnt)
        /\ excelize.cells (fillListRows fails idx fout contactList)
             !! (sheet1Name, "B" +:+ strconv.FormatInt (idx + Z.of_nat i + 2))
           = Some (Fullname cnt))
    /\ (forall k : string * string,
          (forall j : Z, idx <= j ->
             k <> (sheet1Name, "A" +:+ strconv.FormatInt (j + 2))
             /\ k <> (sheet1Name, "B" +:+ strconv.FormatInt (j + 2))) ->
          excelize.cells (fillListRows fails idx fout contactList) !! k
          = excelize.cells fout !! k)
    /\ excelize.pictures (fillListRows fails idx fout contactList)
       = excelize.pictures fout.
Proof.
  induction contactList as [|cnt rest IH]; intros idx fout Hidx Hlen.
  - cbn [fillListRows]. split; [|split]; [|reflexivity..].
    intros i c Hi. discriminate.
  - cbn [length] in Hlen. cbn [fillListRows]. rewrite !exec_ok.
    rewrite wrap64_small by (pow_consts; lia).
    set (f2 := excelize.effect (excelize.effect fout _) _).
    destruct (IH (idx + 1) f2 ltac:(lia) ltac:(lia)) as (Hrows & Hframe & Hpics).
    assert (Hcells2 : excelize.cells f2
              = <[(sheet1Name, "B" +:+ strconv.FormatInt (idx + 2)) := Fullname cnt]>
                  (<[(sheet1Name, "A" +:+ strconv.FormatInt (idx + 2)) := Class cnt]>
                     (excelize.cells fout))) by reflexivity.
    assert (Hother : forall (c d : ascii) (j : Z), idx + 1 <= j ->
              (sheet1Name, String c "" +:+ strconv.FormatInt (idx + 2))
              <> (sheet1Name, String d "" +:+ strconv.FormatInt (j + 2))).
    { intros c d j Hj Heq.
      assert (Hs : String c "" +:+ strconv.FormatInt (idx + 2)
                   = String d "" +:+ strconv.FormatInt (j + 2)) by congruence.
      apply cell_inj in Hs as [_ Hs]. lia. }
    split; [|split].
    + intros [|i] c Hi.
      * injection Hi as <-. rewrite Z.add_0_r.
        rewrite !Hframe, Hcells2.
        -- split.
           ++ rewrite lookup_insert_ne by (intros [= H]; discriminate).
              apply lookup_insert_eq.
           ++ apply lookup_insert_eq.
        -- intros j Hj. split; apply Hother; assumption.
        -- intros j Hj. split; apply Hother; assumption.
      * destruct (Hrows i c Hi) as [HA HB].
        replace (idx + Z.of_nat (S i) + 2) with (idx + 1 + Z.of_nat i + 2) by lia.
        now split.
    + intros k Hk. rewrite Hframe, Hcells2.
      * destruct (Hk idx ltac:(lia)) as [HA HB].
        rewrite !lookup_insert_ne by congruence. reflexivity.
      * intros j Hj. apply Hk. lia.
    + rewrite Hpics. reflexivity.
Qed.

(** The second sheet: the contacts from [idx] on have their text and
    their picture in their cells, and no other cell is touched. *)
Lemma genQRCodeCells_cells (txtStyleID imgStyleID : Z)
    (contactList : list contact) :
  forall (idx : Z) (fout : excelize.File),
    0 <= idx -> idx + Z.of_nat (length contactList) < 2 ^ 62 ->
    (forall (i : nat) (cnt : contact),
        contactList !! i = Some cnt ->
        excelize.cells
          (genQRCodeCells fails txtStyleID imgStyleID idx fout contactList)
          !! (sheet2Name, txtCellID (idx + Z.of_nat i))
        = Some (Class cnt +:+ " " +:+ Fullname cnt)
        /\ excelize.pictures
             (genQRCodeCells fails txtStyleID imgStyleID idx fout contactList)
             !! (sheet2Name, imgCellID (idx + Z.of_nat i))
           = Some (imgFname cnt))
    /\ (forall k : string * string,
          (forall j : Z, idx <= j < 2 ^ 62 -> k <> (sheet2Name, txtCellID j)) ->
          excelize.cells
            (genQRCodeCells fails txtStyleID imgStyleID idx fout contactList)
            !! k
          = excelize.cells fout !! k)
    /\ (forall k : string * string,
          (forall j : Z, idx <= j < 2 ^ 62 -> k <> (sheet2Name, imgCellID j)) ->
          excelize.pictures
            (genQRCodeCells fails txtStyleID imgStyleID idx fout contactList)
            !! k
          = excelize.pictures fout !! k).
Proof.
  induction contactList as [|cnt rest IH]; intros idx fout Hidx Hlen.
  - cbn [genQRCodeCells]. split; [|split]; [|reflexivity..].
    intros i c Hi. discriminate.
  - cbn [length] in Hlen. cbn [genQRCodeCells].
    repeat (rewrite exec_ok; cbn [snd]).
    match goal with
    | |- context [genQRCodeCells _ _ _ _ ?f rest] => set (f4 := f)
    end.
    destruct (IH (idx + 1) f4 ltac:(lia) ltac:(lia))
      as (Hrows & Hcells & Hpics).
    assert (Hcells4 : excelize.cells f4
              = <[(sheet2Name, txtCellID idx) := Class cnt +:+ " " +:+ Fullname cnt]>
                  (excelize.cells fout)).
    { subst f4. destruct (Z.rem idx 2 =? 0); reflexivity. }
    assert (Hpics4 : excelize.pictures f4
              = <[(sheet2Name, imgCellID idx) := imgFname cnt]>
                  (excelize.pictures fout)).
    { subst f4. destruct (Z.rem idx 2 =? 0); reflexivity. }
    assert (Htxt : forall j, idx + 1 <= j < 2 ^ 62 ->
              (sheet2Name, txtCellID idx) <> (sheet2Name, txtCellID j)).
    { intros j Hj [= H]. apply txtCellID_inj in H; lia. }
    assert (Himg : forall j, idx + 1 <= j < 2 ^ 62 ->
              (sheet2Name, imgCellID idx) <> (sheet2Name, imgCellID j)).
    { intros j Hj [= H]. apply imgCellID_inj in H; lia. }
    split; [|split].
    + intros [|i] c Hi.
      * injection Hi as <-. rewrite Z.add_0_r.
        rewrite Hcells, Hpics by assumption.
        rewrite Hcells4, Hpics4. split; apply lookup_insert_eq.
      * destruct (Hrows i c Hi) as [HT HP].
        replace (idx + Z.of_nat (S i)) with (idx + 1 + Z.of_nat i) by lia.
        now split.
    + intros k Hk. rewrite Hcells by (intros j Hj; apply Hk; lia).
      rewrite Hcells4. apply lookup_insert_ne.
      intros Heq. apply (Hk idx); [lia|]. now symmetry.
    + intros k Hk. rewrite Hpics by (intros j Hj; apply Hk; lia).
      rewrite Hpics4. apply lookup_insert_ne.
      intros Heq. apply (Hk idx); [lia|]. now symmetry.
Qed.

(** C8: when no spreadsheet call fails (and the list is short enough for
    [int] arithmetic not to wrap around), [generateExcelFile] builds, and
    when [outFname] can be written returns [nil] and saves there, a
    workbook whose first sheet has "class" in A1, "name" in B1, and the
    class and name of contact [i] (from 0, in list order) in columns A and B
    of row [i + 2]; on the second sheet contact [i] has its text in row
    [2 * (i / 2) + 1] and its picture in row [2 * (i / 2) + 2], in column A
    when [i] is even and in column B when [i] is odd. *)
Theorem generateExcelFile_layout (w : World) (outFname : string)
    (contactList : list contact) :
  Z.of_nat (length contactList) < 2 ^ 62 ->
  exists fout : excelize.File,
    snd (fst (generateExcelFile fails xlsx w outFname contactList)) = fout
    /\ ((outFname ∉ readonly w) ->
        exists w' : World,
          generateExcelFile fails xlsx w outFname contactList
          = (Ok tt, fout, w')
          /\ files w' !! outFname = Some (xlsx fout)
          /\ workbooks w' !! outFname = Some fout)
    /\ excelize.cells fout !! ("Sheet1", "A1") = Some "class"
    /\ excelize.cells fout !! ("Sheet1", "B1") = Some "name"
    /\ forall (i : nat) (cnt : contact),
         contactList !! i = Some cnt ->
         excelize.cells fout
           !! ("Sheet1", "A" +:+ strconv.FormatInt (Z.of_nat i + 2))
         = Some (Class cnt)
         /\ excelize.cells fout
              !! ("Sheet1", "B" +:+ strconv.FormatInt (Z.of_nat i + 2))
            = Some (Fullname cnt)
         /\ excelize.cells fout
              !! ("Sheet2",
                  gridColumn (Z.of_nat i)
                  +:+ strconv.FormatInt (2 * (Z.of_nat i / 2) + 1))
            = Some (Class cnt +:+ " " +:+ Fullname cnt)
         /\ excelize.pictures fout
              !! ("Sheet2",
                  gridColumn (Z.of_nat i)
                  +:+ strconv.FormatInt (2 * (Z.of_nat i / 2) + 2))
            = Some (imgFname cnt).
Proof.
  intros Hlen.
  unfold generateExcelFile, fillListSheet, genQRCodeSheet.
  repeat (rewrite exec_ok; cbn [snd]).
  match goal with
  | |- context [fillListRows _ _ ?f contactList] => set (f1 := f)
  end.
  match goal with
  | |- context [genQRCodeCells _ ?t ?s _ ?f contactList] =>
      set (tS := t); set (iS := s); set (f2 := f)
  end.
  exists (genQRCodeCells fails tS iS 0 f2 contactList).
  split; [now destruct (SaveAs fails xlsx w _ outFname)|].
  split.
  { intros Hw. rewrite SaveAs_ok by exact Hw. eexists.
    split; [reflexivity|]. split; apply lookup_insert_eq. }
  destruct (genQRCodeCells_cells tS iS contactList 0 f2 ltac:(lia) ltac:(lia))
    as (Hgrid & Hcells2 & Hpics2).
  destruct (fillListRows_cells contactList 0 f1 ltac:(lia) ltac:(lia))
    as (Hrows & Hcells1 & Hpics1).
  assert (Hf2 : excelize.cells f2
                = excelize.cells (fillListRows fails 0 f1 contactList))
    by reflexivity.
  assert (Hsheet : forall (c : string) (k : string),
             excelize.cells
               (genQRCodeCells fails tS iS 0 f2 contactList) !! (sheet1Name, c)
             = excelize.cells (fillListRows fails 0 f1 contactList)
                 !! (sheet1Name, c)).
  { intros c k. rewrite Hcells2 by (intros j Hj; discriminate).
    now rewrite Hf2. }
  assert (Hhead : forall (c : ascii) (v : string),
             excelize.cells f1
               !! (sheet1Name, String c "" +:+ strconv.FormatInt 1) = Some v ->
             excelize.cells (genQRCodeCells fails tS iS 0 f2 contactList)
               !! (sheet1Name, String c "" +:+ strconv.FormatInt 1) = Some v).
  { intros c v Hv. rewrite (Hsheet _ ""), Hcells1; [exact Hv|].
    intros j Hj.
    split; intros Heq; pose proof (f_equal snd Heq) as Hs; cbn [snd] in Hs;
      apply cell_inj in Hs as [_ Hs]; lia. }
  split; [exact (Hhead "A"%char "class" eq_refl)|].
  split; [exact (Hhead "B"%char "name" eq_refl)|].
  intros i cnt Hi.
  assert (Hbound : 0 <= Z.of_nat i < 2 ^ 62).
  { apply lookup_lt_Some in Hi. lia. }
  destruct (Hrows i cnt Hi) as [HA HB].
  destruct (Hgrid i cnt Hi) as [HT HP].
  rewrite Z.add_0_l in *.
  rewrite txtCellID_grid in HT by assumption.
  rewrite imgCellID_grid in HP by assumption.
  repeat split; [rewrite (Hsheet _ "")|rewrite (Hsheet _ "")| |]; assumption.
Qed.

End Workbook.

Lemma generateExcelFile_layout_witness :
  (forall f c, neverFails f c = false)
  /\ Z.of_nat (length sampleContacts) < 2 ^ 62
  /\ exists (fout : excelize.File) (w' : World),
       generateExcelFile neverFails sampleXlsx emptyWorld "testdata/out.xlsx"
         sampleContacts = (Ok tt, fout, w')
       /\ files w' !! "testdata/out.xlsx" = Some (sampleXlsx fout)
       /\ excelize.cells fout !! ("Sheet1", "A3") = Some "302"
       /\ excelize.cells fout !! ("Sheet1", "B3") = Some "Amy Wu"
       /\ excelize.cells fout !! ("Sheet2", "B1") = Some "302 Amy Wu"
       /\ excelize.pictures fout !! ("Sheet2", "B2") = Some "testdata/1002.png".
Proof.
  split; [reflexivity|]. split; [reflexivity|].
  destruct (generateExcelFile_layout neverFails sampleXlsx
              (fun f c => eq_refl) emptyWorld "testdata/out.xlsx"
              sampleContacts eq_refl)
    as (fout & _ & Hsave & _ & _ & Hrows).
  destruct (Hsave (not_elem_of_empty _)) as (w' & Hrun & Hfile & _).
  exists fout, w'. split; [exact Hrun|]. split; [exact Hfile|].
  exact (Hrows 1%nat (mkContact "302" "Amy Wu" "testdata/1002.vcf"
                        "02-2345-6789" "-" 0) eq_refl).
Defined.

(** X3: whatever the calls made once per contact answer (every
    [SetCellValue] but the two header cells of the first sheet, every
    [SetRowHeight], [SetCellStyle] and [AddPicture]), and whatever
    [SetColWidth] answers, [generateExcelFile] returns [nil] as long as the
    two header cells, the new sheet, its margins, the two styles and the
    save go through and the file can be written. *)
Lemma generateExcelFile_hides_loop_errors
    (fails : excelize.File -> excelize.call -> bool)
    (xlsx : excelize.File -> string) (w : World)
    (outFname : string) (contactList : list contact) :
  (forall f c, checkedCall c = true -> fails f c = false) ->
  outFname ∉ readonly w ->
  fst (fst (generateExcelFile fails xlsx w outFname contactList)) = Ok tt.
Proof.
  intros Hok Hw.
  assert (Hexec : forall f c, checkedCall c = true ->
            excelize.exec fails f c = (Ok tt, excelize.effect f c)).
  { intros f c Hc. unfold excelize.exec. now rewrite (Hok f c Hc). }
  unfold generateExcelFile, fillListSheet, genQRCodeSheet, SaveAs.
  repeat (rewrite Hexec by reflexivity; cbn [snd]).
  unfold os.WriteFile. now rewrite decide_False by exact Hw.
Qed.

(** C9: the image embedding fails for every contact (the PNG files are
    missing, say); the loop of [genQRCodeSheet] logs the error and ends, and
    [generateExcelFile] saves the workbook without any picture, the second
    contact missing from the grid, and returns [nil]. *)
Theorem generateExcelFile_swallows_picture_error :
  fst (fst (generateExcelFile picturesFail sampleXlsx emptyWorld "testdata/out.xlsx"
              sampleContacts)) = Ok tt
  /\ excelize.pictures
       (snd (fst (generateExcelFile picturesFail sampleXlsx emptyWorld "testdata/out.xlsx"
                    sampleContacts))) = ∅
  /\ excelize.cells
       (snd (fst (generateExcelFile picturesFail sampleXlsx emptyWorld "testdata/out.xlsx"
                    sampleContacts))) !! ("Sheet2", "B1") = None
  /\ workbooks
       (snd (generateExcelFile picturesFail sampleXlsx emptyWorld "testdata/out.xlsx"
               sampleContacts)) !! "testdata/out.xlsx"
     = Some (snd (fst (generateExcelFile picturesFail sampleXlsx emptyWorld
                         "testdata/out.xlsx" sampleContacts))).
Proof. repeat split; vm_compute; reflexivity. Qed.

(** ** The vCard text, line by line *)

Lemma noBreak_app (s t : string) :
  noBreak (s +:+ t) = noBreak s && noBreak t.
Proof.
  induction s as [|c s IH]; [reflexivity|].
  rewrite append_cons. cbn [noBreak]. rewrite IH. now rewrite andb_assoc.
Qed.

Lemma noBreak_substring (s : string) :
  noBreak s = true -> forall n m, noBreak (String.substring n m s) = true.
Proof.
  induction s as [|c s IH]; intros Hs n m.
  - now destruct n, m.
  - cbn [noBreak] in Hs. apply andb_true_iff in Hs as [Hc Hs].
    destruct n as [|n]; [destruct m as [|m]|]; cbn [String.substring noBreak];
      [reflexivity| |now apply IH].
    rewrite Hc. now apply IH.
Qed.

(** A line without break inside, then the rest of the text. *)
Lemma textLines_line (body rest : string) :
  noBreak body = true ->
  textLines (body +:+ nl +:+ rest) = (body +:+ nl) :: textLines rest.
Proof.
  induction body as [|c body IH]; intros Hb.
  - reflexivity.
  - cbn [noBreak] in Hb. apply andb_true_iff in Hb as [Hc Hb].
    rewrite !append_cons. cbn [textLines].
    destruct (Ascii.eqb c newline); [discriminate|].
    now rewrite (IH Hb).
Qed.

(** *** Runes and line breaks *)

Lemma land_le_r (x y : Z) : 0 <= x -> 0 <= y -> Z.land x y <= y.
Proof.
  intros Hx Hy. rewrite <- (Z2N.id x Hx), <- (Z2N.id y Hy) at 1.
  rewrite <- N2Z.inj_land. rewrite <- (Z2N.id y Hy) at 2.
  apply N2Z.inj_le, N.land_le_r.
Qed.

Lemma lor_ge_l (a b : Z) : 0 <= a -> 0 <= b -> a <= Z.lor a b.
Proof.
  intros Ha Hb. pose proof (Z.add_lor_land a b).
  pose proof (land_le_r a b Ha Hb). lia.
Qed.

Lemma lor_ge_r (a b : Z) : 0 <= a -> 0 <= b -> b <= Z.lor a b.
Proof. intros Ha Hb. rewrite Z.lor_comm. now apply lor_ge_l. Qed.

Lemma byteVal_range (c : ascii) : 0 <= utf8.byteVal c < 256.
Proof.
  unfold utf8.byteVal. pose proof (N_ascii_bounded c). lia.
Qed.

Lemma byteAt_range (s : string) (i : nat) : 0 <= utf8.byteAt s i < 256.
Proof.
  unfold utf8.byteAt. destruct (String.get i s); [apply byteVal_range|lia].
Qed.

Ltac masks :=
  change 0x1F with (Z.ones 5) in *; change 0x3F with (Z.ones 6) in *;
  change 0x0F with (Z.ones 4) in *; change 0x07 with (Z.ones 3) in *;
  rewrite ?Z.land_ones, ?Z.shiftl_mul_pow2 in * by lia.

Lemma rune2_ge (s0 s1 : Z) :
  0xC2 <= s0 < 0xE0 -> 0 <= s1 ->
  128 <= Z.lor (Z.shiftl (Z.land s0 0x1F) 6) (Z.land s1 0x3F).
Proof.
  intros H0 H1. masks.
  assert (128 <= s0 mod 2 ^ 5 * 2 ^ 6) by (Z.div_mod_to_equations; lia).
  assert (0 <= s1 mod 2 ^ 6) by (Z.div_mod_to_equations; lia).
  pose proof (lor_ge_l (s0 mod 2 ^ 5 * 2 ^ 6) (s1 mod 2 ^ 6)). lia.
Qed.

Lemma rune3_ge (s0 s1 s2 : Z) :
  (s0 = 0xE0 /\ 0xA0 <= s1 <= 0xBF) \/ 0xE1 <= s0 < 0xF0 ->
  0 <= s1 -> 0 <= s2 ->
  128 <= Z.lor (Z.lor (Z.shiftl (Z.land s0 0x0F) 12)
                      (Z.shiftl (Z.land s1 0x3F) 6))
               (Z.land s2 0x3F).
Proof.
  intros H0 H1 H2. masks.
  set (A := s0 mod 2 ^ 4 * 2 ^ 12). set (B := s1 mod 2 ^ 6 * 2 ^ 6).
  set (C := s2 mod 2 ^ 6).
  assert (0 <= A) by (subst A; Z.div_mod_to_equations; lia).
  assert (0 <= B) by (subst B; Z.div_mod_to_equations; lia).
  assert (0 <= C) by (subst C; Z.div_mod_to_equations; lia).
  assert (128 <= A \/ 128 <= B)
    by (subst A B; Z.div_mod_to_equations; lia).
  pose proof (lor_ge_l A B). pose proof (lor_ge_r A B).
  pose proof (lor_ge_l (Z.lor A B) C). lia.
Qed.

Lemma rune4_ge (s0 s1 s2 s3 : Z) :
  (s0 = 0xF0 /\ 0x90 <= s1 <= 0xBF) \/ 0xF1 <= s0 < 0xF5 ->
  0 <= s1 -> 0 <= s2 -> 0 <= s3 ->
  128 <= Z.lor (Z.lor (Z.lor (Z.shiftl (Z.land s0 0x07) 18)
                             (Z.shiftl (Z.land s1 0x3F) 12))
                      (Z.shiftl (Z.land s2 0x3F) 6))
               (Z.land s3 0x3F).
Proof.
  intros H0 H1 H2 H3. masks.
  set (A := s0 mod 2 ^ 3 * 2 ^ 18). set (B := s1 mod 2 ^ 6 * 2 ^ 12).
  set (C := s2 mod 2 ^ 6 * 2 ^ 6). set (D := s3 mod 2 ^ 6).
  assert (0 <= A) by (subst A; Z.div_mod_to_equations; lia).
  assert (0 <= B) by (subst B; Z.div_mod_to_equations; lia).
  assert (0 <= C) by (subst C; Z.div_mod_to_equations; lia).
  assert (0 <= D) by (subst D; Z.div_mod_to_equations; lia).
  assert (128 <= A \/ 128 <= B)
    by (subst A B; Z.div_mod_to_equations; lia).
  pose proof (lor_ge_l A B). pose proof (lor_ge_r A B).
  pose proof (lor_ge_l (Z.lor A B) C).
  pose proof (lor_ge_l (Z.lor (Z.lor A B) C) D). lia.
Qed.

(** What a leading byte announces, by ranges. *)
Lemma first_Lead (b : Z) (sz : nat) (lo hi : Z) :
  utf8.first b = utf8.Lead sz lo hi ->
  (sz = 2%nat /\ 0xC2 <= b < 0xE0)
  \/ (sz = 3%nat /\ ((b = 0xE0 /\ lo = 0xA0 /\ hi = 0xBF) \/ 0xE1 <= b < 0xF0))
  \/ (sz = 4%nat /\ ((b = 0xF0 /\ lo = 0x90 /\ hi = 0xBF) \/ 0xF1 <= b < 0xF5)).
Proof.
  unfold utf8.first.
  repeat match goal with
         | |- context [?x <? ?y] => destruct (Z.ltb_spec x y)
         | |- context [?x =? ?y] => destruct (Z.eqb_spec x y)
         end;
    intros [= <- <- <-] || discriminate; lia.
Qed.

Lemma byteVal_newline (c : ascii) : utf8.byteVal c = 10 -> c = newline.
Proof.
  unfold utf8.byteVal. intros H.
  rewrite <- (ascii_N_embedding c).
  replace (N_of_ascii c) with 10%N by lia. reflexivity.
Qed.

(** The first rune of a text without line break is no line break. *)
Lemma DecodeRune_noBreak (s : string) :
  noBreak s = true -> fst (utf8.DecodeRuneInString s) <> 10.
Proof.
  intros Hs. unfold utf8.DecodeRuneInString.
  destruct s as [|c0 s]; [cbn; discriminate|].
  cbn [String.length Nat.ltb Nat.leb].
  change (utf8.byteAt (String c0 s) 0) with (utf8.byteVal c0).
  pose proof (byteVal_range c0) as Hb0.
  pose proof (byteAt_range (String c0 s) 1) as Hb1.
  pose proof (byteAt_range (String c0 s) 2) as Hb2.
  pose proof (byteAt_range (String c0 s) 3) as Hb3.
  destruct (utf8.first (utf8.byteVal c0)) as [| |sz lo hi] eqn:Hfirst.
  - cbn [fst]. intros H10. apply byteVal_newline in H10. subst c0.
    cbn in Hs. discriminate.
  - cbn [fst]. discriminate.
  - apply first_Lead in Hfirst.
    repeat match goal with
           | |- context [if ?b then _ else _] => destruct b eqn:?
           end; cbn [fst]; try discriminate.
    all: repeat match goal with
                | H : (_ <=? _)%nat = true |- _ => apply Nat.leb_le in H
                | H : (_ <=? _)%nat = false |- _ => apply Nat.leb_gt in H
                | H : (_ <? _)%nat = false |- _ => clear H
                | H : _ || _ = false |- _ =>
                    apply orb_false_iff in H as [?%Z.ltb_ge ?%Z.ltb_ge]
                | H : negb _ = false |- _ => clear H
                end.
    + pose proof (rune2_ge (utf8.byteVal c0) (utf8.byteAt (String c0 s) 1)).
      destruct Hfirst as [[-> ?]|[[-> ?]|[-> ?]]]; lia.
    + pose proof (rune3_ge (utf8.byteVal c0) (utf8.byteAt (String c0 s) 1)
                    (utf8.byteAt (String c0 s) 2)).
      destruct Hfirst as [[-> ?]|[[-> ?]|[-> ?]]]; lia.
    + pose proof (rune4_ge (utf8.byteVal c0) (utf8.byteAt (String c0 s) 1)
                    (utf8.byteAt (String c0 s) 2) (utf8.byteAt (String c0 s) 3)).
      destruct Hfirst as [[-> ?]|[[-> ?]|[-> ?]]]; lia.
Qed.

Lemma runesFrom_noBreak (fuel : nat) :
  forall s : string,
    noBreak s = true -> Forall (fun r => r <> 10) (utf8.runesFrom fuel s).
Proof.
  induction fuel as [|fuel IH]; intros s Hs; cbn [utf8.runesFrom];
    [constructor|].
  destruct s as [|c s]; [constructor|].
  pose proof (DecodeRune_noBreak _ Hs) as Hr.
  destruct (utf8.DecodeRuneInString (String c s)) as [r w].
  constructor; [exact Hr|].
  apply IH. unfold strings.sliceFrom. now apply noBreak_substring.
Qed.

Lemma toByte_newline (y : Z) : utf8.toByte y = newline -> Z.land y 0xFF = 10.
Proof.
  unfold utf8.toByte. intros H.
  change 0xFF with (Z.ones 8) in *. rewrite Z.land_ones in * by lia.
  pose proof (Z.mod_pos_bound y (2 ^ 8) ltac:(lia)) as Hb.
  apply (f_equal N_of_ascii) in H.
  rewrite N_ascii_embedding in H by lia.
  change (N_of_ascii newline) with 10%N in H. lia.
Qed.

Lemma toByte_high (h x : Z) :
  Z.testbit h 7 = true -> utf8.toByte (Z.lor h x) <> newline.
Proof.
  intros Hh Hnl. apply toByte_newline in Hnl.
  apply (f_equal (fun z => Z.testbit z 7)) in Hnl.
  rewrite Z.land_spec, Z.lor_spec, Hh in Hnl. discriminate.
Qed.

Lemma eqb_newline (c : ascii) : c <> newline -> Ascii.eqb c newline = false.
Proof. apply Ascii.eqb_neq. Qed.

Lemma EncodeRune_noBreak (r : utf8.rune) :
  r <> 10 -> noBreak (utf8.EncodeRune r) = true.
Proof.
  intros Hr. unfold utf8.EncodeRune, utf8.encode3.
  repeat match goal with
         | |- context [if ?b then _ else _] => destruct b eqn:?
         end;
    cbn [noBreak]; rewrite ?eqb_newline; try reflexivity;
    try (apply toByte_high; reflexivity).
  intros Hnl. apply toByte_newline in Hnl.
  change 0xFF with (Z.ones 8) in Hnl. rewrite Z.land_ones in Hnl by lia.
  apply andb_true_iff in Heqb as [?%Z.leb_le ?%Z.leb_le].
  rewrite Z.mod_small in Hnl by lia. contradiction.
Qed.

Lemma stringOfRunes_noBreak (rs : list utf8.rune) :
  Forall (fun r => r <> 10) rs -> noBreak (utf8.stringOfRunes rs) = true.
Proof.
  induction 1 as [|r rs Hr _ IH]; [reflexivity|].
  cbn [utf8.stringOfRunes]. rewrite noBreak_app, IH.
  now rewrite EncodeRune_noBreak.
Qed.

Lemma runes_noBreak (s : string) :
  noBreak s = true -> Forall (fun r => r <> 10) (utf8.runes s).
Proof. apply runesFrom_noBreak. Qed.

Lemma append_assoc (a b c : string) : (a +:+ b) +:+ c = a +:+ (b +:+ c).
Proof.
  induction a as [|x a IH]; [reflexivity|].
  rewrite !append_cons. now rewrite IH.
Qed.

Lemma isLine_1 (a : string) : noBreak a = true -> isLine (a +:+ nl).
Proof. intros Ha. now exists a. Qed.

Lemma isLine_2 (a b : string) :
  noBreak a = true -> noBreak b = true -> isLine (a +:+ b +:+ nl).
Proof.
  intros Ha Hb. exists (a +:+ b). rewrite append_assoc.
  split; [reflexivity|]. now rewrite noBreak_app, Ha, Hb.
Qed.

Lemma isLine_3 (a b c : string) :
  noBreak a = true -> noBreak b = true -> noBreak c = true ->
  isLine (a +:+ b +:+ c +:+ nl).
Proof.
  intros Ha Hb Hc. exists (a +:+ b +:+ c). rewrite !append_assoc.
  split; [reflexivity|]. now rewrite !noBreak_app, Ha, Hb, Hc.
Qed.

Lemma isLine_5 (a b c d e : string) :
  noBreak a = true -> noBreak b = true -> noBreak c = true ->
  noBreak d = true -> noBreak e = true ->
  isLine (a +:+ b +:+ c +:+ d +:+ e +:+ nl).
Proof.
  intros Ha Hb Hc Hd He. exists (a +:+ b +:+ c +:+ d +:+ e).
  rewrite !append_assoc. split; [reflexivity|].
  now rewrite !noBreak_app, Ha, Hb, Hc, Hd, He.
Qed.

(** The lines of a text built from one-line chunks are the chunks. *)
Lemma textLines_chunks (sb : strings.Builder) :
  Forall isLine sb -> textLines (strings.String_ sb) = sb.
Proof.
  induction 1 as [|chunk sb (body & -> & Hbody) _ IH]; [reflexivity|].
  cbn [strings.String_]. rewrite append_assoc.
  now rewrite textLines_line, IH.
Qed.

(** When no field holds a line break, every chunk of the builder after
    the first is one line. *)
Lemma vcardBuilder_lines (cnt : contact) (sb : strings.Builder) :
  fieldsWithoutBreak cnt = true ->
  vcardBuilder cnt = Ok sb ->
  exists rest : list string,
    sb = ("BEGIN:VCARD" +:+ nl +:+ "VERSION:3.0" +:+ nl) :: rest
    /\ Forall isLine rest.
Proof.
  unfold fieldsWithoutBreak. intros Hf.
  apply andb_true_iff in Hf as [Hf HE]. apply andb_true_iff in Hf as [Hf HC].
  apply andb_true_iff in Hf as [HK HF].
  unfold vcardBuilder.
  pose proof (runes_noBreak _ HF) as Hrunes.
  destruct (utf8.runes (Fullname cnt)) as [|r0 rs]; [discriminate|].
  cbn [index lookup list_lookup bind drop]. inversion Hrunes as [|? ? Hr0 Hrs]; subst.
  intros [= <-]. unfold strings.WriteString, emailLine, telLine.
  pose proof (EncodeRune_noBreak r0 Hr0) as H0.
  pose proof (stringOfRunes_noBreak rs Hrs) as H1.
  destruct (Answer cnt =? AnswerYes);
    destruct (negb (String.eqb (Email cnt) ""));
    destruct (negb (String.eqb (Cell cnt) ""));
    (eexists; split; [reflexivity|]);
    repeat constructor;
    first [ now apply isLine_2 | now apply isLine_3
          | now apply isLine_5 | now apply isLine_1 ].
Qed.

Lemma In_swap_head {A : Type} (t a b c : A) (rest : list A) :
  a <> t -> b <> t -> c <> t ->
  In t (a :: b :: rest) <-> In t (c :: rest).
Proof. cbn [In]. tauto. Qed.

Lemma header_is_not_email (x : string) :
  "BEGIN:VCARD" +:+ nl <> emailLine x
  /\ "VERSION:3.0" +:+ nl <> emailLine x
  /\ "BEGIN:VCARD" +:+ nl +:+ "VERSION:3.0" +:+ nl <> emailLine x.
Proof. unfold emailLine. rewrite !append_cons. repeat split; discriminate. Qed.

Lemma header_is_not_tel (x : string) :
  "BEGIN:VCARD" +:+ nl <> telLine x
  /\ "VERSION:3.0" +:+ nl <> telLine x
  /\ "BEGIN:VCARD" +:+ nl +:+ "VERSION:3.0" +:+ nl <> telLine x.
Proof. unfold telLine. rewrite !append_cons. repeat split; discriminate. Qed.

(** The lines of the vCard text, for a contact whose fields hold no line
    break: the two header lines, then the chunks of the builder after the
    first. *)
Lemma vcard_textLines (cnt : contact) (sb : strings.Builder) :
  fieldsWithoutBreak cnt = true ->
  vcardBuilder cnt = Ok sb ->
  exists rest : list string,
    sb = ("BEGIN:VCARD" +:+ nl +:+ "VERSION:3.0" +:+ nl) :: rest
    /\ textLines (strings.String_ sb)
       = ("BEGIN:VCARD" +:+ nl) :: ("VERSION:3.0" +:+ nl) :: rest.
Proof.
  intros Hf Hsb.
  destruct (vcardBuilder_lines cnt sb Hf Hsb) as (rest & -> & Hrest).
  exists rest. split; [reflexivity|].
  cbn [strings.String_].
  rewrite !append_assoc.
  rewrite textLines_line by reflexivity.
  rewrite textLines_line by reflexivity.
  now rewrite textLines_chunks.
Qed.

(** X1: on the lines of the text.  For a contact whose fields hold no line
    break, the vCard file has the EMAIL line of the contact among its lines
    exactly when the status is Accepted and the email is non-empty, the TEL
    line exactly when the status is Accepted and the phone is non-empty,
    and no EMAIL or TEL line at all for any other status. *)
Theorem generateVCard_text_lines (w w' : World) (cnt : contact) :
  fieldsWithoutBreak cnt = true ->
  generateVCard w cnt = (Ok tt, w') ->
  exists text : string,
    files w' !! VcfFname cnt = Some text
    /\ (In (emailLine (Email cnt)) (textLines text)
        <-> Answer cnt = AnswerYes /\ Email cnt <> "")
    /\ (In (telLine (Cell cnt)) (textLines text)
        <-> Answer cnt = AnswerYes /\ Cell cnt <> "")
    /\ (Answer cnt <> AnswerYes ->
        forall x : string,
          ~ In (emailLine x) (textLines text)
          /\ ~ In (telLine x) (textLines text)).
Proof.
  intros Hf Hrun.
  destruct (generateVCard_writes w w' cnt Hrun) as (sb & Hsb & Hfile).
  exists (strings.String_ sb). split; [exact Hfile|].
  destruct (vcard_textLines cnt sb Hf Hsb) as (rest & Hshape & ->).
  assert (HE : forall x,
             In (emailLine x)
               (("BEGIN:VCARD" +:+ nl) :: ("VERSION:3.0" +:+ nl) :: rest)
             <-> In (emailLine x) sb).
  { intros x. rewrite Hshape.
    destruct (header_is_not_email x) as (H1 & H2 & H3).
    now apply In_swap_head. }
  assert (HT : forall x,
             In (telLine x)
               (("BEGIN:VCARD" +:+ nl) :: ("VERSION:3.0" +:+ nl) :: rest)
             <-> In (telLine x) sb).
  { intros x. rewrite Hshape.
    destruct (header_is_not_tel x) as (H1 & H2 & H3).
    now apply In_swap_head. }
  destruct (vcardBuilder_contact_iff cnt sb Hsb) as (Hemail & Htel & Hnone).
  split; [now rewrite HE|]. split; [now rewrite HT|].
  intros Hno x. rewrite HE, HT. now apply Hnone.
Qed.

Lemma generateVCard_text_lines_witness :
  fieldsWithoutBreak sampleContact = true
  /\ generateVCard emptyWorld sampleContact
     = (Ok tt, snd (generateVCard emptyWorld sampleContact))
  /\ exists text : string,
       files (snd (generateVCard emptyWorld sampleContact))
         !! VcfFname sampleContact = Some text
       /\ (In (emailLine (Email sampleContact)) (textLines text)
           <-> Answer sampleContact = AnswerYes /\ Email sampleContact <> "")
       /\ (In (telLine (Cell sampleContact)) (textLines text)
           <-> Answer sampleContact = AnswerYes /\ Cell sampleContact <> "")
       /\ (Answer sampleContact <> AnswerYes ->
           forall x : string,
             ~ In (emailLine x) (textLines text)
             /\ ~ In (telLine x) (textLines text)).
Proof.
  split; [reflexivity|]. split; [vm_compute; reflexivity|].
  apply (generateVCard_text_lines emptyWorld
           (snd (generateVCard emptyWorld sampleContact)) sampleContact).
  - reflexivity.
  - vm_compute. reflexivity.
Defined.

(** The premiss of the statement on lines is needed: the name of this
    declined contact holds a line break; [generateVCard] writes no EMAIL
    line for it, and what follows the break in the name is a line of the
    text. *)
Example generateVCard_name_with_break :
  fieldsWithoutBreak twoLineName = false
  /\ (forall sb, vcardBuilder twoLineName = Ok sb ->
                 ~ In (emailLine "amy@example.org") sb)
  /\ exists sb, vcardBuilder twoLineName = Ok sb
                /\ In (emailLine "amy@example.org")
                      (textLines (strings.String_ sb)).
Proof.
  split; [reflexivity|]. split.
  - intros sb Hsb.
    apply (vcardBuilder_contact_iff twoLineName sb Hsb). discriminate.
  - eexists. split; [vm_compute; reflexivity|].
    vm_compute. tauto.
Qed.

(** ** Further instances *)

Lemma geneateQRCodeByFile_ignores_WriteFile_witness :
  strings.Trim "testdata/1001.vcf" defaultVCFExtension <> ""
  /\ files unwritableWorld !! "testdata/1001.vcf" = Some "BEGIN:VCARD"
  /\ geneateQRCodeByFile noPng unwritableWorld "testdata/1001.vcf"
     = (Ok tt,
        snd (qrcode.WriteFile noPng unwritableWorld "BEGIN:VCARD"
               (strings.Trim "testdata/1001.vcf" defaultVCFExtension
                +:+ ".png"))).
Proof.
  split; [discriminate|]. split; [reflexivity|].
  apply (geneateQRCodeByFile_ignores_WriteFile noPng unwritableWorld
           "testdata/1001.vcf" "BEGIN:VCARD");
    [discriminate|reflexivity|discriminate].
Defined.

Lemma generateExcelFile_hides_loop_errors_witness :
  (forall f c, checkedCall c = true -> loopCallsFail f c = false)
  /\ ("testdata/out.xlsx" ∉ readonly emptyWorld)
  /\ fst (fst (generateExcelFile loopCallsFail sampleXlsx emptyWorld
                 "testdata/out.xlsx" sampleContacts)) = Ok tt.
Proof.
  assert (H : forall (f : excelize.File) c,
             checkedCall c = true -> loopCallsFail f c = false).
  { intros f c Hc. unfold loopCallsFail. now rewrite Hc. }
  split; [exact H|]. split; [apply not_elem_of_empty|].
  exact (generateExcelFile_hides_loop_errors loopCallsFail sampleXlsx
           emptyWorld "testdata/out.xlsx" sampleContacts H
           (not_elem_of_empty _)).
Defined.

(** * Part III: further properties of the code *)

(** ** [strings.Trim] and [strings.ReplaceAll] on file names *)

Lemma rev_app_append (s t : string) :
  String.rev_app s t = String.rev s +:+ t.
Proof.
  revert t. induction s as [|c s IH]; intros t; [reflexivity|].
  unfold String.rev. cbn [String.rev_app].
  rewrite (IH (String c t)), (IH (String c "")).
  now rewrite append_assoc.
Qed.

Lemma rev_cons (c : ascii) (s : string) :
  String.rev (String c s) = String.rev s +:+ String c "".
Proof. unfold String.rev at 1. cbn [String.rev_app]. apply rev_app_append. Qed.

Lemma append_empty_r (s : string) : s +:+ "" = s.
Proof. induction s as [|c s IH]; [reflexivity|]. now rewrite append_cons, IH. Qed.

Lemma rev_append (s t : string) :
  String.rev (s +:+ t) = String.rev t +:+ String.rev s.
Proof.
  induction s as [|c s IH].
  - now rewrite append_nil, append_empty_r.
  - now rewrite append_cons, !rev_cons, IH, append_assoc.
Qed.

Lemma rev_involutive (s : string) : String.rev (String.rev s) = s.
Proof.
  induction s as [|c s IH]; [reflexivity|].
  now rewrite rev_cons, rev_append, IH.
Qed.

Lemma length_rev (s : string) : String.length (String.rev s) = String.length s.
Proof.
  induction s as [|c s IH]; [reflexivity|].
  rewrite rev_cons, length_append, IH. cbn. lia.
Qed.

Lemma allInCutset_app (s t cutset : string) :
  allInCutset (s +:+ t) cutset = allInCutset s cutset && allInCutset t cutset.
Proof.
  induction s as [|c s IH]; [reflexivity|].
  rewrite append_cons. cbn [allInCutset]. now rewrite IH, andb_assoc.
Qed.

Lemma allInCutset_rev (s cutset : string) :
  allInCutset (String.rev s) cutset = allInCutset s cutset.
Proof.
  induction s as [|c s IH]; [reflexivity|].
  rewrite rev_cons, allInCutset_app, IH. cbn [allInCutset].
  now rewrite andb_true_r, andb_comm.
Qed.

Lemma TrimLeft_all (a s cutset : string) :
  allInCutset a cutset = true ->
  strings.TrimLeft (a +:+ s) cutset = strings.TrimLeft s cutset.
Proof.
  induction a as [|c a IH]; intros Ha; [reflexivity|].
  cbn [allInCutset] in Ha. apply andb_true_iff in Ha as [Hc Ha].
  rewrite append_cons. cbn [strings.TrimLeft]. rewrite Hc. now apply IH.
Qed.

Lemma TrimLeft_clean (s cutset : string) :
  headInCutset s cutset = false -> strings.TrimLeft s cutset = s.
Proof.
  destruct s as [|c s]; [discriminate|]. cbn. now intros ->.
Qed.

Lemma TrimLeft_length (s cutset : string) :
  (String.length (strings.TrimLeft s cutset) <= String.length s)%nat.
Proof.
  induction s as [|c s IH]; [reflexivity|]. cbn [strings.TrimLeft].
  destruct (strings.inCutset c cutset); cbn [String.length]; lia.
Qed.

Lemma TrimLeft_fixed (s cutset : string) :
  strings.TrimLeft s cutset = s -> s = "" \/ headInCutset s cutset = false.
Proof.
  destruct s as [|c s]; [now left|]. cbn [strings.TrimLeft headInCutset].
  destruct (strings.inCutset c cutset); [|now right].
  intros H. pose proof (TrimLeft_length s cutset) as Hl.
  rewrite H in Hl. cbn in Hl. lia.
Qed.

Lemma TrimLeft_head (s cutset : string) :
  strings.TrimLeft s cutset = ""
  \/ headInCutset (strings.TrimLeft s cutset) cutset = false.
Proof.
  induction s as [|c s IH]; [now left|]. cbn [strings.TrimLeft].
  destruct (strings.inCutset c cutset) eqn:Hc; [exact IH|].
  right. cbn. exact Hc.
Qed.

Lemma TrimLeft_empty (s cutset : string) :
  strings.TrimLeft s cutset = "" <-> allInCutset s cutset = true.
Proof.
  induction s as [|c s IH]; [now split|].
  cbn [strings.TrimLeft allInCutset].
  destruct (strings.inCutset c cutset); cbn [andb]; [exact IH|].
  split; discriminate.
Qed.

Lemma TrimRight_all (s a cutset : string) :
  allInCutset a cutset = true ->
  strings.TrimRight (s +:+ a) cutset = strings.TrimRight s cutset.
Proof.
  intros Ha. unfold strings.TrimRight.
  rewrite rev_append, TrimLeft_all; [reflexivity|].
  now rewrite allInCutset_rev.
Qed.

Lemma TrimRight_length (s cutset : string) :
  (String.length (strings.TrimRight s cutset) <= String.length s)%nat.
Proof.
  unfold strings.TrimRight. rewrite length_rev.
  pose proof (TrimLeft_length (String.rev s) cutset) as H.
  now rewrite length_rev in H.
Qed.

Lemma rev_empty (s : string) : String.rev s = "" <-> s = "".
Proof.
  split; [|now intros ->].
  intros H. apply (f_equal String.length) in H.
  rewrite length_rev in H. now destruct s.
Qed.

Lemma TrimRight_empty (s cutset : string) :
  strings.TrimRight s cutset = "" <-> allInCutset s cutset = true.
Proof.
  unfold strings.TrimRight.
  rewrite rev_empty, TrimLeft_empty. now rewrite allInCutset_rev.
Qed.

(** [strings.Trim] answers the empty string exactly for the strings made
    of cutset bytes only. *)
Lemma Trim_empty (s cutset : string) :
  strings.Trim s cutset = "" <-> allInCutset s cutset = true.
Proof.
  unfold strings.Trim. rewrite TrimLeft_empty. split.
  - intros H. destruct (allInCutset s cutset) eqn:Hs; [reflexivity|].
    exfalso. unfold strings.TrimRight in H.
    rewrite allInCutset_rev in H.
    destruct (TrimLeft_head (String.rev s) cutset) as [He|Hh].
    + apply TrimLeft_empty in He. rewrite allInCutset_rev in He. congruence.
    + assert (Hlast : headInCutset (strings.TrimLeft (String.rev s) cutset)
                        cutset = true).
      { destruct (strings.TrimLeft (String.rev s) cutset) as [|c t];
          [reflexivity|].
        cbn [allInCutset] in H. apply andb_true_iff in H as [Hc _].
        exact Hc. }
      congruence.
  - intros Hs. apply TrimRight_empty in Hs. now rewrite Hs.
Qed.

Lemma Trim_extension (s ext cutset : string) :
  allInCutset ext cutset = true ->
  strings.Trim (s +:+ ext) cutset = strings.Trim s cutset.
Proof. intros H. unfold strings.Trim. now rewrite TrimRight_all. Qed.

Lemma TrimRight_clean (s cutset : string) :
  headInCutset (String.rev s) cutset = false -> strings.TrimRight s cutset = s.
Proof.
  intros H. unfold strings.TrimRight.
  now rewrite TrimLeft_clean, rev_involutive.
Qed.

Lemma TrimRight_fixed (s cutset : string) :
  strings.TrimRight s cutset = s ->
  s = "" \/ headInCutset (String.rev s) cutset = false.
Proof.
  unfold strings.TrimRight. intros H.
  apply (f_equal String.rev) in H. rewrite rev_involutive in H.
  apply TrimLeft_fixed in H as [H|H]; [left; now apply rev_empty|now right].
Qed.

(** A string is left as it is by [strings.Trim] exactly when it is empty
    or has clean ends. *)
Lemma Trim_fixed (s cutset : string) :
  strings.Trim s cutset = s <-> s = "" \/ cleanEnds s cutset = true.
Proof.
  unfold cleanEnds. split.
  - intros H.
    assert (Hr : strings.TrimRight s cutset = s).
    { pose proof (TrimLeft_length (strings.TrimRight s cutset) cutset) as H1.
      pose proof (TrimRight_length s cutset) as H2.
      unfold strings.Trim in H. rewrite H in H1.
      assert (Hlen : String.length (strings.TrimRight s cutset)
                     = String.length s) by lia.
      unfold strings.TrimRight in *.
      rewrite length_rev in Hlen.
      assert (Hl : strings.TrimLeft (String.rev s) cutset = String.rev s).
      { clear -Hlen. remember (String.rev s) as t eqn:Ht.
        rewrite <- (length_rev s), <- Ht in Hlen. clear Ht s.
        destruct t as [|c t]; [reflexivity|]. cbn [strings.TrimLeft] in *.
        destruct (strings.inCutset c cutset); [|reflexivity].
        pose proof (TrimLeft_length t cutset). cbn in Hlen. lia. }
      now rewrite Hl, rev_involutive. }
    unfold strings.Trim in H. rewrite Hr in H.
    destruct (TrimLeft_fixed _ _ H) as [->|Hh]; [now left|].
    destruct (TrimRight_fixed _ _ Hr) as [->|Hl]; [now left|].
    right. now rewrite Hh, Hl.
  - intros [->|H]; [reflexivity|].
    apply andb_true_iff in H as [Hh Hl].
    apply negb_true_iff in Hh, Hl.
    unfold strings.Trim. rewrite (TrimRight_clean _ _ Hl).
    now apply TrimLeft_clean.
Qed.

Lemma append_inj_r (s t u : string) : s +:+ u = t +:+ u -> s = t.
Proof.
  intros H. apply (f_equal String.rev) in H. rewrite !rev_append in H.
  apply String.app_inj in H.
  apply (f_equal String.rev) in H. now rewrite !rev_involutive in H.
Qed.

Lemma countByte_app (c : ascii) (s t : string) :
  countByte c (s +:+ t) = (countByte c s + countByte c t)%nat.
Proof.
  induction s as [|d s IH]; [reflexivity|].
  rewrite append_cons. cbn [countByte]. rewrite IH. lia.
Qed.

Lemma countByte_rev (c : ascii) (s : string) :
  countByte c (String.rev s) = countByte c s.
Proof.
  induction s as [|d s IH]; [reflexivity|].
  rewrite rev_cons, countByte_app, IH. cbn [countByte]. lia.
Qed.

Lemma inCutset_eqb (c d : ascii) (cutset : string) :
  strings.inCutset d cutset = true -> strings.inCutset c cutset = false ->
  Ascii.eqb c d = false.
Proof.
  intros Hd Hc. destruct (Ascii.eqb_spec c d) as [->|]; congruence.
Qed.

Lemma countByte_TrimLeft (c : ascii) (s cutset : string) :
  strings.inCutset c cutset = false ->
  countByte c (strings.TrimLeft s cutset) = countByte c s.
Proof.
  intros Hc. induction s as [|d s IH]; [reflexivity|].
  cbn [strings.TrimLeft]. destruct (strings.inCutset d cutset) eqn:Hd;
    [|reflexivity].
  cbn [countByte]. now rewrite IH, (inCutset_eqb c d cutset Hd Hc).
Qed.

(** Trimming removes cutset bytes only. *)
Lemma countByte_Trim (c : ascii) (s cutset : string) :
  strings.inCutset c cutset = false ->
  countByte c (strings.Trim s cutset) = countByte c s.
Proof.
  intros Hc. unfold strings.Trim, strings.TrimRight.
  now rewrite countByte_TrimLeft, countByte_rev, countByte_TrimLeft,
    countByte_rev.
Qed.

(** The PNG path of the adapter is never the path it reads. *)
Lemma png_path_differs (vcfFname : string) :
  strings.Trim vcfFname defaultVCFExtension +:+ ".png" <> vcfFname.
Proof.
  intros H. apply (f_equal (countByte "p")) in H.
  rewrite countByte_app, countByte_Trim in H by reflexivity.
  cbn in H. lia.
Qed.

Lemma prefix_straddle (s : string) :
  s <> "" -> String.prefix ".vcf" s = false ->
  String.prefix ".vcf" (s +:+ ".vcf") = false.
Proof.
  intros Hs.
  destruct s as [|c1 [|c2 [|c3 [|c4 s]]]]; [contradiction|..];
    rewrite ?append_cons, ?append_nil; cbn [String.prefix];
    repeat match goal with
           | |- context [ascii_dec ?a ?b] =>
               destruct (ascii_dec a b); try discriminate; subst
           end;
    try congruence.
  destruct s; discriminate.
Qed.

(** [strings.ReplaceAll] on a path whose stem holds no ".vcf". *)
Lemma ReplaceAll_extension (stem : string) :
  occursIn ".vcf" stem = false ->
  strings.ReplaceAll (stem +:+ ".vcf") ".vcf" ".png" = stem +:+ ".png".
Proof.
  unfold strings.ReplaceAll. induction stem as [|c stem IH]; [reflexivity|].
  cbn [occursIn]. intros H. apply orb_false_iff in H as [Hp Ho].
  pose proof (prefix_straddle (String c stem) ltac:(discriminate) Hp) as Hs.
  rewrite append_cons in *. cbn [strings.replaceFrom]. rewrite Hs.
  now rewrite (IH Ho).
Qed.

(** ** The QR encoder adapter, further *)

(** X4: the adapter rejects a file name as invalid exactly when every byte
    of the name is one of ".vcf" (the empty name, ".vcf", "v.vcf", ...),
    and it does so before looking at the file. *)
Theorem geneateQRCodeByFile_invalid_name (png : string -> option string)
    (w : World) (vcfFname : string) :
  allInCutset vcfFname defaultVCFExtension = true
  <-> geneateQRCodeByFile png w vcfFname = (Err (ErrInvalidName vcfFname), w).
Proof.
  rewrite <- Trim_empty, <- eqb_empty. unfold geneateQRCodeByFile.
  destruct (String.eqb (strings.Trim vcfFname defaultVCFExtension) "");
    cbn [negb]; [tauto|].
  split; [discriminate|].
  unfold os.ReadFile. destruct (files w !! vcfFname) as [content|];
    [|discriminate].
  destruct (String.length content =? 0)%nat; [discriminate|].
  destruct (qrcode.WriteFile png w content _). discriminate.
Qed.

(** X5: for a vCard path [stem ++ ".vcf"], the PNG path of the adapter is
    [stem ++ ".png"] exactly when the stem is empty or neither starts nor
    ends with one of the bytes '.', 'v', 'c', 'f'. *)
Theorem png_path_correct_iff (stem : string) :
  strings.Trim (stem +:+ ".vcf") defaultVCFExtension +:+ ".png"
  = stem +:+ ".png"
  <-> stem = "" \/ cleanEnds stem defaultVCFExtension = true.
Proof.
  rewrite Trim_extension by reflexivity. rewrite <- Trim_fixed. split.
  - apply append_inj_r.
  - now intros ->.
Qed.

(** What the adapter does to the world. *)
Lemma geneateQRCodeByFile_effects (png : string -> option string)
    (w : World) (vcfFname : string) :
  readonly (snd (geneateQRCodeByFile png w vcfFname)) = readonly w
  /\ workbooks (snd (geneateQRCodeByFile png w vcfFname)) = workbooks w
  /\ files (snd (geneateQRCodeByFile png w vcfFname)) !! vcfFname
     = files w !! vcfFname
  /\ (forall p : string,
        p <> strings.Trim vcfFname defaultVCFExtension +:+ ".png" ->
        files (snd (geneateQRCodeByFile png w vcfFname)) !! p = files w !! p)
  /\ (fst (geneateQRCodeByFile png w vcfFname) <> Ok tt ->
      snd (geneateQRCodeByFile png w vcfFname) = w).
Proof.
  assert (Hall : readonly (snd (geneateQRCodeByFile png w vcfFname)) = readonly w
    /\ workbooks (snd (geneateQRCodeByFile png w vcfFname)) = workbooks w
    /\ (forall p : string,
        p <> strings.Trim vcfFname defaultVCFExtension +:+ ".png" ->
        files (snd (geneateQRCodeByFile png w vcfFname)) !! p = files w !! p)
    /\ (fst (geneateQRCodeByFile png w vcfFname) <> Ok tt ->
        snd (geneateQRCodeByFile png w vcfFname) = w)).
  { unfold geneateQRCodeByFile.
    destruct (negb _); [|repeat split; reflexivity].
    destruct (os.ReadFile w vcfFname) as [content| |];
      [|repeat split; reflexivity..].
    destruct (String.length content =? 0)%nat; [repeat split; reflexivity|].
    unfold qrcode.WriteFile, os.WriteFile.
    destruct (png content) as [image|]; [|repeat split; reflexivity].
    case_decide; cbn [fst snd files readonly workbooks];
      [repeat split; reflexivity|].
    repeat split; try reflexivity; try congruence.
    intros p Hp. now rewrite lookup_insert_ne by congruence. }
  destruct Hall as (H1 & H2 & H3 & H4).
  repeat split; try assumption.
  apply H3. intros H. symmetry in H. exact (png_path_differs vcfFname H).
Qed.

(** X6: the adapter changes no file but its PNG path, which is never the
    vCard it reads; it changes nothing else of the world; and when it
    returns an error it has changed nothing at all. *)
Theorem geneateQRCodeByFile_frame (png : string -> option string)
    (w : World) (vcfFname : string) :
  readonly (snd (geneateQRCodeByFile png w vcfFname)) = readonly w
  /\ workbooks (snd (geneateQRCodeByFile png w vcfFname)) = workbooks w
  /\ files (snd (geneateQRCodeByFile png w vcfFname)) !! vcfFname
     = files w !! vcfFname
  /\ (forall p : string,
        p <> strings.Trim vcfFname defaultVCFExtension +:+ ".png" ->
        files (snd (geneateQRCodeByFile png w vcfFname)) !! p = files w !! p)
  /\ (fst (geneateQRCodeByFile png w vcfFname) <> Ok tt ->
      snd (geneateQRCodeByFile png w vcfFname) = w).
Proof. exact (geneateQRCodeByFile_effects png w vcfFname). Qed.

(** X7: for a contact whose vCard path is [stem ++ ".vcf"], where the stem
    has clean ends and holds no ".vcf", the adapter writes the PNG exactly
    where the spreadsheet builder looks for the picture. *)
Theorem adapter_writes_where_builder_looks (png : string -> option string)
    (w : World) (cnt : contact) (stem content image : string) :
  VcfFname cnt = stem +:+ ".vcf" ->
  cleanEnds stem defaultVCFExtension = true ->
  occursIn ".vcf" stem = false ->
  files w !! VcfFname cnt = Some content ->
  content <> "" ->
  png content = Some image ->
  imgFname cnt ∉ readonly w ->
  imgFname cnt = stem +:+ ".png"
  /\ fst (geneateQRCodeByFile png w (VcfFname cnt)) = Ok tt
  /\ files (snd (geneateQRCodeByFile png w (VcfFname cnt))) !! imgFname cnt
     = Some image.
Proof.
  intros Hpath Hclean Hinner Hfile Hcontent Hpng Hrw.
  assert (Himg : imgFname cnt = stem +:+ ".png").
  { unfold imgFname. rewrite Hpath. now apply ReplaceAll_extension. }
  split; [exact Himg|].
  rewrite Himg in *.
  assert (Htrim : strings.Trim (VcfFname cnt) defaultVCFExtension = stem).
  { rewrite Hpath, Trim_extension by reflexivity.
    apply Trim_fixed. now right. }
  assert (Hstem : String.eqb stem "" = false).
  { destruct stem; [discriminate Hclean|reflexivity]. }
  assert (Hlen : (String.length content =? 0)%nat = false).
  { destruct content; [congruence|reflexivity]. }
  unfold geneateQRCodeByFile, os.ReadFile.
  rewrite Htrim, Hstem, Hfile, Hlen. cbn [negb].
  unfold qrcode.WriteFile, os.WriteFile. rewrite Hpng.
  case_decide; [contradiction|]. cbn [fst snd files].
  split; [reflexivity|]. apply lookup_insert_eq.
Qed.

Lemma adapter_writes_where_builder_looks_witness :
  fst (geneateQRCodeByFile samplePng
         (mkWorld {[ "testdata/1002.vcf" := "BEGIN:VCARD" ]} ∅ ∅)
         "testdata/1002.vcf") = Ok tt
  /\ imgFname declinedContact = "testdata/1002.png".
Proof.
  destruct (adapter_writes_where_builder_looks samplePng
              (mkWorld {[ "testdata/1002.vcf" := "BEGIN:VCARD" ]} ∅ ∅)
              declinedContact "testdata/1002" "BEGIN:VCARD" "PNG:BEGIN:VCARD")
    as (Himg & Hok & _);
    try reflexivity; try discriminate; try apply not_elem_of_empty.
  split; [exact Hok|exact Himg].
Defined.

(** ** The vCard formatter, further *)

Lemma vcardBuilder_released (cnt : contact) :
  vcardBuilder cnt = ListCSV.vcardBuilder (released cnt).
Proof.
  unfold vcardBuilder, ListCSV.vcardBuilder, released.
  destruct (Answer cnt =? AnswerYes); reflexivity.
Qed.

Lemma vcardBuilder_accepted (cnt : ListCSV.contact) :
  ListCSV.vcardBuilder cnt = vcardBuilder (accepted cnt).
Proof. reflexivity. Qed.

Lemma VcfFname_released (cnt : contact) :
  ListCSV.VcfFname (released cnt) = VcfFname cnt.
Proof. unfold released. now destruct (Answer cnt =? AnswerYes). Qed.

(** X8: the two formatters agree.  The full tool writes for a contact what
    the CSV list tool writes for the same contact with email and phone
    blanked unless the status is Accepted; the CSV list tool writes for a
    contact what the full tool writes for it with status Accepted. *)
Theorem generateVCard_variants (w : World) (cnt : contact)
    (c : ListCSV.contact) :
  generateVCard w cnt = ListCSV.generateVCard w (released cnt)
  /\ ListCSV.generateVCard w c = generateVCard w (accepted c).
Proof.
  split; [|reflexivity].
  unfold generateVCard, ListCSV.generateVCard.
  now rewrite vcardBuilder_released, VcfFname_released.
Qed.

(** The EMAIL and TEL lines among the lines of the text of a builder. *)
Lemma textLines_contact_iff (cnt : contact) (sb : strings.Builder) :
  fieldsWithoutBreak cnt = true ->
  vcardBuilder cnt = Ok sb ->
  (In (emailLine (Email cnt)) (textLines (strings.String_ sb))
   <-> Answer cnt = AnswerYes /\ Email cnt <> "")
  /\ (In (telLine (Cell cnt)) (textLines (strings.String_ sb))
      <-> Answer cnt = AnswerYes /\ Cell cnt <> "").
Proof.
  intros Hf Hsb.
  destruct (vcard_textLines cnt sb Hf Hsb) as (rest & Hshape & ->).
  destruct (vcardBuilder_contact_iff cnt sb Hsb) as (Hemail & Htel & _).
  rewrite <- Hemail, <- Htel, Hshape. split.
  - destruct (header_is_not_email (Email cnt)) as (H1 & H2 & H3).
    now apply In_swap_head.
  - destruct (header_is_not_tel (Cell cnt)) as (H1 & H2 & H3).
    now apply In_swap_head.
Qed.




(** X9: the CSV list tool, on the lines of the text.  For a contact whose
    fields hold no line break, the vCard file has the EMAIL line of the
    contact among its lines exactly when the email is non-empty, and the
    TEL line exactly when the phone is non-empty: no response status
    withholds them. *)
Theorem ListCSV_generateVCard_text_lines (w w' : World)
    (cnt : ListCSV.contact) :
  fieldsWithoutBreak (accepted cnt) = true ->
  ListCSV.generateVCard w cnt = (Ok tt, w') ->
  exists text : string,
    files w' !! ListCSV.VcfFname cnt = Some text
    /\ (In (emailLine (ListCSV.Email cnt)) (textLines text)
        <-> ListCSV.Email cnt <> "")
    /\ (In (telLine (ListCSV.Cell cnt)) (textLines text)
        <-> ListCSV.Cell cnt <> "").
Proof.
  intros Hf Hrun.
  change (generateVCard w (accepted cnt) = (Ok tt, w')) in Hrun.
  destruct (generateVCard_writes w w' _ Hrun) as (sb & Hsb & Hfile).
  exists (strings.String_ sb). split; [exact Hfile|].
  destruct (textLines_contact_iff _ sb Hf Hsb) as [Hemail Htel].
  cbn [accepted Email Cell Answer] in Hemail, Htel.
  rewrite Hemail, Htel. split; (split; [tauto|now split]).
Qed.

Lemma ListCSV_generateVCard_text_lines_witness :
  exists text : string,
    files (snd (ListCSV.generateVCard emptyWorld (released sampleContact)))
      !! ListCSV.VcfFname (released sampleContact) = Some text
    /\ (In (emailLine (ListCSV.Email (released sampleContact)))
           (textLines text)
        <-> ListCSV.Email (released sampleContact) <> "")
    /\ (In (telLine (ListCSV.Cell (released sampleContact))) (textLines text)
        <-> ListCSV.Cell (released sampleContact) <> "").
Proof.
  apply (ListCSV_generateVCard_text_lines emptyWorld
           (snd (ListCSV.generateVCard emptyWorld (released sampleContact)))
           (released sampleContact)).
  - reflexivity.
  - vm_compute. reflexivity.
Defined.

(** X10: [generateVCard] touches one file, its vCard; when it fails it has
    changed nothing; and it depends on the contact alone, so a second run
    on the world it leaves gives the same result and changes nothing. *)
Theorem generateVCard_idempotent (w : World) (cnt : contact) :
  readonly (snd (generateVCard w cnt)) = readonly w
  /\ workbooks (snd (generateVCard w cnt)) = workbooks w
  /\ (forall p : string,
        p <> VcfFname cnt ->
        files (snd (generateVCard w cnt)) !! p = files w !! p)
  /\ (fst (generateVCard w cnt) <> Ok tt -> snd (generateVCard w cnt) = w)
  /\ generateVCard (snd (generateVCard w cnt)) cnt = generateVCard w cnt.
Proof.
  unfold generateVCard.
  destruct (vcardBuilder cnt) as [sb| |]; [|repeat split; reflexivity..].
  unfold os.WriteFile. case_decide as Hro; cbn [fst snd files readonly workbooks].
  - rewrite decide_True by exact Hro. repeat split; reflexivity.
  - rewrite decide_False by exact Hro.
    cbn [fst snd files readonly workbooks].
    repeat split; try reflexivity; try congruence.
    + intros p Hp. now rewrite lookup_insert_ne by congruence.
    + now rewrite insert_insert_eq.
Qed.

(** ** The list parsers, further *)

Section Parsers.

Variable Join : string -> string -> string.
Variable decode : string -> list csv.line.

Lemma parseRecord_total (dataFolder : string) (rec : list string) :
  (7 <= length rec)%nat ->
  exists parsed, parseRecord Join dataFolder rec = Ok parsed.
Proof.
  intros Hlen.
  pose proof (parseRecord_wide Join dataFolder rec) as Hnp.
  destruct (parseRecord Join dataFolder rec) as [parsed|e|p] eqn:Hp.
  - now exists parsed.
  - exfalso. revert Hp. unfold parseRecord.
    destruct (index rec 0) as [r0| |] eqn:H0; cbn [bind];
      [|unfold index in H0; destruct (rec !! 0%nat); discriminate|discriminate].
    destruct (String.eqb r0 "no"); [discriminate|].
    destruct (strconv.ParseInt r0) as [v|]; [|discriminate].
    destruct (v =? 0); [discriminate|].
    repeat match goal with
    | |- context [index rec ?i] =>
        let H := fresh in
        destruct (index rec i) eqn:H; cbn [bind];
        [|unfold index in H; destruct (rec !! i); discriminate|discriminate]
    end.
    destruct (strconv.ParseInt _) as [status|]; [|discriminate].
    destruct (status <? 0); discriminate.
  - exfalso. now apply (Hnp p).
Qed.

Lemma readLoop_rows (dataFolder : string) (n : nat) (pending : list csv.line) :
  (7 <= n)%nat -> rowsOfWidth n pending ->
  forall (FieldsPerRecord : nat) (contactLst : list contact),
    FieldsPerRecord = 0%nat \/ FieldsPerRecord = n ->
    exists cs, readLoop Join dataFolder FieldsPerRecord pending contactLst
               = Ok cs.
Proof.
  intros Hn Hrows. induction Hrows as [|l pending Hl Hrows IH];
    intros fpr contactLst Hfpr; cbn [readLoop]; [eauto|].
  destruct l as [f0 fs|]; [|contradiction].
  assert (Hread : csv.readRecord fpr (csv.Fields f0 fs) = (Ok (f0 :: fs), n)).
  { unfold csv.readRecord. destruct Hfpr as [->| ->].
    - cbn [Nat.ltb Nat.leb]. now rewrite Hl.
    - destruct (Nat.ltb_spec 0 n); [|lia].
      rewrite Hl, Nat.eqb_refl. reflexivity. }
  rewrite Hread. cbn [bind].
  destruct (parseRecord_total dataFolder (f0 :: fs)) as [parsed ->]; [lia|].
  cbn [bind]. destruct parsed; apply IH; now right.
Qed.

(** X11: when the list file is there and every line of it is a row of the
    same width, seven columns or more, [parseInputList] returns a list of
    contacts: no row is an error and none makes it panic. *)
Theorem parseInputList_succeeds (w : World) (dataFolder lstFname : string)
    (content : string) (n : nat) :
  files w !! Join dataFolder lstFname = Some content ->
  (7 <= n)%nat ->
  rowsOfWidth n (decode content) ->
  exists cs : list contact,
    parseInputList Join decode w dataFolder lstFname = Ok cs.
Proof.
  intros Hfile Hn Hrows. unfold parseInputList, os.Open, os.ReadFile.
  rewrite Hfile. cbn [bind].
  apply (readLoop_rows dataFolder n); auto.
Qed.

Lemma formatCellNo_not_domestic (s : string) :
  ~ isDomesticCell (formatCellNo s).
Proof.
  destruct (isDomesticCell_dec s) as [H|H].
  - intros [Hlen _]. rewrite (formatCellNo_hit_length s H) in Hlen.
    discriminate.
  - now rewrite (formatCellNo_miss s H).
Qed.

(** X12: no contact [parseInputList] returns has a phone of the domestic
    pattern: the formatter has been applied to every one, and applying it
    again changes nothing. *)
Theorem parseInputList_cells_formatted (w : World)
    (dataFolder lstFname : string) (cs : list contact) :
  parseInputList Join decode w dataFolder lstFname = Ok cs ->
  Forall (fun c => ~ isDomesticCell (Cell c)
                   /\ formatCellNo (Cell c) = Cell c) cs.
Proof.
  unfold parseInputList, os.Open, os.ReadFile.
  destruct (files w !! Join dataFolder lstFname) as [content|];
    cbn [bind]; [|discriminate].
  intros Hloop.
  destruct (readLoop_Ok Join _ _ _ _ _ Hloop) as (new & -> & Hrows & _).
  cbn [app]. clear Hloop. induction Hrows as [|rec c recs new Hmade _ IH];
    constructor; [|exact IH].
  destruct Hmade as (_ & _ & _ & (phone & _ & ->) & _).
  split; [apply formatCellNo_not_domestic|].
  apply formatCellNo_miss, formatCellNo_not_domestic.
Qed.

(** *** The CSV list tool *)

Lemma CSV_parseRecord_kept (dataFolder : string) (rec : list string)
    (c : ListCSV.contact) :
  CSVTool.parseRecord Join dataFolder rec = Ok (Some c) ->
  madeFromCSV Join dataFolder rec c /\ skippedRowCSV rec = false.
Proof.
  unfold CSVTool.parseRecord, skippedRowCSV, madeFromCSV, failsOrZero.
  destruct (index rec 0) as [rec0| |] eqn:H0; cbn [bind]; [|discriminate..].
  apply index_Ok in H0. rewrite H0.
  destruct (strconv.ParseInt rec0) as [v|]; [|discriminate].
  destruct (v =? 0); [discriminate|].
  destruct (index rec 1) as [rec1| |] eqn:H1; cbn [bind]; [|discriminate..].
  destruct (index rec 2) as [rec2| |] eqn:H2; cbn [bind]; [|discriminate..].
  destruct (index rec 3) as [rec3| |] eqn:H3; cbn [bind]; [|discriminate..].
  destruct (index rec 4) as [rec4| |] eqn:H4; cbn [bind]; [|discriminate..].
  destruct (index rec 5) as [rec5| |] eqn:H5; cbn [bind]; [|discriminate..].
  apply index_Ok in H1, H2, H3, H4, H5.
  intros [= <-].
  cbn [ListCSV.Class ListCSV.Fullname ListCSV.VcfFname ListCSV.Cell
       ListCSV.Email].
  repeat split; try assumption; try reflexivity; eauto.
Qed.

Lemma CSV_parseRecord_none (dataFolder : string) (rec : list string) :
  CSVTool.parseRecord Join dataFolder rec = Ok None ->
  skippedRowCSV rec = true.
Proof.
  unfold CSVTool.parseRecord, skippedRowCSV, failsOrZero.
  destruct (index rec 0) as [rec0| |] eqn:H0; cbn [bind]; [|discriminate..].
  apply index_Ok in H0. rewrite H0.
  destruct (strconv.ParseInt rec0) as [v|]; [|reflexivity].
  destruct (v =? 0); [reflexivity|].
  destruct (index rec 1) as [rec1| |]; cbn [bind]; [|discriminate..].
  destruct (index rec 2) as [rec2| |]; cbn [bind]; [|discriminate..].
  destruct (index rec 3) as [rec3| |]; cbn [bind]; [|discriminate..].
  destruct (index rec 4) as [rec4| |]; cbn [bind]; [|discriminate..].
  destruct (index rec 5) as [rec5| |]; cbn [bind]; discriminate.
Qed.

Lemma CSV_readLoop_Ok (dataFolder : string) (pending : list csv.line) :
  forall (FieldsPerRecord : nat) (contactLst cs : list ListCSV.contact),
    CSVTool.readLoop Join dataFolder FieldsPerRecord pending contactLst
    = Ok cs ->
    exists new : list ListCSV.contact,
      cs = (contactLst ++ new)%list
      /\ Forall2 (madeFromCSV Join dataFolder)
           (List.filter (fun rec => negb (skippedRowCSV rec))
              (records pending))
           new.
Proof.
  induction pending as [|l pending IH]; intros fpr contactLst cs;
    cbn [CSVTool.readLoop].
  - intros [= <-]. exists []. rewrite app_nil_r. split; constructor.
  - destruct (csv.readRecord fpr l) as [read fpr'] eqn:Hread.
    destruct read as [rec| |]; cbn [bind]; [|discriminate..].
    destruct (readRecord_Ok fpr l rec) as (f0 & fs & -> & ->);
      [now rewrite Hread|].
    destruct (CSVTool.parseRecord Join dataFolder (f0 :: fs)) as [[c|]| |]
      eqn:Hp; cbn [bind]; [| |discriminate..].
    + intros Hloop. destruct (IH _ _ _ Hloop) as (new & -> & Hrows).
      destruct (CSV_parseRecord_kept _ _ _ Hp) as (Hmade & Hkeep).
      exists (c :: new). rewrite <- app_assoc. split; [reflexivity|].
      unfold records. cbn [omap list_omap List.filter].
      fold (records pending). rewrite Hkeep. cbn [negb].
      now constructor.
    + intros Hloop. destruct (IH _ _ _ Hloop) as (new & -> & Hrows).
      exists new. split; [reflexivity|].
      unfold records. cbn [omap list_omap List.filter].
      fold (records pending).
      now rewrite (CSV_parseRecord_none _ _ Hp).
Qed.

(** X13: the list the CSV list tool's [parseInputList] returns holds, in
    the order of the rows of the file, one contact for each row whose first
    column is a non-zero integer (a header row is no such row, though this
    parser has no test for it), each made from columns 1 to 5 of its row;
    no column beyond is looked at. *)
Theorem CSVTool_parseInputList_contacts (w : World)
    (dataFolder lstFname : string) (cs : list ListCSV.contact) :
  CSVTool.parseInputList Join decode w dataFolder lstFname = Ok cs ->
  exists content : string,
    files w !! Join dataFolder lstFname = Some content
    /\ Forall2 (madeFromCSV Join dataFolder)
         (List.filter (fun rec => negb (skippedRowCSV rec))
            (records (decode content)))
         cs.
Proof.
  unfold CSVTool.parseInputList, os.Open, os.ReadFile.
  destruct (files w !! Join dataFolder lstFname) as [content|];
    cbn [bind]; [|discriminate].
  intros Hloop. exists content. split; [reflexivity|].
  now destruct (CSV_readLoop_Ok _ _ _ _ _ Hloop) as (new & -> & Hrows).
Qed.

(** *** The two parsers on the same rows *)

Lemma parseRecord_both (dataFolder : string) (rec : list string)
    (parsed : option contact) :
  parseRecord Join dataFolder rec = Ok parsed ->
  match parsed with
  | Some c => CSVTool.parseRecord Join dataFolder rec
              = Ok (Some (withoutAnswer c))
  | None => exists o, CSVTool.parseRecord Join dataFolder rec = Ok o
  end.
Proof.
  unfold parseRecord, CSVTool.parseRecord.
  destruct (index rec 0) as [rec0| |]; cbn [bind]; [|discriminate..].
  destruct (String.eqb rec0 "no") eqn:Hno.
  { apply String.eqb_eq in Hno. subst rec0. intros [= <-]. now eexists. }
  destruct (strconv.ParseInt rec0) as [v|]; [|intros [= <-]; now eexists].
  destruct (v =? 0); [intros [= <-]; now eexists|].
  destruct (index rec 1) as [rec1| |]; cbn [bind]; [|discriminate..].
  destruct (index rec 2) as [rec2| |]; cbn [bind]; [|discriminate..].
  destruct (index rec 3) as [rec3| |]; cbn [bind]; [|discriminate..].
  destruct (index rec 4) as [rec4| |]; cbn [bind]; [|discriminate..].
  destruct (index rec 5) as [rec5| |]; cbn [bind]; [|discriminate..].
  destruct (index rec 6) as [rec6| |]; cbn [bind]; [|discriminate..].
  destruct (strconv.ParseInt rec6) as [a|]; [|intros [= <-]; now eexists].
  destruct (a <? 0); intros [= <-]; [now eexists|reflexivity].
Qed.

Lemma readLoop_both (dataFolder : string) (pending : list csv.line) :
  forall (FieldsPerRecord : nat) (contactLst cs : list contact)
         (others : list ListCSV.contact),
    readLoop Join dataFolder FieldsPerRecord pending contactLst = Ok cs ->
    sublist (map withoutAnswer contactLst) others ->
    exists cs',
      CSVTool.readLoop Join dataFolder FieldsPerRecord pending others = Ok cs'
      /\ sublist (map withoutAnswer cs) cs'.
Proof.
  induction pending as [|l pending IH]; intros fpr contactLst cs others;
    cbn [readLoop CSVTool.readLoop].
  - intros [= <-] Hsub. eauto.
  - destruct (csv.readRecord fpr l) as [read fpr'].
    destruct read as [rec| |]; cbn [bind]; [|discriminate..].
    destruct (parseRecord Join dataFolder rec) as [parsed| |] eqn:Hp;
      cbn [bind]; [|discriminate..].
    pose proof (parseRecord_both _ _ _ Hp) as Hboth.
    destruct parsed as [c|].
    + rewrite Hboth. cbn [bind]. intros Hloop Hsub.
      apply (IH _ _ _ _ Hloop).
      rewrite map_app. cbn [map]. apply sublist_app; [exact Hsub|].
      reflexivity.
    + destruct Hboth as [o ->]. cbn [bind]. intros Hloop Hsub.
      destruct o as [c'|]; apply (IH _ _ _ _ Hloop); [|exact Hsub].
      rewrite <- (app_nil_r (map withoutAnswer contactLst)).
      apply sublist_app; [exact Hsub|]. apply sublist_nil_l.
Qed.

(** X14: the two parsers on the same rows.  Where the full tool's parser
    returns a list of contacts, the CSV list tool's parser returns one as
    well, and it holds the same contacts (without their status) in the same
    order, among those of the rows the full tool skipped for their status
    column. *)
Theorem parsers_agree (w : World) (dataFolder lstFname : string)
    (cs : list contact) :
  parseInputList Join decode w dataFolder lstFname = Ok cs ->
  exists cs' : list ListCSV.contact,
    CSVTool.parseInputList Join decode w dataFolder lstFname = Ok cs'
    /\ sublist (map withoutAnswer cs) cs'.
Proof.
  unfold parseInputList, CSVTool.parseInputList.
  destruct (os.Open w (Join dataFolder lstFname)) as [fin| |];
    cbn [bind]; [|discriminate..].
  intros Hloop. apply (readLoop_both _ _ _ _ _ _ Hloop). constructor.
Qed.

End Parsers.

Lemma parseInputList_succeeds_witness :
  exists cs : list contact,
    parseInputList joinPath plainLines (listWorld sampleList)
      "testdata" "list.txt" = Ok cs.
Proof.
  apply (parseInputList_succeeds joinPath plainLines (listWorld sampleList)
           "testdata" "list.txt" sampleList 7).
  - reflexivity.
  - lia.
  - vm_compute. repeat constructor.
Defined.

Lemma parseInputList_cells_formatted_witness :
  Forall (fun c => ~ isDomesticCell (Cell c)
                   /\ formatCellNo (Cell c) = Cell c) sampleContacts.
Proof.
  apply (parseInputList_cells_formatted joinPath plainLines
           (listWorld sampleList) "testdata" "list.txt" sampleContacts).
  vm_compute. reflexivity.
Defined.

Lemma CSVTool_parseInputList_contacts_witness :
  exists content : string,
    files (listWorld sampleCSV) !! joinPath "testdata" "list.txt"
    = Some content
    /\ Forall2 (madeFromCSV joinPath "testdata")
         (List.filter (fun rec => negb (skippedRowCSV rec))
            (records (commaLines content)))
         sampleCSVContacts.
Proof.
  apply (CSVTool_parseInputList_contacts joinPath commaLines
           (listWorld sampleCSV) "testdata" "list.txt" sampleCSVContacts).
  vm_compute. reflexivity.
Defined.

Lemma parsers_agree_witness :
  exists cs' : list ListCSV.contact,
    CSVTool.parseInputList joinPath plainLines (listWorld sampleList)
      "testdata" "list.txt" = Ok cs'
    /\ sublist (map withoutAnswer sampleContacts) cs'.
Proof.
  apply (parsers_agree joinPath plainLines (listWorld sampleList)
           "testdata" "list.txt" sampleContacts).
  vm_compute. reflexivity.
Defined.

(** ** The spreadsheet builder, further *)

(** What [SaveAs] does to the world. *)
Lemma SaveAs_effects (fails : excelize.File -> excelize.call -> bool)
    (xlsx : excelize.File -> string) (w : World) (fout : excelize.File)
    (name : string) :
  readonly (snd (SaveAs fails xlsx w fout name)) = readonly w
  /\ (forall p : string,
        p <> name ->
        files (snd (SaveAs fails xlsx w fout name)) !! p = files w !! p
        /\ workbooks (snd (SaveAs fails xlsx w fout name)) !! p
           = workbooks w !! p)
  /\ (fst (SaveAs fails xlsx w fout name) = Ok tt ->
      (name ∉ readonly w)
      /\ files (snd (SaveAs fails xlsx w fout name)) !! name
         = Some (xlsx fout)
      /\ workbooks (snd (SaveAs fails xlsx w fout name)) !! name = Some fout)
  /\ (fst (SaveAs fails xlsx w fout name) <> Ok tt ->
      snd (SaveAs fails xlsx w fout name) = w).
Proof.
  unfold SaveAs, excelize.exec.
  destruct (fails fout (excelize.SaveAs name)); cbn [fst snd];
    [repeat split; try reflexivity; discriminate|].
  unfold os.WriteFile. case_decide as Hro;
    cbn [fst snd files readonly workbooks];
    [repeat split; try reflexivity; discriminate|].
  repeat split; try reflexivity; try congruence.
  - now rewrite lookup_insert_ne by congruence.
  - now rewrite lookup_insert_ne by congruence.
  - apply lookup_insert_eq.
  - apply lookup_insert_eq.
Qed.

(** What [generateExcelFile] does to the world. *)
Lemma generateExcelFile_effects
    (fails : excelize.File -> excelize.call -> bool)
    (xlsx : excelize.File -> string) (w : World)
    (outFname : string) (contactList : list contact) :
  readonly (snd (generateExcelFile fails xlsx w outFname contactList))
  = readonly w
  /\ (forall p : string,
        p <> outFname ->
        files (snd (generateExcelFile fails xlsx w outFname contactList)) !! p
        = files w !! p
        /\ workbooks (snd (generateExcelFile fails xlsx w outFname contactList))
             !! p
           = workbooks w !! p)
  /\ (fst (fst (generateExcelFile fails xlsx w outFname contactList)) = Ok tt ->
      (outFname ∉ readonly w)
      /\ files (snd (generateExcelFile fails xlsx w outFname contactList))
           !! outFname
         = Some (xlsx (snd (fst (generateExcelFile fails xlsx w outFname
                                   contactList))))
      /\ workbooks (snd (generateExcelFile fails xlsx w outFname contactList))
           !! outFname
         = Some (snd (fst (generateExcelFile fails xlsx w outFname
                             contactList))))
  /\ (fst (fst (generateExcelFile fails xlsx w outFname contactList)) <> Ok tt ->
      snd (generateExcelFile fails xlsx w outFname contactList) = w).
Proof.
  unfold generateExcelFile.
  destruct (fillListSheet fails excelize.NewFile contactList) as [[[]| |] f1];
    [|repeat split; try reflexivity; discriminate..].
  destruct (genQRCodeSheet fails f1 contactList) as [[[]| |] f2];
    [|repeat split; try reflexivity; discriminate..].
  pose proof (SaveAs_effects fails xlsx w f2 outFname) as H.
  destruct (SaveAs fails xlsx w f2 outFname) as [r w1]. exact H.
Qed.

(** X15: [generateExcelFile] and the file system.  It changes no file
    other than [outFname] and no permission.  When it returns [nil],
    [outFname] could be written and now holds the bytes of the workbook
    built in memory, whatever it held before.  When it returns an error,
    among them the refusal to write a read-only [outFname], the file system
    is as it was. *)
Theorem generateExcelFile_world
    (fails : excelize.File -> excelize.call -> bool)
    (xlsx : excelize.File -> string) (w : World)
    (outFname : string) (contactList : list contact) :
  readonly (snd (generateExcelFile fails xlsx w outFname contactList))
  = readonly w
  /\ (forall p : string,
        p <> outFname ->
        files (snd (generateExcelFile fails xlsx w outFname contactList)) !! p
        = files w !! p)
  /\ (fst (fst (generateExcelFile fails xlsx w outFname contactList)) = Ok tt ->
      (outFname ∉ readonly w)
      /\ files (snd (generateExcelFile fails xlsx w outFname contactList))
           !! outFname
         = Some (xlsx (snd (fst (generateExcelFile fails xlsx w outFname
                                   contactList)))))
  /\ (outFname ∈ readonly w ->
      fst (fst (generateExcelFile fails xlsx w outFname contactList))
      <> Ok tt)
  /\ (fst (fst (generateExcelFile fails xlsx w outFname contactList)) <> Ok tt ->
      snd (generateExcelFile fails xlsx w outFname contactList) = w).
Proof.
  destruct (generateExcelFile_effects fails xlsx w outFname contactList)
    as (Hro & Hother & Hok & Herr).
  split; [exact Hro|]. split; [intros p Hp; now apply Hother|].
  split; [intros H; destruct (Hok H) as (Hw & Hfile & _); now split|].
  split; [|exact Herr].
  intros Hin H. now destruct (Hok H) as (Hw & _).
Qed.

(** A read-only output path: the workbook is built and the save refused. *)
Example generateExcelFile_readonly_output :
  generateExcelFile neverFails sampleXlsx
    (mkWorld {[ "testdata/out.xlsx" := "old" ]} {[ "testdata/out.xlsx" ]} ∅)
    "testdata/out.xlsx" sampleContacts
  = (Err (ErrPermission "testdata/out.xlsx"),
     snd (fst (generateExcelFile neverFails sampleXlsx emptyWorld
                 "testdata/out.xlsx" sampleContacts)),
     mkWorld {[ "testdata/out.xlsx" := "old" ]} {[ "testdata/out.xlsx" ]} ∅).
Proof. vm_compute. reflexivity. Qed.

Section Provenance.

Variable fails : excelize.File -> excelize.call -> bool.

Lemma exec_cases (f : excelize.File) (c : excelize.call) :
  excelize.exec fails f c = (Err (ErrExcelize (excelize.callName c)), f)
  \/ excelize.exec fails f c = (Ok tt, excelize.effect f c).
Proof. unfold excelize.exec. destruct (fails f c); auto. Qed.

(** Whatever fails, a cell of the first sheet's loop holds what it held
    before or the class or name of the contact of its row. *)
Lemma fillListRows_provenance (contactList : list contact) :
  forall (idx : Z) (fout : excelize.File),
    excelize.pictures (fillListRows fails idx fout contactList)
    = excelize.pictures fout
    /\ forall (k : string * string) (v : string),
         excelize.cells (fillListRows fails idx fout contactList) !! k
         = Some v ->
         excelize.cells fout !! k = Some v
         \/ exists (i : nat) (cnt : contact),
              contactList !! i = Some cnt
              /\ (k = (sheet1Name,
                       "A" +:+ strconv.FormatInt (wrap64 (idx + Z.of_nat i + 2)))
                  /\ v = Class cnt
                  \/ k = (sheet1Name,
                          "B" +:+ strconv.FormatInt
                                    (wrap64 (idx + Z.of_nat i + 2)))
                     /\ v = Fullname cnt).
Proof.
  induction contactList as [|cnt rest IH]; intros idx fout;
    cbn [fillListRows]; [split; [reflexivity|intros k v Hk; left; exact Hk]|].
  match goal with
  | |- context [excelize.exec fails fout ?c] =>
      destruct (exec_cases fout c) as [E|E]; rewrite E; clear E
  end; [split; [reflexivity|intros k v Hk; left; exact Hk]|].
  match goal with
  | |- context [excelize.exec fails ?f ?c] =>
      destruct (exec_cases f c) as [E|E]; rewrite E; clear E
  end; cbn [excelize.effect excelize.cells excelize.pictures].
  - split; [reflexivity|]. intros k v Hk.
    destruct (decide (k = (sheet1Name,
                "A" +:+ strconv.FormatInt (wrap64 (idx + 2))))) as [->|Hne].
    + rewrite lookup_insert_eq in Hk. injection Hk as <-.
      right. exists 0%nat, cnt. split; [reflexivity|]. left.
      now rewrite Z.add_0_r.
    + rewrite lookup_insert_ne in Hk by congruence. now left.
  - match goal with
    | |- context [fillListRows fails _ ?f rest] => set (f2 := f)
    end.
    destruct (IH (idx + 1) f2) as [Hpics Hcells].
    split; [now rewrite Hpics|].
    intros k v Hk. destruct (Hcells k v Hk) as [Hold|(i & c & Hi & Hpos)].
    + subst f2. cbn [excelize.cells] in Hold.
      destruct (decide (k = (sheet1Name,
                  "B" +:+ strconv.FormatInt (wrap64 (idx + 2))))) as [->|HneB].
      { rewrite lookup_insert_eq in Hold. injection Hold as <-.
        right. exists 0%nat, cnt. split; [reflexivity|]. right.
        now rewrite Z.add_0_r. }
      rewrite lookup_insert_ne in Hold by congruence.
      destruct (decide (k = (sheet1Name,
                  "A" +:+ strconv.FormatInt (wrap64 (idx + 2))))) as [->|HneA].
      { rewrite lookup_insert_eq in Hold. injection Hold as <-.
        right. exists 0%nat, cnt. split; [reflexivity|]. left.
        now rewrite Z.add_0_r. }
      rewrite lookup_insert_ne in Hold by congruence. now left.
    + right. exists (S i), c. split; [exact Hi|].
      replace (idx + Z.of_nat (S i) + 2) with (idx + 1 + Z.of_nat i + 2)
        by lia.
      exact Hpos.
Qed.

(** Whatever fails, a cell of the grid holds what it held before or the
    text of the contact of its position, and likewise a picture. *)
Lemma genQRCodeCells_provenance (txtStyleID imgStyleID : Z)
    (contactList : list contact) :
  forall (idx : Z) (fout : excelize.File),
    (forall (k : string * string) (v : string),
        excelize.cells
          (genQRCodeCells fails txtStyleID imgStyleID idx fout contactList)
          !! k = Some v ->
        excelize.cells fout !! k = Some v
        \/ exists (i : nat) (cnt : contact),
             contactList !! i = Some cnt
             /\ k = (sheet2Name, txtCellID (idx + Z.of_nat i))
             /\ v = Class cnt +:+ " " +:+ Fullname cnt)
    /\ (forall (k : string * string) (v : string),
          excelize.pictures
            (genQRCodeCells fails txtStyleID imgStyleID idx fout contactList)
            !! k = Some v ->
          excelize.pictures fout !! k = Some v
          \/ exists (i : nat) (cnt : contact),
               contactList !! i = Some cnt
               /\ k = (sheet2Name, imgCellID (idx + Z.of_nat i))
               /\ v = imgFname cnt).
Proof.
  induction contactList as [|cnt rest IH]; intros idx fout;
    cbn [genQRCodeCells]; [split; intros k v Hk; left; exact Hk|].
  set (fa := if Z.rem idx 2 =? 0 then _ else fout).
  assert (Ha : excelize.cells fa = excelize.cells fout
               /\ excelize.pictures fa = excelize.pictures fout).
  { subst fa. destruct (Z.rem idx 2 =? 0); [|now split].
    unfold excelize.exec. destruct (fails fout _); now split. }
  destruct Ha as [Hac Hap].
  set (fb := snd (excelize.exec fails fa _)).
  assert (Hb : excelize.cells fb = excelize.cells fout
               /\ excelize.pictures fb = excelize.pictures fout).
  { subst fb. unfold excelize.exec. destruct (fails fa _); now split. }
  destruct Hb as [Hbc Hbp].
  match goal with
  | |- context [excelize.exec fails fb ?c] =>
      destruct (exec_cases fb c) as [E|E]; rewrite E; clear E
  end.
  { rewrite Hbc, Hbp. split; intros k v Hk; left; exact Hk. }
  set (fc := excelize.effect fb _).
  set (fd := snd (excelize.exec fails fc _)).
  assert (Hd : excelize.cells fd
               = <[(sheet2Name, txtCellID idx)
                   := Class cnt +:+ " " +:+ Fullname cnt]> (excelize.cells fout)
               /\ excelize.pictures fd = excelize.pictures fout).
  { subst fd fc. unfold excelize.exec.
    destruct (fails _ _); cbn [snd excelize.effect excelize.cells
                               excelize.pictures]; now rewrite Hbc, Hbp. }
  destruct Hd as [Hdc Hdp].
  assert (Htxt : forall k v,
            (<[(sheet2Name, txtCellID idx)
               := Class cnt +:+ " " +:+ Fullname cnt]> (excelize.cells fout))
              !! k = Some v ->
            excelize.cells fout !! k = Some v
            \/ exists (i : nat) (c : contact),
                 (cnt :: rest) !! i = Some c
                 /\ k = (sheet2Name, txtCellID (idx + Z.of_nat i))
                 /\ v = Class c +:+ " " +:+ Fullname c).
  { intros k v Hk.
    destruct (decide (k = (sheet2Name, txtCellID idx))) as [->|Hne].
    - rewrite lookup_insert_eq in Hk. injection Hk as <-.
      right. exists 0%nat, cnt. now rewrite Z.add_0_r.
    - rewrite lookup_insert_ne in Hk by congruence. now left. }
  match goal with
  | |- context [excelize.exec fails fd ?c] =>
      destruct (exec_cases fd c) as [E|E]; rewrite E; clear E
  end.
  { rewrite Hdc, Hdp. split; [exact Htxt|intros k v Hk; left; exact Hk]. }
  set (fe := excelize.effect fd _).
  destruct (IH (idx + 1) fe) as [Hcells Hpics].
  split.
  - intros k v Hk. destruct (Hcells k v Hk) as [Hold|(i & c & Hi & -> & ->)].
    + subst fe. cbn [excelize.effect excelize.cells] in Hold.
      rewrite Hdc in Hold. now apply Htxt.
    + right. exists (S i), c. split; [exact Hi|].
      now replace (idx + Z.of_nat (S i)) with (idx + 1 + Z.of_nat i) by lia.
  - intros k v Hk. destruct (Hpics k v Hk) as [Hold|(i & c & Hi & -> & ->)].
    + subst fe. cbn [excelize.effect excelize.pictures] in Hold.
      rewrite Hdp in Hold.
      destruct (decide (k = (sheet2Name, imgCellID idx))) as [->|Hne].
      * rewrite lookup_insert_eq in Hold. injection Hold as <-.
        right. exists 0%nat, cnt. now rewrite Z.add_0_r.
      * rewrite lookup_insert_ne in Hold by congruence. now left.
    + right. exists (S i), c. split; [exact Hi|].
      now replace (idx + Z.of_nat (S i)) with (idx + 1 + Z.of_nat i) by lia.
Qed.

(** The loop of the first sheet makes no style and no sheet. *)
Lemma fillListRows_frame (contactList : list contact) :
  forall (idx : Z) (fout : excelize.File),
    excelize.styles (fillListRows fails idx fout contactList)
    = excelize.styles fout
    /\ excelize.sheets (fillListRows fails idx fout contactList)
       = excelize.sheets fout.
Proof.
  induction contactList as [|cnt rest IH]; intros idx fout;
    cbn [fillListRows]; [now split|].
  match goal with
  | |- context [excelize.exec fails fout ?c] =>
      destruct (exec_cases fout c) as [E|E]; rewrite E; clear E
  end; [now split|].
  match goal with
  | |- context [excelize.exec fails ?f ?c] =>
      destruct (exec_cases f c) as [E|E]; rewrite E; clear E
  end; [now split|].
  destruct (IH (idx + 1)
              (excelize.effect
                 (excelize.effect fout
                    (excelize.SetCellValue sheet1Name
                       ("A" +:+ strconv.FormatInt (wrap64 (idx + 2)))
                       (Class cnt)))
                 (excelize.SetCellValue sheet1Name
                    ("B" +:+ strconv.FormatInt (wrap64 (idx + 2)))
                    (Fullname cnt)))) as [-> ->].
  now split.
Qed.

End Provenance.

Section Partial.

Variable fails : excelize.File -> excelize.call -> bool.
Variable xlsx : excelize.File -> string.

(** What a contact list puts in a workbook: the cells and the pictures. *)
Lemma fillListSheet_provenance (f0 : excelize.File)
    (contactList : list contact) :
  excelize.pictures (snd (fillListSheet fails f0 contactList))
  = excelize.pictures f0
  /\ forall (k : string * string) (v : string),
       excelize.cells (snd (fillListSheet fails f0 contactList)) !! k
       = Some v ->
       excelize.cells f0 !! k = Some v
       \/ (k = (sheet1Name, "A1") /\ v = "class")
       \/ (k = (sheet1Name, "B1") /\ v = "name")
       \/ exists (i : nat) (cnt : contact),
            contactList !! i = Some cnt
            /\ (k = (sheet1Name,
                     "A" +:+ strconv.FormatInt (wrap64 (0 + Z.of_nat i + 2)))
                /\ v = Class cnt
                \/ k = (sheet1Name,
                        "B" +:+ strconv.FormatInt
                                  (wrap64 (0 + Z.of_nat i + 2)))
                   /\ v = Fullname cnt).
Proof.
  unfold fillListSheet.
  destruct (exec_cases fails f0
              (excelize.SetCellValue sheet1Name "A1" "class")) as [E|E];
    rewrite E; clear E; cbn [snd]; [split; [reflexivity|auto]|].
  match goal with
  | |- context [excelize.exec fails ?f ?c] =>
      destruct (exec_cases fails f c) as [E|E]; rewrite E; clear E
  end; cbn [snd excelize.effect excelize.cells excelize.pictures].
  - split; [reflexivity|]. intros k v Hk.
    destruct (decide (k = (sheet1Name, "A1"))) as [->|Hne].
    + rewrite lookup_insert_eq in Hk. injection Hk as <-. auto.
    + rewrite lookup_insert_ne in Hk by congruence. auto.
  - match goal with
    | |- context [fillListRows fails 0 ?f contactList] => set (f2 := f)
    end.
    destruct (fillListRows_provenance fails contactList 0 f2)
      as [Hpics Hcells].
    split; [now rewrite Hpics|].
    intros k v Hk. destruct (Hcells k v Hk) as [Hold|Hrow]; [|auto].
    subst f2. cbn [excelize.cells] in Hold.
    destruct (decide (k = (sheet1Name, "B1"))) as [->|HneB].
    { rewrite lookup_insert_eq in Hold. injection Hold as <-. auto. }
    rewrite lookup_insert_ne in Hold by congruence.
    destruct (decide (k = (sheet1Name, "A1"))) as [->|HneA].
    { rewrite lookup_insert_eq in Hold. injection Hold as <-. auto. }
    rewrite lookup_insert_ne in Hold by congruence. auto.
Qed.

Lemma genQRCodeSheet_provenance (f : excelize.File)
    (contactList : list contact) :
  (forall (k : string * string) (v : string),
      excelize.cells (snd (genQRCodeSheet fails f contactList)) !! k
      = Some v ->
      excelize.cells f !! k = Some v
      \/ exists (i : nat) (cnt : contact),
           contactList !! i = Some cnt
           /\ k = (sheet2Name, txtCellID (0 + Z.of_nat i))
           /\ v = Class cnt +:+ " " +:+ Fullname cnt)
  /\ (forall (k : string * string) (v : string),
        excelize.pictures (snd (genQRCodeSheet fails f contactList)) !! k
        = Some v ->
        excelize.pictures f !! k = Some v
        \/ exists (i : nat) (cnt : contact),
             contactList !! i = Some cnt
             /\ k = (sheet2Name, imgCellID (0 + Z.of_nat i))
             /\ v = imgFname cnt).
Proof.
  unfold genQRCodeSheet.
  destruct (exec_cases fails f (excelize.NewSheet sheet2Name)) as [E|E];
    rewrite E; clear E; cbn [snd]; [split; auto|].
  match goal with
  | |- context [excelize.exec fails ?f1 (excelize.SetPageMargins ?s)] =>
      destruct (exec_cases fails f1 (excelize.SetPageMargins s)) as [E|E];
      rewrite E; clear E
  end; cbn [snd excelize.effect excelize.cells excelize.pictures];
    [split; auto|].
  match goal with
  | |- context [excelize.exec fails ?f1 (excelize.SetColWidth ?s ?a ?b ?x)] =>
      destruct (exec_cases fails f1 (excelize.SetColWidth s a b x)) as [E|E];
      rewrite E; clear E
  end; cbn [snd excelize.effect].
  all: match goal with
       | |- context [excelize.exec fails ?f1 (excelize.NewStyle ?b)] =>
           destruct (exec_cases fails f1 (excelize.NewStyle b)) as [E|E];
           rewrite E; clear E
       end; cbn [snd excelize.effect excelize.cells excelize.pictures];
    [split; auto|].
  all: match goal with
       | |- context [excelize.exec fails ?f1 (excelize.NewStyle ?b)] =>
           destruct (exec_cases fails f1 (excelize.NewStyle b)) as [E|E];
           rewrite E; clear E
       end; cbn [snd excelize.effect excelize.cells excelize.pictures];
    [split; auto|].
  all: match goal with
       | |- context [genQRCodeCells fails ?t ?s 0 ?f1 ?l] =>
           exact (genQRCodeCells_provenance fails t s l 0 f1)
       end.
Qed.

(** Every cell and picture of the workbook [generateExcelFile] has built
    when it returns, whatever has failed. *)
Lemma generateExcelFile_provenance (w : World) (outFname : string)
    (contactList : list contact) :
  (forall (k : string * string) (v : string),
      excelize.cells
        (snd (fst (generateExcelFile fails xlsx w outFname contactList))) !! k
      = Some v ->
      (k = (sheet1Name, "A1") /\ v = "class")
      \/ (k = (sheet1Name, "B1") /\ v = "name")
      \/ (exists (i : nat) (cnt : contact),
            contactList !! i = Some cnt
            /\ (k = (sheet1Name,
                     "A" +:+ strconv.FormatInt (wrap64 (0 + Z.of_nat i + 2)))
                /\ v = Class cnt
                \/ k = (sheet1Name,
                        "B" +:+ strconv.FormatInt
                                  (wrap64 (0 + Z.of_nat i + 2)))
                   /\ v = Fullname cnt))
      \/ exists (i : nat) (cnt : contact),
           contactList !! i = Some cnt
           /\ k = (sheet2Name, txtCellID (0 + Z.of_nat i))
           /\ v = Class cnt +:+ " " +:+ Fullname cnt)
  /\ (forall (k : string * string) (v : string),
        excelize.pictures
          (snd (fst (generateExcelFile fails xlsx w outFname contactList))) !! k
        = Some v ->
        exists (i : nat) (cnt : contact),
          contactList !! i = Some cnt
          /\ k = (sheet2Name, imgCellID (0 + Z.of_nat i))
          /\ v = imgFname cnt).
Proof.
  pose proof (fillListSheet_provenance excelize.NewFile contactList)
    as [Hp1 Hc1].
  assert (H1 : forall k v,
            excelize.cells (snd (fillListSheet fails excelize.NewFile
                                   contactList)) !! k = Some v ->
            (k = (sheet1Name, "A1") /\ v = "class")
            \/ (k = (sheet1Name, "B1") /\ v = "name")
            \/ exists (i : nat) (cnt : contact),
                 contactList !! i = Some cnt
                 /\ (k = (sheet1Name,
                          "A" +:+ strconv.FormatInt
                                    (wrap64 (0 + Z.of_nat i + 2)))
                     /\ v = Class cnt
                     \/ k = (sheet1Name,
                             "B" +:+ strconv.FormatInt
                                       (wrap64 (0 + Z.of_nat i + 2)))
                        /\ v = Fullname cnt)).
  { intros k v Hk. destruct (Hc1 k v Hk) as [Hold|H]; [|exact H].
    cbn in Hold. rewrite lookup_empty in Hold. discriminate. }
  assert (P1 : forall k v,
            excelize.pictures (snd (fillListSheet fails excelize.NewFile
                                      contactList)) !! k = Some v -> False).
  { intros k v. rewrite Hp1. cbn. rewrite lookup_empty. discriminate. }
  clear Hp1 Hc1. unfold generateExcelFile.
  destruct (fillListSheet fails excelize.NewFile contactList) as [r1 f1].
  cbn [snd] in H1, P1.
  pose proof (genQRCodeSheet_provenance f1 contactList) as [Hc2 Hp2].
  assert (H2 : forall k v,
            excelize.cells (snd (genQRCodeSheet fails f1 contactList)) !! k
            = Some v ->
            (k = (sheet1Name, "A1") /\ v = "class")
            \/ (k = (sheet1Name, "B1") /\ v = "name")
            \/ (exists (i : nat) (cnt : contact),
                  contactList !! i = Some cnt
                  /\ (k = (sheet1Name,
                           "A" +:+ strconv.FormatInt
                                     (wrap64 (0 + Z.of_nat i + 2)))
                      /\ v = Class cnt
                      \/ k = (sheet1Name,
                              "B" +:+ strconv.FormatInt
                                        (wrap64 (0 + Z.of_nat i + 2)))
                         /\ v = Fullname cnt))
            \/ exists (i : nat) (cnt : contact),
                 contactList !! i = Some cnt
                 /\ k = (sheet2Name, txtCellID (0 + Z.of_nat i))
                 /\ v = Class cnt +:+ " " +:+ Fullname cnt).
  { intros k v Hk. destruct (Hc2 k v Hk) as [Hold|H]; [|auto].
    destruct (H1 k v Hold) as [H|[H|H]]; auto. }
  assert (P2 : forall k v,
            excelize.pictures (snd (genQRCodeSheet fails f1 contactList)) !! k
            = Some v ->
            exists (i : nat) (cnt : contact),
              contactList !! i = Some cnt
              /\ k = (sheet2Name, imgCellID (0 + Z.of_nat i))
              /\ v = imgFname cnt).
  { intros k v Hk. destruct (Hp2 k v Hk) as [Hold|H]; [|exact H].
    destruct (P1 k v Hold). }
  assert (H1' : forall k v,
            excelize.cells f1 !! k = Some v ->
            (k = (sheet1Name, "A1") /\ v = "class")
            \/ (k = (sheet1Name, "B1") /\ v = "name")
            \/ (exists (i : nat) (cnt : contact),
                  contactList !! i = Some cnt
                  /\ (k = (sheet1Name,
                           "A" +:+ strconv.FormatInt
                                     (wrap64 (0 + Z.of_nat i + 2)))
                      /\ v = Class cnt
                      \/ k = (sheet1Name,
                              "B" +:+ strconv.FormatInt
                                        (wrap64 (0 + Z.of_nat i + 2)))
                         /\ v = Fullname cnt))
            \/ exists (i : nat) (cnt : contact),
                 contactList !! i = Some cnt
                 /\ k = (sheet2Name, txtCellID (0 + Z.of_nat i))
                 /\ v = Class cnt +:+ " " +:+ Fullname cnt).
  { intros k v Hk. destruct (H1 k v Hk) as [H|[H|H]]; auto. }
  clear Hc2 Hp2.
  destruct r1 as [[]| |]; cbn [fst snd];
    [|split; [exact H1'|intros k v Hk; destruct (P1 k v Hk)]..].
  destruct (genQRCodeSheet fails f1 contactList) as [r2 f2].
  cbn [snd] in H2, P2.
  destruct r2 as [[]| |]; cbn [fst snd]; [|split; assumption..].
  destruct (SaveAs fails xlsx w f2 outFname) as [r3 w3].
  cbn [fst snd]. split; assumption.
Qed.

End Partial.

(** The workbook built when no call fails. *)
Lemma complete_workbook (xlsx : excelize.File -> string) (w : World)
    (outFname : string) (contactList : list contact) :
  Z.of_nat (length contactList) < 2 ^ 62 ->
  excelize.cells
    (snd (fst (generateExcelFile neverFails xlsx w outFname contactList)))
    !! (sheet1Name, "A1") = Some "class"
  /\ excelize.cells
       (snd (fst (generateExcelFile neverFails xlsx w outFname contactList)))
       !! (sheet1Name, "B1") = Some "name"
  /\ forall (i : nat) (cnt : contact),
       contactList !! i = Some cnt ->
       excelize.cells
         (snd (fst (generateExcelFile neverFails xlsx w outFname contactList)))
         !! (sheet1Name,
             "A" +:+ strconv.FormatInt (wrap64 (0 + Z.of_nat i + 2)))
       = Some (Class cnt)
       /\ excelize.cells
            (snd (fst (generateExcelFile neverFails xlsx w outFname contactList)))
            !! (sheet1Name,
                "B" +:+ strconv.FormatInt (wrap64 (0 + Z.of_nat i + 2)))
          = Some (Fullname cnt)
       /\ excelize.cells
            (snd (fst (generateExcelFile neverFails xlsx w outFname contactList)))
            !! (sheet2Name, txtCellID (0 + Z.of_nat i))
          = Some (Class cnt +:+ " " +:+ Fullname cnt)
       /\ excelize.pictures
            (snd (fst (generateExcelFile neverFails xlsx w outFname contactList)))
            !! (sheet2Name, imgCellID (0 + Z.of_nat i))
          = Some (imgFname cnt).
Proof.
  intros Hlen.
  assert (never : forall f c, neverFails f c = false) by reflexivity.
  unfold generateExcelFile, fillListSheet, genQRCodeSheet.
  repeat (rewrite (exec_ok neverFails never); cbn [snd]).
  match goal with
  | |- context [SaveAs neverFails xlsx w ?f outFname] =>
      destruct (SaveAs neverFails xlsx w f outFname) as [r3 w3]
  end.
  cbn [fst snd].
  match goal with
  | |- context [fillListRows _ _ ?f contactList] => set (f1 := f)
  end.
  match goal with
  | |- context [genQRCodeCells _ ?t ?s _ ?f contactList] =>
      set (tS := t); set (iS := s); set (f2 := f)
  end.
  destruct (genQRCodeCells_cells neverFails never tS iS contactList 0 f2
              ltac:(lia) ltac:(lia)) as (Hgrid & Hcells2 & Hpics2).
  destruct (fillListRows_cells neverFails never contactList 0 f1
              ltac:(lia) ltac:(lia)) as (Hrows & Hcells1 & Hpics1).
  assert (Hf2 : excelize.cells f2
                = excelize.cells (fillListRows neverFails 0 f1 contactList))
    by reflexivity.
  assert (Hsheet : forall c : string,
             excelize.cells
               (genQRCodeCells neverFails tS iS 0 f2 contactList)
               !! (sheet1Name, c)
             = excelize.cells (fillListRows neverFails 0 f1 contactList)
                 !! (sheet1Name, c)).
  { intros c. rewrite Hcells2 by (intros j Hj; discriminate).
    now rewrite Hf2. }
  assert (Hhead : forall (c : ascii) (v : string),
             excelize.cells f1
               !! (sheet1Name, String c "" +:+ strconv.FormatInt 1) = Some v ->
             excelize.cells (genQRCodeCells neverFails tS iS 0 f2 contactList)
               !! (sheet1Name, String c "" +:+ strconv.FormatInt 1) = Some v).
  { intros c v Hv. rewrite Hsheet, Hcells1; [exact Hv|].
    intros j Hj.
    split; intros Heq; pose proof (f_equal snd Heq) as Hs; cbn [snd] in Hs;
      apply cell_inj in Hs as [_ Hs]; lia. }
  split; [exact (Hhead "A"%char "class" eq_refl)|].
  split; [exact (Hhead "B"%char "name" eq_refl)|].
  intros i cnt Hi.
  assert (Hbound : 0 <= Z.of_nat i < 2 ^ 62).
  { apply lookup_lt_Some in Hi. lia. }
  destruct (Hrows i cnt Hi) as [HA HB].
  destruct (Hgrid i cnt Hi) as [HT HP].
  rewrite wrap64_small by (pow_consts; lia).
  rewrite !Hsheet. repeat split; assumption.
Qed.

(** X16: whatever fails, the workbook [generateExcelFile] has built when
    it returns is a part of the workbook it builds when nothing fails:
    every cell and every picture it holds is where the complete workbook
    has it, with the same content.  No failure puts the data of a contact
    in the place of another. *)
Theorem generateExcelFile_partial
    (fails : excelize.File -> excelize.call -> bool)
    (xlsx : excelize.File -> string) (w : World)
    (outFname : string) (contactList : list contact) :
  Z.of_nat (length contactList) < 2 ^ 62 ->
  excelize.cells (snd (fst (generateExcelFile fails xlsx w outFname contactList)))
  ⊆ excelize.cells
      (snd (fst (generateExcelFile neverFails xlsx w outFname contactList)))
  /\ excelize.pictures
       (snd (fst (generateExcelFile fails xlsx w outFname contactList)))
     ⊆ excelize.pictures
         (snd (fst (generateExcelFile neverFails xlsx w outFname contactList))).
Proof.
  intros Hlen.
  destruct (complete_workbook xlsx w outFname contactList Hlen)
    as (HA1 & HB1 & Hrows).
  destruct (generateExcelFile_provenance fails xlsx w outFname contactList)
    as [Hcells Hpics].
  split; apply map_subseteq_spec; intros k v Hk.
  - destruct (Hcells k v Hk)
      as [[-> ->]|[[-> ->]|[(i & cnt & Hi & Hpos)|(i & cnt & Hi & -> & ->)]]].
    + exact HA1.
    + exact HB1.
    + destruct (Hrows i cnt Hi) as (HA & HB & _).
      destruct Hpos as [[-> ->]|[-> ->]]; assumption.
    + now destruct (Hrows i cnt Hi) as (_ & _ & HT & _).
  - destruct (Hpics k v Hk) as (i & cnt & Hi & -> & ->).
    now destruct (Hrows i cnt Hi) as (_ & _ & _ & HP).
Qed.

Lemma generateExcelFile_partial_witness :
  excelize.cells
    (snd (fst (generateExcelFile picturesFail sampleXlsx emptyWorld "testdata/out.xlsx"
                 sampleContacts)))
  ⊆ excelize.cells
      (snd (fst (generateExcelFile neverFails sampleXlsx emptyWorld "testdata/out.xlsx"
                   sampleContacts)))
  /\ excelize.pictures
       (snd (fst (generateExcelFile picturesFail sampleXlsx emptyWorld
                    "testdata/out.xlsx" sampleContacts)))
     ⊆ excelize.pictures
         (snd (fst (generateExcelFile neverFails sampleXlsx emptyWorld
                      "testdata/out.xlsx" sampleContacts))).
Proof.
  apply (generateExcelFile_partial picturesFail sampleXlsx emptyWorld
           "testdata/out.xlsx" sampleContacts).
  reflexivity.
Defined.

Lemma txt_is_not_img (i j : Z) :
  0 <= i < 2 ^ 62 -> 0 <= j < 2 ^ 62 -> txtCellID i <> imgCellID j.
Proof.
  intros Hi Hj. rewrite txtCellID_grid, imgCellID_grid, !gridColumn_letter
    by lia.
  intros H. apply cell_inj in H as [_ Hr]. lia.
Qed.

Section Styles.

Variable fails : excelize.File -> excelize.call -> bool.
Variable xlsx : excelize.File -> string.
Hypothesis never : forall f c, fails f c = false.

(** The grid: the styles of the cells and the heights of the rows. *)
Lemma genQRCodeCells_styles (txtStyleID imgStyleID : Z)
    (contactList : list contact) :
  forall (idx : Z) (fout : excelize.File),
    0 <= idx -> idx + Z.of_nat (length contactList) < 2 ^ 62 ->
    (forall (i : nat) (cnt : contact),
        contactList !! i = Some cnt ->
        excelize.cellStyles
          (genQRCodeCells fails txtStyleID imgStyleID idx fout contactList)
          !! (sheet2Name, txtCellID (idx + Z.of_nat i)) = Some txtStyleID
        /\ excelize.cellStyles
             (genQRCodeCells fails txtStyleID imgStyleID idx fout contactList)
             !! (sheet2Name, imgCellID (idx + Z.of_nat i)) = Some imgStyleID
        /\ (Z.even (idx + Z.of_nat i) = true ->
            excelize.rowHeights
              (genQRCodeCells fails txtStyleID imgStyleID idx fout contactList)
              !! (sheet2Name, 2 * ((idx + Z.of_nat i) / 2) + 2) = Some 155))
    /\ (forall k : string * string,
          (forall j : Z, idx <= j < 2 ^ 62 ->
             k <> (sheet2Name, txtCellID j) /\ k <> (sheet2Name, imgCellID j)) ->
          excelize.cellStyles
            (genQRCodeCells fails txtStyleID imgStyleID idx fout contactList)
            !! k
          = excelize.cellStyles fout !! k)
    /\ (forall k : string * Z,
          excelize.rowHeights fout !! k = Some 155 ->
          excelize.rowHeights
            (genQRCodeCells fails txtStyleID imgStyleID idx fout contactList)
            !! k = Some 155)
    /\ excelize.styles
         (genQRCodeCells fails txtStyleID imgStyleID idx fout contactList)
       = excelize.styles fout
    /\ excelize.sheets
         (genQRCodeCells fails txtStyleID imgStyleID idx fout contactList)
       = excelize.sheets fout.
Proof.
  induction contactList as [|cnt rest IH]; intros idx fout Hidx Hlen.
  - cbn [genQRCodeCells].
    split; [intros i c Hi; discriminate|].
    split; [reflexivity|]. split; [tauto|]. split; reflexivity.
  - cbn [length] in Hlen. cbn [genQRCodeCells].
    repeat (rewrite (exec_ok fails never); cbn [snd]).
    match goal with
    | |- context [genQRCodeCells _ _ _ _ ?f rest] => set (f4 := f)
    end.
    destruct (IH (idx + 1) f4 ltac:(lia) ltac:(lia))
      as (Hrows & Hframe & Hheights & Hstyles & Hsheets).
    assert (Hcs4 : excelize.cellStyles f4
              = <[(sheet2Name, imgCellID idx) := imgStyleID]>
                  (<[(sheet2Name, txtCellID idx) := txtStyleID]>
                     (excelize.cellStyles fout))).
    { subst f4. destruct (Z.rem idx 2 =? 0); reflexivity. }
    assert (Hrh4 : excelize.rowHeights f4
              = if Z.rem idx 2 =? 0
                then <[(sheet2Name, wrap64 (qrRowID idx + 1)) := 155]>
                       (excelize.rowHeights fout)
                else excelize.rowHeights fout).
    { subst f4. destruct (Z.rem idx 2 =? 0); reflexivity. }
    assert (Hst4 : excelize.styles f4 = excelize.styles fout
                   /\ excelize.sheets f4 = excelize.sheets fout).
    { subst f4. destruct (Z.rem idx 2 =? 0); split; reflexivity. }
    assert (Hlater : forall j, idx + 1 <= j < 2 ^ 62 ->
              (sheet2Name, txtCellID idx) <> (sheet2Name, txtCellID j)
              /\ (sheet2Name, txtCellID idx) <> (sheet2Name, imgCellID j)
              /\ (sheet2Name, imgCellID idx) <> (sheet2Name, txtCellID j)
              /\ (sheet2Name, imgCellID idx) <> (sheet2Name, imgCellID j)).
    { intros j Hj. repeat split; intros [= H].
      - apply txtCellID_inj in H; lia.
      - apply txt_is_not_img in H; [exact H|lia..].
      - symmetry in H. apply txt_is_not_img in H; [exact H|lia..].
      - apply imgCellID_inj in H; lia. }
    split; [|split; [|split; [|split]]].
    + intros [|i] c Hi.
      * injection Hi as <-. rewrite Z.add_0_r.
        rewrite !Hframe by (intros j Hj; destruct (Hlater j Hj); tauto).
        rewrite Hcs4. split; [|split].
        -- rewrite lookup_insert_ne, lookup_insert_eq; [reflexivity|].
           intros [= H]. symmetry in H.
           apply txt_is_not_img in H; [exact H|lia..].
        -- apply lookup_insert_eq.
        -- intros Heven. apply Hheights. rewrite Hrh4.
           rewrite Z.rem_mod_nonneg by lia.
           rewrite Zeven_mod in Heven. rewrite Heven.
           rewrite qrRowID_grid by lia.
           assert (0 <= 2 * (idx / 2) <= idx)
             by (split; [apply Z.mul_nonneg_nonneg; [|apply Z.div_pos]
                        |apply Z.mul_div_le]; lia).
           rewrite wrap64_small by (pow_consts; lia).
           replace (2 * (idx / 2) + 1 + 1) with (2 * (idx / 2) + 2) by lia.
           apply lookup_insert_eq.
      * destruct (Hrows i c Hi) as (HT & HI & HH).
        replace (idx + Z.of_nat (S i)) with (idx + 1 + Z.of_nat i) by lia.
        now repeat split.
    + intros k Hk.
      rewrite Hframe by (intros j Hj; apply Hk; lia).
      rewrite Hcs4. destruct (Hk idx ltac:(lia)) as [HkT HkI].
      rewrite !lookup_insert_ne by congruence. reflexivity.
    + intros k Hk. apply Hheights. rewrite Hrh4.
      destruct (Z.rem idx 2 =? 0); [|exact Hk].
      destruct (decide (k = (sheet2Name, wrap64 (qrRowID idx + 1))))
        as [->|Hne].
      * apply lookup_insert_eq.
      * now rewrite lookup_insert_ne by congruence.
    + rewrite Hstyles. apply Hst4.
    + rewrite Hsheets. apply Hst4.
Qed.

(** X17: when no spreadsheet call fails, the second sheet of the workbook
    built (and saved, when [outFname] can be written) frames each contact's
    card.  The workbook has the two sheets and two styles, the
    first with borders at the top, left and right, the second with borders
    at the left, right and bottom; the text cell of every contact has the
    first style and its picture cell the second; and every row of pictures
    is 155 points high. *)
Theorem generateExcelFile_styles (w : World) (outFname : string)
    (contactList : list contact) :
  Z.of_nat (length contactList) < 2 ^ 62 ->
  exists fout : excelize.File,
    snd (fst (generateExcelFile fails xlsx w outFname contactList)) = fout
    /\ ((outFname ∉ readonly w) ->
        exists w' : World,
          generateExcelFile fails xlsx w outFname contactList
          = (Ok tt, fout, w'))
    /\ excelize.sheets fout = ["Sheet1"; "Sheet2"]
    /\ excelize.styles fout
       = [["top"; "left"; "right"]; ["left"; "right"; "bottom"]]
    /\ forall (i : nat) (cnt : contact),
         contactList !! i = Some cnt ->
         excelize.cellStyles fout
           !! ("Sheet2",
               gridColumn (Z.of_nat i)
               +:+ strconv.FormatInt (2 * (Z.of_nat i / 2) + 1))
         = Some 1
         /\ excelize.cellStyles fout
              !! ("Sheet2",
                  gridColumn (Z.of_nat i)
                  +:+ strconv.FormatInt (2 * (Z.of_nat i / 2) + 2))
            = Some 2
         /\ excelize.rowHeights fout
              !! ("Sheet2", 2 * (Z.of_nat i / 2) + 2) = Some 155.
Proof.
  intros Hlen.
  unfold generateExcelFile, fillListSheet, genQRCodeSheet.
  repeat (rewrite (exec_ok fails never); cbn [snd]).
  match goal with
  | |- context [fillListRows _ _ ?f contactList] => set (f1 := f)
  end.
  match goal with
  | |- context [genQRCodeCells _ ?t ?s _ ?f contactList] =>
      set (tS := t); set (iS := s); set (f2 := f)
  end.
  exists (genQRCodeCells fails tS iS 0 f2 contactList).
  split; [now destruct (SaveAs fails xlsx w _ outFname)|].
  split.
  { intros Hw. rewrite (SaveAs_ok fails xlsx never) by exact Hw.
    eexists. reflexivity. }
  destruct (genQRCodeCells_styles tS iS contactList 0 f2 ltac:(lia) ltac:(lia))
    as (Hgrid & _ & _ & Hstyles & Hsheets).
  destruct (fillListRows_frame fails contactList 0 f1) as (Hst1 & Hsh1).
  assert (HtS : tS = 1).
  { subst tS. unfold nextStyleID.
    cbn [excelize.effect excelize.styles]. now rewrite Hst1. }
  assert (HiS : iS = 2).
  { subst iS. unfold nextStyleID.
    cbn [excelize.effect excelize.styles]. rewrite Hst1. reflexivity. }
  cbn [excelize.effect].
  split; [|split].
  - rewrite Hsheets. subst f2. cbn [excelize.effect excelize.sheets].
    now rewrite Hsh1.
  - rewrite Hstyles. subst f2. cbn [excelize.effect excelize.styles].
    now rewrite Hst1.
  - intros i cnt Hi.
    assert (Hbound : 0 <= Z.of_nat i < 2 ^ 62).
    { apply lookup_lt_Some in Hi. lia. }
    destruct (Hgrid i cnt Hi) as (HT & HI & _).
    rewrite Z.add_0_l in *.
    rewrite txtCellID_grid in HT by assumption.
    rewrite imgCellID_grid in HI by assumption.
    split; [transitivity (Some tS); [exact HT|now f_equal]|].
    split; [transitivity (Some iS); [exact HI|now f_equal]|].
    destruct (Z.even (Z.of_nat i)) eqn:Heven.
    + destruct (Hgrid i cnt Hi) as (_ & _ & HH).
      rewrite Z.add_0_l in HH. now apply HH.
    + destruct i as [|i']; [discriminate Heven|].
      destruct (lookup_lt_is_Some_2 contactList i') as [c' Hi'].
      { apply lookup_lt_Some in Hi. lia. }
      destruct (Hgrid i' c' Hi') as (_ & _ & HH).
      rewrite Z.add_0_l in HH.
      replace (Z.of_nat (S i') / 2) with (Z.of_nat i' / 2).
      * apply HH. rewrite Nat2Z.inj_succ, Z.even_succ in Heven.
        rewrite <- Z.negb_even in Heven.
        now destruct (Z.even (Z.of_nat i')).
      * rewrite Nat2Z.inj_succ, Z.even_succ, <- Z.negb_even in Heven.
        destruct (Z.even (Z.of_nat i')) eqn:He; [|discriminate].
        rewrite Zeven_mod in He. apply Z.eqb_eq in He.
        pose proof (Z.div_mod (Z.of_nat i') 2 ltac:(lia)).
        pose proof (Z.div_mod (Z.succ (Z.of_nat i')) 2 ltac:(lia)).
        pose proof (Z.mod_pos_bound (Z.succ (Z.of_nat i')) 2 ltac:(lia)).
        lia.
Qed.

End Styles.

Lemma generateExcelFile_styles_witness :
  exists (fout : excelize.File) (w' : World),
    generateExcelFile neverFails sampleXlsx emptyWorld "testdata/out.xlsx"
      sampleContacts
    = (Ok tt, fout, w')
    /\ excelize.cellStyles fout !! ("Sheet2", "B1") = Some 1
    /\ excelize.cellStyles fout !! ("Sheet2", "B2") = Some 2
    /\ excelize.rowHeights fout !! ("Sheet2", 2) = Some 155.
Proof.
  destruct (generateExcelFile_styles neverFails sampleXlsx
              (fun f c => eq_refl) emptyWorld "testdata/out.xlsx"
              sampleContacts eq_refl)
    as (fout & _ & Hsave & _ & _ & Hrows).
  destruct (Hsave (not_elem_of_empty _)) as (w' & Hrun).
  exists fout, w'. split; [exact Hrun|].
  exact (Hrows 1%nat (mkContact "302" "Amy Wu" "testdata/1002.vcf"
                        "02-2345-6789" "-" 0) eq_refl).
Defined.

(** ** The orchestrators *)

Lemma comesAfter_refl (w : World) : comesAfter w w.
Proof. repeat split; auto. Qed.

Lemma comesAfter_trans (w1 w2 w3 : World) :
  comesAfter w1 w2 -> comesAfter w2 w3 -> comesAfter w1 w3.
Proof.
  intros (Hr1 & Hp1 & Hf1) (Hr2 & Hp2 & Hf2). split; [congruence|]. split.
  - intros p Hp. rewrite Hp2, Hp1; [reflexivity|assumption|].
    now rewrite Hr1.
  - auto.
Qed.

Lemma WriteFile_comesAfter (w : World) (name data : string) :
  comesAfter w (snd (os.WriteFile w name data)).
Proof.
  unfold os.WriteFile. case_decide as Hro; cbn [snd];
    [apply comesAfter_refl|].
  split; [reflexivity|]. cbn [files]. split.
  - intros p Hp. apply lookup_insert_ne. congruence.
  - intros p Hp. destruct (decide (name = p)) as [->|Hne].
    + rewrite lookup_insert_eq. eauto.
    + now rewrite lookup_insert_ne.
Qed.

Lemma generateVCard_comesAfter (w : World) (cnt : contact) :
  comesAfter w (snd (generateVCard w cnt)).
Proof.
  unfold generateVCard. destruct (vcardBuilder cnt);
    [apply WriteFile_comesAfter|apply comesAfter_refl..].
Qed.

Lemma ListCSV_generateVCard_comesAfter (w : World) (cnt : ListCSV.contact) :
  comesAfter w (snd (ListCSV.generateVCard w cnt)).
Proof. apply (generateVCard_comesAfter w (accepted cnt)). Qed.

Lemma geneateQRCodeByFile_comesAfter (png : string -> option string)
    (w : World) (vcfFname : string) :
  comesAfter w (snd (geneateQRCodeByFile png w vcfFname)).
Proof.
  unfold geneateQRCodeByFile.
  destruct (negb _); [|apply comesAfter_refl].
  destruct (os.ReadFile w vcfFname) as [content| |];
    [|apply comesAfter_refl..].
  destruct (String.length content =? 0)%nat; [apply comesAfter_refl|].
  unfold qrcode.WriteFile. destruct (png content) as [image|];
    [|apply comesAfter_refl].
  pose proof (WriteFile_comesAfter w
                (strings.Trim vcfFname defaultVCFExtension +:+ ".png") image)
    as H.
  now destruct (os.WriteFile w _ image).
Qed.

(** When the adapter returns [nil], the vCard it was given is on disk. *)
Lemma geneateQRCodeByFile_Ok (png : string -> option string)
    (w : World) (vcfFname : string) :
  fst (geneateQRCodeByFile png w vcfFname) = Ok tt ->
  is_Some (files (snd (geneateQRCodeByFile png w vcfFname)) !! vcfFname).
Proof.
  intros Hok.
  destruct (geneateQRCodeByFile_effects png w vcfFname)
    as (_ & _ & Hsame & _).
  rewrite Hsame. revert Hok. unfold geneateQRCodeByFile, os.ReadFile.
  destruct (negb _); [|discriminate].
  destruct (files w !! vcfFname); [eauto|discriminate].
Qed.

Section Runs.

Variable Join : string -> string -> string.
Variable decode : string -> list csv.line.
Variable png : string -> option string.
Variable fails : excelize.File -> excelize.call -> bool.
Variable xlsx : excelize.File -> string.

Lemma qrcodeEach_comesAfter (args : list string) :
  forall w : World, comesAfter w (snd (qrcodeEach png w args)).
Proof.
  induction args as [|a rest IH]; intros w; cbn [qrcodeEach];
    [apply comesAfter_refl|].
  pose proof (geneateQRCodeByFile_comesAfter png w a) as H.
  destruct (geneateQRCodeByFile png w a) as [[[]| |] w1]; cbn [snd] in *;
    [|assumption..].
  exact (comesAfter_trans _ _ _ H (IH w1)).
Qed.

Lemma contactStep_comesAfter (w : World) (cnt : contact) :
  comesAfter w (snd (contactStep png w cnt)).
Proof.
  unfold contactStep.
  destruct (Answer cnt =? AnswerCustom).
  - destruct (os.Stat w (VcfFname cnt)) as [[]| |];
      [apply geneateQRCodeByFile_comesAfter|apply comesAfter_refl..].
  - pose proof (generateVCard_comesAfter w cnt) as H.
    destruct (generateVCard w cnt) as [[[]| |] w1]; cbn [snd] in *;
      [|assumption..].
    exact (comesAfter_trans _ _ _ H
             (geneateQRCodeByFile_comesAfter png w1 (VcfFname cnt))).
Qed.

(** A step of the loop that returns [nil] leaves the vCard of its contact
    on disk, and the contact is Custom or has a name. *)
Lemma contactStep_Ok (w : World) (cnt : contact) :
  fst (contactStep png w cnt) = Ok tt ->
  is_Some (files (snd (contactStep png w cnt)) !! VcfFname cnt)
  /\ (Answer cnt = AnswerCustom \/ Fullname cnt <> "").
Proof.
  unfold contactStep.
  destruct (Z.eqb_spec (Answer cnt) AnswerCustom) as [Hc|Hc].
  - destruct (os.Stat w (VcfFname cnt)) as [[]| |]; [|discriminate..].
    intros Hok. split; [now apply geneateQRCodeByFile_Ok|now left].
  - destruct (generateVCard w cnt) as [[[]| |] w1] eqn:Hgen;
      [|discriminate..].
    intros Hok. split; [now apply geneateQRCodeByFile_Ok|]. right.
    intros Hname. unfold generateVCard in Hgen.
    rewrite (vcardBuilder_empty_name cnt Hname) in Hgen. discriminate.
Qed.

Lemma contactLoop_comesAfter (contactLst : list contact) :
  forall w : World, comesAfter w (snd (contactLoop png w contactLst)).
Proof.
  induction contactLst as [|cnt rest IH]; intros w; cbn [contactLoop];
    [apply comesAfter_refl|].
  pose proof (contactStep_comesAfter w cnt) as H.
  destruct (contactStep png w cnt) as [[[]| |] w1]; cbn [snd] in *;
    [|assumption..].
  exact (comesAfter_trans _ _ _ H (IH w1)).
Qed.

Lemma contactLoop_Ok (contactLst : list contact) :
  forall w : World,
    fst (contactLoop png w contactLst) = Ok tt ->
    Forall (fun cnt =>
              is_Some (files (snd (contactLoop png w contactLst))
                         !! VcfFname cnt)
              /\ (Answer cnt = AnswerCustom \/ Fullname cnt <> ""))
           contactLst.
Proof.
  induction contactLst as [|cnt rest IH]; intros w; cbn [contactLoop];
    [constructor|].
  pose proof (contactStep_Ok w cnt) as Hstep.
  destruct (contactStep png w cnt) as [[[]| |] w1]; cbn [fst snd] in *;
    [|discriminate..].
  intros Hok. destruct (Hstep eq_refl) as [Hfile Hname].
  constructor; [|now apply IH].
  split; [|exact Hname].
  now apply (contactLoop_comesAfter rest w1).
Qed.

Lemma generateExcelFile_comesAfter (w : World) (outFname : string)
    (contactList : list contact) :
  comesAfter w (snd (generateExcelFile fails xlsx w outFname contactList))
  /\ forall p : string,
       p <> outFname ->
       workbooks (snd (generateExcelFile fails xlsx w outFname contactList)) !! p
       = workbooks w !! p.
Proof.
  destruct (generateExcelFile_effects fails xlsx w outFname contactList)
    as (Hro & Hother & Hok & Herr).
  split; [|intros p Hp; now apply Hother].
  destruct (fst (fst (generateExcelFile fails xlsx w outFname contactList)))
    as [[]| |] eqn:E.
  - destruct (Hok eq_refl) as (Hw & Hfile & _).
    split; [exact Hro|]. split.
    + intros p Hp. apply Hother. intros ->. contradiction.
    + intros p Hp. destruct (decide (p = outFname)) as [->|Hne].
      * rewrite Hfile. eauto.
      * now rewrite (proj1 (Hother p Hne)).
  - rewrite Herr by discriminate. apply comesAfter_refl.
  - rewrite Herr by discriminate. apply comesAfter_refl.
Qed.

(** X18: a run of the full tool never removes a file, never changes a
    read-only file or a permission, and saves no workbook but the one named
    by the flags. *)
Theorem mainAction_safety (w : World) (c : Flags) :
  comesAfter w (snd (mainAction Join decode png fails xlsx w c))
  /\ forall p : string,
       p <> Join (dataFolder c) (outExcelFname c) ->
       workbooks (snd (mainAction Join decode png fails xlsx w c)) !! p
       = workbooks w !! p.
Proof.
  unfold mainAction.
  pose proof (qrcodeEach_comesAfter (Args c) w) as Hargs.
  assert (Hwb : forall args w0,
            workbooks (snd (qrcodeEach png w0 args)) = workbooks w0).
  { induction args as [|a rest IH]; intros w0; cbn [qrcodeEach];
      [reflexivity|].
    destruct (geneateQRCodeByFile_effects png w0 a) as (_ & Hw & _).
    destruct (geneateQRCodeByFile png w0 a) as [[[]| |] w1]; cbn [snd] in *;
      [|assumption..].
    now rewrite IH. }
  specialize (Hwb (Args c) w).
  destruct (qrcodeEach png w (Args c)) as [[[]| |] w1]; cbn [snd] in *;
    [|split; [assumption|intros; congruence]..].
  destruct (String.eqb (lstFname c) ""); cbn [snd];
    [split; [assumption|intros; congruence]|].
  destruct (parseInputList Join decode w1 (dataFolder c) (lstFname c))
    as [contactLst| |]; cbn [snd];
    [|split; [assumption|intros; congruence]..].
  pose proof (contactLoop_comesAfter contactLst w1) as Hloop.
  assert (Hwb2 : forall cs w0,
            workbooks (snd (contactLoop png w0 cs)) = workbooks w0).
  { induction cs as [|cnt rest IH]; intros w0; cbn [contactLoop];
      [reflexivity|].
    assert (Hstep : workbooks (snd (contactStep png w0 cnt)) = workbooks w0).
    { unfold contactStep. destruct (Answer cnt =? AnswerCustom).
      - destruct (os.Stat w0 (VcfFname cnt)) as [[]| |]; [|reflexivity..].
        now destruct (geneateQRCodeByFile_effects png w0 (VcfFname cnt))
          as (_ & Hw & _).
      - assert (Hgen : workbooks (snd (generateVCard w0 cnt))
                       = workbooks w0).
        { unfold generateVCard. destruct (vcardBuilder cnt);
            [|reflexivity..].
          unfold os.WriteFile. now case_decide. }
        destruct (generateVCard w0 cnt) as [[[]| |] w2]; cbn [snd] in *;
          [|assumption..].
        destruct (geneateQRCodeByFile_effects png w2 (VcfFname cnt))
          as (_ & Hw & _).
        congruence. }
    destruct (contactStep png w0 cnt) as [[[]| |] w2]; cbn [snd] in *;
      [|assumption..].
    now rewrite IH. }
  specialize (Hwb2 contactLst w1).
  pose proof (comesAfter_trans _ _ _ Hargs Hloop) as Hboth.
  destruct (contactLoop png w1 contactLst) as [[[]| |] w2]; cbn [snd] in *;
    [|split; [assumption|intros; congruence]..].
  destruct (negb (String.eqb (outExcelFname c) "")); cbn [snd];
    [|split; [assumption|intros; congruence]].
  destruct (generateExcelFile_comesAfter w2
              (Join (dataFolder c) (outExcelFname c)) contactLst)
    as (Hsave & Hbooks).
  destruct (generateExcelFile fails xlsx w2 _ contactLst) as [[r f] w3].
  cbn [snd] in *. split.
  - exact (comesAfter_trans _ _ _ Hboth Hsave).
  - intros p Hp. rewrite Hbooks by exact Hp. congruence.
Qed.

(** X19: when a run of the full tool over a list returns [nil], every
    contact of the list has its vCard on disk, and every contact that is not
    Custom has a name: a row with an empty name makes the run fail. *)
Theorem mainAction_success (w w' : World) (c : Flags) :
  lstFname c <> "" ->
  mainAction Join decode png fails xlsx w c = (Ok tt, w') ->
  exists contactLst : list contact,
    parseInputList Join decode (snd (qrcodeEach png w (Args c)))
      (dataFolder c) (lstFname c) = Ok contactLst
    /\ Forall (fun cnt =>
                 is_Some (files w' !! VcfFname cnt)
                 /\ (Answer cnt = AnswerCustom \/ Fullname cnt <> ""))
              contactLst.
Proof.
  intros Hlist. unfold mainAction.
  destruct (qrcodeEach png w (Args c)) as [[[]| |] w1]; cbn [snd];
    [|discriminate..].
  destruct (String.eqb (lstFname c) "") eqn:He;
    [apply eqb_empty in He; contradiction|].
  destruct (parseInputList Join decode w1 (dataFolder c) (lstFname c))
    as [contactLst| |]; [|discriminate..].
  pose proof (contactLoop_Ok contactLst w1) as Hloop.
  destruct (contactLoop png w1 contactLst) as [[[]| |] w2];
    cbn [fst snd] in *; [|discriminate..].
  specialize (Hloop eq_refl). intros Hrun. exists contactLst.
  split; [reflexivity|].
  assert (Hlater : comesAfter w2 w').
  { destruct (negb (String.eqb (outExcelFname c) ""));
      [|injection Hrun as <-; apply comesAfter_refl].
    destruct (generateExcelFile_comesAfter w2
                (Join (dataFolder c) (outExcelFname c)) contactLst)
      as (Hsave & _).
    destruct (generateExcelFile fails xlsx w2 _ contactLst) as [[r f] w3].
    cbn [snd] in *. now injection Hrun as _ <-. }
  destruct Hlater as (_ & _ & Hkept).
  eapply Forall_impl; [exact Hloop|].
  intros cnt [Hfile Hname]. split; [now apply Hkept|exact Hname].
Qed.

End Runs.

Lemma mainAction_success_witness :
  exists contactLst : list contact,
    parseInputList joinPath plainLines
      (snd (qrcodeEach samplePng (listWorld sampleList) (Args sampleFlags)))
      (dataFolder sampleFlags) (lstFname sampleFlags) = Ok contactLst
    /\ Forall (fun cnt =>
                 is_Some (files (snd (mainAction joinPath plainLines samplePng
                                        neverFails sampleXlsx
                                        (listWorld sampleList)
                                        sampleFlags)) !! VcfFname cnt)
                 /\ (Answer cnt = AnswerCustom \/ Fullname cnt <> ""))
              contactLst.
Proof.
  apply (mainAction_success joinPath plainLines samplePng neverFails
           sampleXlsx (listWorld sampleList)
           (snd (mainAction joinPath plainLines samplePng neverFails sampleXlsx
                   (listWorld sampleList) sampleFlags))
           sampleFlags).
  - discriminate.
  - vm_compute. reflexivity.
Defined.

Section Steps.

Variable png : string -> option string.

(** X20: the vCard of a contact in a step of the full tool.  The vCard of
    a Custom contact is never written, and the step fails without touching
    anything when it is missing; the vCard of any other contact is
    generated anew, whatever the file held before. *)
Theorem contactStep_vcard (w : World) (cnt : contact) :
  (Answer cnt = AnswerCustom ->
   files (snd (contactStep png w cnt)) !! VcfFname cnt
   = files w !! VcfFname cnt
   /\ (files w !! VcfFname cnt = None ->
       contactStep png w cnt = (Err (ErrNotExist (VcfFname cnt)), w)))
  /\ (Answer cnt <> AnswerCustom ->
      fst (contactStep png w cnt) = Ok tt ->
      exists sb : strings.Builder,
        vcardBuilder cnt = Ok sb
        /\ files (snd (contactStep png w cnt)) !! VcfFname cnt
           = Some (strings.String_ sb)).
Proof.
  unfold contactStep. split.
  - intros ->. rewrite Z.eqb_refl. unfold os.Stat.
    destruct (files w !! VcfFname cnt) as [old|] eqn:Hfile; cbn [snd].
    + split; [|discriminate].
      destruct (geneateQRCodeByFile_effects png w (VcfFname cnt))
        as (_ & _ & Hsame & _).
      now rewrite Hsame.
    + split; [exact Hfile|reflexivity].
  - intros Hc. destruct (Z.eqb_spec (Answer cnt) AnswerCustom);
      [contradiction|].
    destruct (generateVCard w cnt) as [[[]| |] w1] eqn:Hgen;
      [|discriminate..].
    intros _.
    destruct (generateVCard_writes w w1 cnt Hgen) as (sb & Hsb & Hfile).
    exists sb. split; [exact Hsb|].
    destruct (geneateQRCodeByFile_effects png w1 (VcfFname cnt))
      as (_ & _ & Hsame & _).
    now rewrite Hsame.
Qed.

(** X21: the vCard of a contact in a step of the CSV list tool.  A vCard
    that is on disk is never written; one is generated only where none is
    there. *)
Theorem CSVTool_contactStep_vcard (w : World) (cnt : ListCSV.contact) :
  (forall old : string,
      files w !! ListCSV.VcfFname cnt = Some old ->
      files (snd (CSVTool.contactStep png w cnt)) !! ListCSV.VcfFname cnt
      = Some old)
  /\ (files w !! ListCSV.VcfFname cnt = None ->
      fst (CSVTool.contactStep png w cnt) = Ok tt ->
      exists sb : strings.Builder,
        ListCSV.vcardBuilder cnt = Ok sb
        /\ files (snd (CSVTool.contactStep png w cnt))
             !! ListCSV.VcfFname cnt
           = Some (strings.String_ sb)).
Proof.
  unfold CSVTool.contactStep, os.Stat. split.
  - intros old Hfile. rewrite Hfile. cbn [snd].
    destruct (geneateQRCodeByFile_effects png w (ListCSV.VcfFname cnt))
      as (_ & _ & Hsame & _).
    now rewrite Hsame.
  - intros Hfile. rewrite Hfile.
    destruct (ListCSV.generateVCard w cnt) as [[[]| |] w1] eqn:Hgen;
      [|discriminate..].
    intros _.
    destruct (generateVCard_writes w w1 (accepted cnt) Hgen)
      as (sb & Hsb & Hw1).
    exists sb. split; [exact Hsb|].
    destruct (geneateQRCodeByFile_effects png w1 (ListCSV.VcfFname cnt))
      as (_ & _ & Hsame & _).
    rewrite Hsame. exact Hw1.
Qed.

End Steps.

Lemma contactStep_vcard_witness :
  contactStep samplePng emptyWorld
    (mkContact "301" "Jeff Lin" "testdata/jeff.vcf" "" "" AnswerCustom)
  = (Err (ErrNotExist "testdata/jeff.vcf"), emptyWorld)
  /\ exists sb : strings.Builder,
       vcardBuilder sampleContact = Ok sb
       /\ files (snd (contactStep samplePng sampleWorld sampleContact))
            !! VcfFname sampleContact
          = Some (strings.String_ sb).
Proof.
  split.
  - apply (contactStep_vcard samplePng emptyWorld
             (mkContact "301" "Jeff Lin" "testdata/jeff.vcf" "" ""
                AnswerCustom)); reflexivity.
  - apply (contactStep_vcard samplePng sampleWorld sampleContact).
    + discriminate.
    + vm_compute. reflexivity.
Defined.

Lemma CSVTool_contactStep_vcard_witness :
  files (snd (CSVTool.contactStep samplePng sampleWorld
                (released sampleContact)))
    !! ListCSV.VcfFname (released sampleContact)
  = Some "BEGIN:VCARD".
Proof.
  apply (CSVTool_contactStep_vcard samplePng sampleWorld
           (released sampleContact)).
  reflexivity.
Defined.

(** X22: the file arguments.  Without a list the three tools do the same:
    a QR code for each argument, up to the first that fails.  In the full
    tool the arguments come first, so a failing argument ends the run
    before the list is read; in the CSV list tool the list comes first, so
    a list that cannot be parsed ends the run before any argument. *)
Theorem mainAction_arguments (Join : string -> string -> string)
    (decode : string -> list csv.line) (png : string -> option string)
    (fails : excelize.File -> excelize.call -> bool)
    (xlsx : excelize.File -> string) (w : World) (c : Flags) :
  QRTool.mainAction png w c = qrcodeEach png w (Args c)
  /\ (lstFname c = "" ->
      mainAction Join decode png fails xlsx w c = qrcodeEach png w (Args c)
      /\ CSVTool.mainAction Join decode png w c = qrcodeEach png w (Args c))
  /\ (fst (qrcodeEach png w (Args c)) <> Ok tt ->
      mainAction Join decode png fails xlsx w c = qrcodeEach png w (Args c))
  /\ (lstFname c <> "" ->
      forall e : error,
        CSVTool.parseInputList Join decode w (dataFolder c) (lstFname c)
        = Err e ->
        CSVTool.mainAction Join decode png w c = (Err e, w)).
Proof.
  assert (HQ : QRTool.mainAction png w c = qrcodeEach png w (Args c)).
  { unfold QRTool.mainAction. now destruct (Args c). }
  split; [exact HQ|]. split; [|split].
  - intros Hlist. unfold mainAction, CSVTool.mainAction. rewrite Hlist.
    cbn [String.eqb negb]. fold (QRTool.mainAction png w c). rewrite HQ.
    split; [|reflexivity].
    now destruct (qrcodeEach png w (Args c)) as [[[]| |] w1].
  - intros Hfail. unfold mainAction.
    destruct (qrcodeEach png w (Args c)) as [[[]| |] w1];
      [exfalso; now apply Hfail|reflexivity..].
  - intros Hlist e Hparse. unfold CSVTool.mainAction.
    destruct (String.eqb (lstFname c) "") eqn:He;
      [apply eqb_empty in He; contradiction|].
    cbn [negb]. now rewrite Hparse.
Qed.

Lemma mainAction_arguments_witness :
  mainAction joinPath plainLines samplePng neverFails sampleXlsx sampleWorld
    (mkFlags ["testdata/jeff.vcf"] "testdata" "" "")
  = qrcodeEach samplePng sampleWorld ["testdata/jeff.vcf"]
  /\ CSVTool.mainAction joinPath commaLines samplePng emptyWorld sampleFlags
     = (Err (ErrNotExist "testdata/list.txt"), emptyWorld).
Proof.
  split.
  - destruct (mainAction_arguments joinPath plainLines samplePng neverFails
                sampleXlsx sampleWorld (mkFlags ["testdata/jeff.vcf"] "testdata" "" ""))
      as (_ & Hnolist & _ & _).
    exact (proj1 (Hnolist eq_refl)).
  - destruct (mainAction_arguments joinPath commaLines samplePng neverFails
                sampleXlsx emptyWorld sampleFlags) as (_ & _ & _ & Hlist).
    apply Hlist; [discriminate|reflexivity].
Defined.

(** ** The N line and UTF-8 *)

Lemma lor_disjoint (a x : Z) (n : Z) :
  0 <= n -> 0 <= x < 2 ^ n -> Z.lor (a * 2 ^ n) x = a * 2 ^ n + x.
Proof.
  intros Hn Hx. symmetry. apply Z.add_nocarry_lor.
  rewrite <- (Z.mod_small x (2 ^ n)) by lia.
  rewrite <- Z.land_ones by lia.
  rewrite (Z.land_comm x), Z.land_assoc, Z.land_ones by lia.
  rewrite Z.mod_mul by lia. apply Z.land_0_l.
Qed.

Lemma toByte_byteVal (c : ascii) (y : Z) :
  y = utf8.byteVal c -> utf8.toByte y = c.
Proof.
  intros ->. unfold utf8.toByte. pose proof (byteVal_range c) as Hc.
  change 0xFF with (Z.ones 8). rewrite Z.land_ones by lia.
  rewrite Z.mod_small by (change (2 ^ 8) with 256; lia).
  unfold utf8.byteVal. rewrite N2Z.id. apply ascii_N_embedding.
Qed.

Lemma substring_full (s : string) : String.substring 0 (String.length s) s = s.
Proof. induction s as [|c s IH]; [reflexivity|]. cbn. now rewrite IH. Qed.

Lemma lor6 (a x : Z) : 0 <= x < 64 -> Z.lor (a * 64) x = a * 64 + x.
Proof. apply (lor_disjoint a x 6). lia. Qed.

Lemma lor12 (a x : Z) : 0 <= x < 4096 -> Z.lor (a * 4096) x = a * 4096 + x.
Proof. apply (lor_disjoint a x 12). lia. Qed.

Lemma lor18 (a x : Z) :
  0 <= x < 262144 -> Z.lor (a * 262144) x = a * 262144 + x.
Proof. apply (lor_disjoint a x 18). lia. Qed.

Ltac pows :=
  change (2 ^ 3) with 8 in *; change (2 ^ 4) with 16 in *;
  change (2 ^ 5) with 32 in *; change (2 ^ 6) with 64 in *;
  change (2 ^ 8) with 256 in *; change (2 ^ 12) with 4096 in *;
  change (2 ^ 18) with 262144 in *.

Lemma bits2 (b0 b1 : Z) :
  0xC2 <= b0 < 0xE0 -> 0x80 <= b1 <= 0xBF ->
  Z.lor (Z.shiftl (Z.land b0 0x1F) 6) (Z.land b1 0x3F)
  = (b0 - 192) * 64 + (b1 - 128).
Proof.
  intros H0 H1. masks. pows.
  assert (E0 : b0 mod 32 = b0 - 192) by (Z.div_mod_to_equations; lia).
  assert (E1 : b1 mod 64 = b1 - 128) by (Z.div_mod_to_equations; lia).
  rewrite E0, E1. apply lor6. lia.
Qed.

Lemma bits3 (b0 b1 b2 : Z) :
  0xE0 <= b0 < 0xF0 -> 0x80 <= b1 <= 0xBF -> 0x80 <= b2 <= 0xBF ->
  Z.lor (Z.lor (Z.shiftl (Z.land b0 0x0F) 12) (Z.shiftl (Z.land b1 0x3F) 6))
        (Z.land b2 0x3F)
  = (b0 - 224) * 4096 + (b1 - 128) * 64 + (b2 - 128).
Proof.
  intros H0 H1 H2. masks. pows.
  assert (E0 : b0 mod 16 = b0 - 224) by (Z.div_mod_to_equations; lia).
  assert (E1 : b1 mod 64 = b1 - 128) by (Z.div_mod_to_equations; lia).
  assert (E2 : b2 mod 64 = b2 - 128) by (Z.div_mod_to_equations; lia).
  rewrite E0, E1, E2.
  rewrite lor12 by lia.
  replace ((b0 - 224) * 4096 + (b1 - 128) * 64)
    with (((b0 - 224) * 64 + (b1 - 128)) * 64) by lia.
  rewrite lor6 by lia. lia.
Qed.

Lemma bits4 (b0 b1 b2 b3 : Z) :
  0xF0 <= b0 < 0xF8 -> 0x80 <= b1 <= 0xBF -> 0x80 <= b2 <= 0xBF ->
  0x80 <= b3 <= 0xBF ->
  Z.lor (Z.lor (Z.lor (Z.shiftl (Z.land b0 0x07) 18)
                      (Z.shiftl (Z.land b1 0x3F) 12))
               (Z.shiftl (Z.land b2 0x3F) 6))
        (Z.land b3 0x3F)
  = (b0 - 240) * 262144 + (b1 - 128) * 4096 + (b2 - 128) * 64 + (b3 - 128).
Proof.
  intros H0 H1 H2 H3. masks. pows.
  assert (E0 : b0 mod 8 = b0 - 240) by (Z.div_mod_to_equations; lia).
  assert (E1 : b1 mod 64 = b1 - 128) by (Z.div_mod_to_equations; lia).
  assert (E2 : b2 mod 64 = b2 - 128) by (Z.div_mod_to_equations; lia).
  assert (E3 : b3 mod 64 = b3 - 128) by (Z.div_mod_to_equations; lia).
  rewrite E0, E1, E2, E3.
  rewrite lor18 by lia.
  replace ((b0 - 240) * 262144 + (b1 - 128) * 4096)
    with (((b0 - 240) * 64 + (b1 - 128)) * 4096) by lia.
  rewrite lor12 by lia.
  replace (((b0 - 240) * 64 + (b1 - 128)) * 4096 + (b2 - 128) * 64)
    with ((((b0 - 240) * 64 + (b1 - 128)) * 64 + (b2 - 128)) * 64) by lia.
  rewrite lor6 by lia. lia.
Qed.

Lemma lead2 (a : Z) : 0 <= a < 32 -> Z.lor 0xC0 a = 192 + a.
Proof. intros H. apply (lor_disjoint 6 a 5); [lia|pows; lia]. Qed.

Lemma lead3 (a : Z) : 0 <= a < 16 -> Z.lor 0xE0 a = 224 + a.
Proof. intros H. apply (lor_disjoint 14 a 4); [lia|pows; lia]. Qed.

Lemma lead4 (a : Z) : 0 <= a < 8 -> Z.lor 0xF0 a = 240 + a.
Proof. intros H. apply (lor_disjoint 30 a 3); [lia|pows; lia]. Qed.

Lemma cont6 (x : Z) : 0 <= x < 64 -> Z.lor 0x80 x = 128 + x.
Proof. intros H. apply (lor_disjoint 2 x 6); [lia|pows; lia]. Qed.

(** One step of the decoder on a non-empty string: the byte itself, an
    encoding error, or a well-formed sequence of two, three or four
    bytes. *)
Lemma decode_cases (c0 : ascii) (rest : string) :
  (utf8.byteVal c0 < 0x80
   /\ utf8.DecodeRuneInString (String c0 rest) = (utf8.byteVal c0, 1%nat))
  \/ utf8.DecodeRuneInString (String c0 rest) = (utf8.RuneError, 1%nat)
  \/ (exists (c1 : ascii) (tl : string),
        rest = String c1 tl
        /\ 0xC2 <= utf8.byteVal c0 < 0xE0
        /\ 0x80 <= utf8.byteVal c1 <= 0xBF
        /\ utf8.DecodeRuneInString (String c0 rest)
           = ((utf8.byteVal c0 - 192) * 64 + (utf8.byteVal c1 - 128), 2%nat))
  \/ (exists (c1 c2 : ascii) (tl : string),
        rest = String c1 (String c2 tl)
        /\ 0xE0 <= utf8.byteVal c0 < 0xF0
        /\ 0x80 <= utf8.byteVal c1 <= 0xBF
        /\ (utf8.byteVal c0 = 0xE0 -> 0xA0 <= utf8.byteVal c1)
        /\ (utf8.byteVal c0 = 0xED -> utf8.byteVal c1 <= 0x9F)
        /\ 0x80 <= utf8.byteVal c2 <= 0xBF
        /\ utf8.DecodeRuneInString (String c0 rest)
           = ((utf8.byteVal c0 - 224) * 4096 + (utf8.byteVal c1 - 128) * 64
              + (utf8.byteVal c2 - 128), 3%nat))
  \/ (exists (c1 c2 c3 : ascii) (tl : string),
        rest = String c1 (String c2 (String c3 tl))
        /\ 0xF0 <= utf8.byteVal c0 <= 0xF4
        /\ 0x80 <= utf8.byteVal c1 <= 0xBF
        /\ (utf8.byteVal c0 = 0xF0 -> 0x90 <= utf8.byteVal c1)
        /\ (utf8.byteVal c0 = 0xF4 -> utf8.byteVal c1 <= 0x8F)
        /\ 0x80 <= utf8.byteVal c2 <= 0xBF
        /\ 0x80 <= utf8.byteVal c3 <= 0xBF
        /\ utf8.DecodeRuneInString (String c0 rest)
           = ((utf8.byteVal c0 - 240) * 262144
              + (utf8.byteVal c1 - 128) * 4096
              + (utf8.byteVal c2 - 128) * 64 + (utf8.byteVal c3 - 128),
              4%nat)).
Proof.
  unfold utf8.DecodeRuneInString.
  cbn [String.length Nat.ltb Nat.leb].
  change (utf8.byteAt (String c0 rest) 0) with (utf8.byteVal c0).
  pose proof (byteVal_range c0) as Hb0.
  destruct (utf8.first (utf8.byteVal c0)) as [| |sz lo hi] eqn:Hfirst.
  - left. split; [|reflexivity]. revert Hfirst. unfold utf8.first.
    destruct (Z.ltb_spec (utf8.byteVal c0) 0x80); [easy|].
    repeat match goal with
           | |- context [?x <? ?y] => destruct (Z.ltb_spec x y)
           | |- context [?x =? ?y] => destruct (Z.eqb_spec x y)
           end; discriminate.
  - right. left. reflexivity.
  - right.
    assert (Hlead :
      (sz = 2%nat /\ lo = 0x80 /\ hi = 0xBF /\ 0xC2 <= utf8.byteVal c0 < 0xE0)
      \/ (sz = 3%nat /\ 0xE0 <= utf8.byteVal c0 < 0xF0
          /\ 0x80 <= lo /\ hi <= 0xBF
          /\ (utf8.byteVal c0 = 0xE0 -> lo = 0xA0)
          /\ (utf8.byteVal c0 = 0xED -> hi = 0x9F))
      \/ (sz = 4%nat /\ 0xF0 <= utf8.byteVal c0 <= 0xF4
          /\ 0x80 <= lo /\ hi <= 0xBF
          /\ (utf8.byteVal c0 = 0xF0 -> lo = 0x90)
          /\ (utf8.byteVal c0 = 0xF4 -> hi = 0x8F))).
    { revert Hfirst. unfold utf8.first.
      repeat match goal with
             | |- context [?x <? ?y] => destruct (Z.ltb_spec x y)
             | |- context [?x =? ?y] => destruct (Z.eqb_spec x y)
             end;
        intros [= <- <- <-] || discriminate; lia. }
    destruct rest as [|c1 tl]; cbn [String.length Nat.ltb Nat.leb].
    { destruct Hlead as [(-> & _)|[(-> & _)|(-> & _)]]; left; reflexivity. }
    change (utf8.byteAt (String c0 (String c1 tl)) 1) with (utf8.byteVal c1).
    pose proof (byteVal_range c1) as Hb1.
    destruct Hlead as [(-> & -> & -> & H0)|[(-> & H0 & Hlo & Hhi & HE0 & HED)
                                           |(-> & H0 & Hlo & Hhi & HF0 & HF4)]];
      cbn [Nat.ltb Nat.leb].
    + destruct (Z.ltb_spec (utf8.byteVal c1) 0x80); [left; reflexivity|].
      destruct (Z.ltb_spec 0xBF (utf8.byteVal c1)); [left; reflexivity|].
      cbn [orb]. right. left. exists c1, tl.
      rewrite bits2 by lia. repeat split; lia.
    + destruct tl as [|c2 tl]; cbn [String.length Nat.ltb Nat.leb];
        [left; reflexivity|].
      destruct (Z.ltb_spec (utf8.byteVal c1) lo); [left; reflexivity|].
      destruct (Z.ltb_spec hi (utf8.byteVal c1)); [left; reflexivity|].
      cbn [orb].
      change (utf8.byteAt (String c0 (String c1 (String c2 tl))) 2)
        with (utf8.byteVal c2).
      unfold utf8.isCont.
      destruct (Z.leb_spec 0x80 (utf8.byteVal c2)); [|left; reflexivity].
      destruct (Z.leb_spec (utf8.byteVal c2) 0xBF); [|left; reflexivity].
      cbn [andb negb]. right. right. left. exists c1, c2, tl.
      rewrite bits3 by lia. repeat split; lia.
    + destruct tl as [|c2 tl]; cbn [String.length Nat.ltb Nat.leb];
        [left; reflexivity|].
      destruct tl as [|c3 tl]; cbn [String.length Nat.ltb Nat.leb];
        [left; reflexivity|].
      destruct (Z.ltb_spec (utf8.byteVal c1) lo); [left; reflexivity|].
      destruct (Z.ltb_spec hi (utf8.byteVal c1)); [left; reflexivity|].
      cbn [orb].
      change (utf8.byteAt (String c0 (String c1 (String c2 (String c3 tl)))) 2)
        with (utf8.byteVal c2).
      change (utf8.byteAt (String c0 (String c1 (String c2 (String c3 tl)))) 3)
        with (utf8.byteVal c3).
      unfold utf8.isCont.
      destruct (Z.leb_spec 0x80 (utf8.byteVal c2)); [|left; reflexivity].
      destruct (Z.leb_spec (utf8.byteVal c2) 0xBF); [|left; reflexivity].
      destruct (Z.leb_spec 0x80 (utf8.byteVal c3)); [|left; reflexivity].
      destruct (Z.leb_spec (utf8.byteVal c3) 0xBF); [|left; reflexivity].
      cbn [andb negb]. right. right. right. exists c1, c2, c3, tl.
      rewrite bits4 by lia. repeat split; lia.
Qed.

Ltac arith_bools H :=
  rewrite ?andb_true_iff, ?orb_true_iff, ?andb_false_iff, ?orb_false_iff,
    ?Z.leb_le, ?Z.ltb_lt, ?Z.leb_gt, ?Z.ltb_ge in H.

Ltac encoder_branch :=
  match goal with
  | |- context [if ?b then _ else _] =>
      let H := fresh "Hb" in
      destruct b eqn:H; arith_bools H;
      unfold utf8.MaxRune, utf8.surrogateMin, utf8.surrogateMax in H;
      try (exfalso; lia)
  end.

Lemma encode_1 (c0 : ascii) :
  utf8.byteVal c0 < 0x80 -> utf8.EncodeRune (utf8.byteVal c0) = String c0 "".
Proof.
  intros H. pose proof (byteVal_range c0). unfold utf8.EncodeRune.
  encoder_branch. f_equal. now apply toByte_byteVal.
Qed.

Lemma encode_2 (c0 c1 : ascii) :
  0xC2 <= utf8.byteVal c0 < 0xE0 -> 0x80 <= utf8.byteVal c1 <= 0xBF ->
  utf8.EncodeRune ((utf8.byteVal c0 - 192) * 64 + (utf8.byteVal c1 - 128))
  = String c0 (String c1 "").
Proof.
  intros H0 H1. unfold utf8.EncodeRune.
  do 2 encoder_branch.
  f_equal; [|f_equal]; apply toByte_byteVal.
  - rewrite Z.shiftr_div_pow2 by lia. pows.
    rewrite lead2 by (Z.div_mod_to_equations; lia).
    Z.div_mod_to_equations; lia.
  - change 0x3F with (Z.ones 6). rewrite Z.land_ones by lia. pows.
    rewrite cont6 by (Z.div_mod_to_equations; lia).
    Z.div_mod_to_equations; lia.
Qed.

Lemma encode_3 (c0 c1 c2 : ascii) :
  0xE0 <= utf8.byteVal c0 < 0xF0 ->
  0x80 <= utf8.byteVal c1 <= 0xBF ->
  (utf8.byteVal c0 = 0xE0 -> 0xA0 <= utf8.byteVal c1) ->
  (utf8.byteVal c0 = 0xED -> utf8.byteVal c1 <= 0x9F) ->
  0x80 <= utf8.byteVal c2 <= 0xBF ->
  utf8.EncodeRune ((utf8.byteVal c0 - 224) * 4096
                   + (utf8.byteVal c1 - 128) * 64 + (utf8.byteVal c2 - 128))
  = String c0 (String c1 (String c2 "")).
Proof.
  intros H0 H1 HE0 HED H2. unfold utf8.EncodeRune.
  do 4 encoder_branch. unfold utf8.encode3.
  f_equal; [|f_equal; [|f_equal]]; apply toByte_byteVal.
  - rewrite Z.shiftr_div_pow2 by lia. pows.
    rewrite lead3 by (Z.div_mod_to_equations; lia).
    Z.div_mod_to_equations; lia.
  - change 0x3F with (Z.ones 6). rewrite Z.land_ones by lia.
    rewrite Z.shiftr_div_pow2 by lia. pows.
    rewrite cont6 by (Z.div_mod_to_equations; lia).
    Z.div_mod_to_equations; lia.
  - change 0x3F with (Z.ones 6). rewrite Z.land_ones by lia. pows.
    rewrite cont6 by (Z.div_mod_to_equations; lia).
    Z.div_mod_to_equations; lia.
Qed.

Lemma encode_4 (c0 c1 c2 c3 : ascii) :
  0xF0 <= utf8.byteVal c0 <= 0xF4 ->
  0x80 <= utf8.byteVal c1 <= 0xBF ->
  (utf8.byteVal c0 = 0xF0 -> 0x90 <= utf8.byteVal c1) ->
  (utf8.byteVal c0 = 0xF4 -> utf8.byteVal c1 <= 0x8F) ->
  0x80 <= utf8.byteVal c2 <= 0xBF ->
  0x80 <= utf8.byteVal c3 <= 0xBF ->
  utf8.EncodeRune ((utf8.byteVal c0 - 240) * 262144
                   + (utf8.byteVal c1 - 128) * 4096
                   + (utf8.byteVal c2 - 128) * 64 + (utf8.byteVal c3 - 128))
  = String c0 (String c1 (String c2 (String c3 ""))).
Proof.
  intros H0 H1 HF0 HF4 H2 H3. unfold utf8.EncodeRune.
  do 4 encoder_branch.
  f_equal; [|f_equal; [|f_equal; [|f_equal]]]; apply toByte_byteVal.
  - rewrite Z.shiftr_div_pow2 by lia. pows.
    rewrite lead4 by (Z.div_mod_to_equations; lia).
    Z.div_mod_to_equations; lia.
  - change 0x3F with (Z.ones 6). rewrite Z.land_ones by lia.
    rewrite Z.shiftr_div_pow2 by lia. pows.
    rewrite cont6 by (Z.div_mod_to_equations; lia).
    Z.div_mod_to_equations; lia.
  - change 0x3F with (Z.ones 6). rewrite Z.land_ones by lia.
    rewrite Z.shiftr_div_pow2 by lia. pows.
    rewrite cont6 by (Z.div_mod_to_equations; lia).
    Z.div_mod_to_equations; lia.
  - change 0x3F with (Z.ones 6). rewrite Z.land_ones by lia. pows.
    rewrite cont6 by (Z.div_mod_to_equations; lia).
    Z.div_mod_to_equations; lia.
Qed.

Lemma sliceFrom_skip (c : ascii) (s : string) (n : nat) :
  strings.sliceFrom (String c s) (S n) = strings.sliceFrom s n.
Proof. reflexivity. Qed.

Lemma sliceFrom_0 (s : string) : strings.sliceFrom s 0 = s.
Proof.
  unfold strings.sliceFrom. rewrite Nat.sub_0_r. apply substring_full.
Qed.

(** One step of the decoder against the encoder: a step without encoding
    error is undone by the encoder; at an encoding error one byte is
    consumed and the encoder makes the three bytes of U+FFFD. *)
Lemma decode_step (s : string) :
  s <> "" ->
  (1 <= snd (utf8.DecodeRuneInString s) <= String.length s)%nat
  /\ (encodingError (utf8.DecodeRuneInString s) = false ->
      s = utf8.EncodeRune (fst (utf8.DecodeRuneInString s))
          +:+ strings.sliceFrom s (snd (utf8.DecodeRuneInString s)))
  /\ (encodingError (utf8.DecodeRuneInString s) = true ->
      snd (utf8.DecodeRuneInString s) = 1%nat
      /\ String.length (utf8.EncodeRune (fst (utf8.DecodeRuneInString s)))
         = 3%nat).
Proof.
  destruct s as [|c0 rest]; [contradiction|]. intros _.
  destruct (decode_cases c0 rest)
    as [[H0 ->]|[->|[(c1 & tl & -> & H0 & H1 & ->)
        |[(c1 & c2 & tl & -> & H0 & H1 & HE0 & HED & H2 & ->)
         |(c1 & c2 & c3 & tl & -> & H0 & H1 & HF0 & HF4 & H2 & H3 & ->)]]]];
    cbn [fst snd String.length].
  - pose proof (byteVal_range c0).
    split; [lia|]. split.
    + intros _. rewrite encode_1 by assumption.
      now rewrite sliceFrom_skip, sliceFrom_0.
    + unfold encodingError. cbn [fst snd].
      destruct (Z.eqb_spec (utf8.byteVal c0) utf8.RuneError) as [E|];
        [unfold utf8.RuneError in E; lia|discriminate].
  - split; [lia|]. split; [discriminate|]. intros _. split; reflexivity.
  - split; [lia|]. split.
    + intros _. rewrite encode_2 by assumption.
      now rewrite !sliceFrom_skip, sliceFrom_0.
    + unfold encodingError. cbn [fst snd Nat.leb].
      rewrite andb_false_r. discriminate.
  - split; [lia|]. split.
    + intros _. rewrite encode_3 by assumption.
      now rewrite !sliceFrom_skip, sliceFrom_0.
    + unfold encodingError. cbn [fst snd Nat.leb].
      rewrite andb_false_r. discriminate.
  - split; [lia|]. split.
    + intros _. rewrite encode_4 by assumption.
      now rewrite !sliceFrom_skip, sliceFrom_0.
    + unfold encodingError. cbn [fst snd Nat.leb].
      rewrite andb_false_r. discriminate.
Qed.

Lemma length_sliceFrom (s : string) (n : nat) :
  (n <= String.length s)%nat ->
  String.length (strings.sliceFrom s n) = (String.length s - n)%nat.
Proof.
  intros H. unfold strings.sliceFrom. apply length_substring. lia.
Qed.

Lemma valid_round_trip (fuel : nat) :
  forall s : string,
    (String.length s <= fuel)%nat ->
    validFrom fuel s = true ->
    utf8.stringOfRunes (utf8.runesFrom fuel s) = s.
Proof.
  induction fuel as [|fuel IH]; intros s Hlen Hvalid.
  - destruct s; [reflexivity|cbn in Hlen; lia].
  - destruct s as [|c0 rest]; [reflexivity|].
    set (s := String c0 rest) in *.
    destruct (decode_step s ltac:(discriminate)) as (Hw & Hok & _).
    assert (Hcons : utf8.runesFrom (S fuel) s
                    = fst (utf8.DecodeRuneInString s)
                      :: utf8.runesFrom fuel
                           (strings.sliceFrom s
                              (snd (utf8.DecodeRuneInString s)))).
    { subst s. cbn [utf8.runesFrom].
      now destruct (utf8.DecodeRuneInString (String c0 rest)). }
    assert (Hv : negb (encodingError (utf8.DecodeRuneInString s))
                 && validFrom fuel
                      (strings.sliceFrom s (snd (utf8.DecodeRuneInString s)))
                 = true) by exact Hvalid.
    apply andb_true_iff in Hv as [Herr Hrest].
    apply negb_true_iff in Herr.
    rewrite Hcons. cbn [utf8.stringOfRunes].
    rewrite IH; [symmetry; now apply Hok| |exact Hrest].
    rewrite length_sliceFrom by lia. subst s. cbn [String.length] in *. lia.
Qed.

Lemma invalid_longer (fuel : nat) :
  forall s : string,
    (String.length s <= fuel)%nat ->
    (String.length s
     <= String.length (utf8.stringOfRunes (utf8.runesFrom fuel s)))%nat
    /\ (validFrom fuel s = false ->
        (String.length s
         < String.length (utf8.stringOfRunes (utf8.runesFrom fuel s)))%nat).
Proof.
  induction fuel as [|fuel IH]; intros s Hlen.
  - destruct s; [split; [reflexivity|discriminate]|cbn in Hlen; lia].
  - destruct s as [|c0 rest]; [split; [reflexivity|discriminate]|].
    set (s := String c0 rest) in *.
    destruct (decode_step s ltac:(discriminate)) as (Hw & Hok & Hbad).
    assert (Hcons : utf8.runesFrom (S fuel) s
                    = fst (utf8.DecodeRuneInString s)
                      :: utf8.runesFrom fuel
                           (strings.sliceFrom s
                              (snd (utf8.DecodeRuneInString s)))).
    { subst s. cbn [utf8.runesFrom].
      now destruct (utf8.DecodeRuneInString (String c0 rest)). }
    assert (Hv : validFrom (S fuel) s
                 = negb (encodingError (utf8.DecodeRuneInString s))
                   && validFrom fuel
                        (strings.sliceFrom s
                           (snd (utf8.DecodeRuneInString s))))
      by reflexivity.
    rewrite Hcons, Hv. cbn [utf8.stringOfRunes]. rewrite length_append.
    assert (Hslice : String.length
                       (strings.sliceFrom s (snd (utf8.DecodeRuneInString s)))
                     = (String.length s
                        - snd (utf8.DecodeRuneInString s))%nat)
      by (apply length_sliceFrom; lia).
    destruct (IH (strings.sliceFrom s (snd (utf8.DecodeRuneInString s))))
      as [Hge Hgt]; [rewrite Hslice; subst s; cbn [String.length] in *; lia|].
    destruct (encodingError (utf8.DecodeRuneInString s)) eqn:Herr.
    + destruct (Hbad eq_refl) as [Hone Hthree]. split; [lia|]. intros _. lia.
    + pose proof (f_equal String.length (Hok eq_refl)) as Hsplit.
      rewrite length_append in Hsplit. cbn [negb andb].
      split; [lia|]. intros Hinv. specialize (Hgt Hinv). lia.
Qed.

(** Converting a string to runes and back gives the string again exactly
    when it is valid UTF-8. *)
Lemma runes_round_trip (s : string) :
  utf8.stringOfRunes (utf8.runes s) = s <-> ValidString s = true.
Proof.
  unfold utf8.runes, ValidString. split.
  - intros Heq.
    destruct (validFrom (String.length s) s) eqn:Hv; [reflexivity|].
    destruct (invalid_longer (String.length s) s ltac:(lia)) as [_ Hgt].
    specialize (Hgt Hv). rewrite Heq in Hgt. lia.
  - apply valid_round_trip. lia.
Qed.

(** X23: the N line.  [generateVCard] splits the name after its first
    character: the line is "N:", the first character, ";", the rest of the
    name and ";;;"; the two parts joined are the name again exactly when the
    name is valid UTF-8 (any other byte comes out as U+FFFD). *)
Theorem generateVCard_name_line (cnt : contact) (sb : strings.Builder) :
  vcardBuilder cnt = Ok sb ->
  exists first rest : string,
    sb !! 2%nat = Some ("N:" +:+ first +:+ ";" +:+ rest +:+ ";;;" +:+ nl)
    /\ first = utf8.EncodeRune (fst (utf8.DecodeRuneInString (Fullname cnt)))
    /\ (first +:+ rest = Fullname cnt <-> ValidString (Fullname cnt) = true).
Proof.
  unfold vcardBuilder.
  pose proof (runes_round_trip (Fullname cnt)) as Htrip.
  assert (Hhead : forall r0 rs,
            utf8.runes (Fullname cnt) = r0 :: rs ->
            r0 = fst (utf8.DecodeRuneInString (Fullname cnt))).
  { unfold utf8.runes. destruct (Fullname cnt) as [|c0 name];
      [discriminate|].
    cbn [String.length utf8.runesFrom].
    destruct (utf8.DecodeRuneInString (String c0 name)).
    now intros r0 rs [= <- _]. }
  destruct (utf8.runes (Fullname cnt)) as [|r0 rs]; [discriminate|].
  cbn [index lookup list_lookup bind drop]. intros [= <-].
  exists (utf8.EncodeRune r0), (utf8.stringOfRunes rs).
  split; [|split].
  - unfold strings.WriteString.
    destruct (Answer cnt =? AnswerYes);
      destruct (negb (String.eqb (Email cnt) ""));
      destruct (negb (String.eqb (Cell cnt) "")); reflexivity.
  - f_equal. now apply (Hhead r0 rs).
  - exact Htrip.
Qed.

Lemma generateVCard_name_line_witness :
  exists first rest : string,
    ["BEGIN:VCARD" +:+ nl +:+ "VERSION:3.0" +:+ nl;
     "FN:Amy Wu" +:+ nl; "N:A;my Wu;;;" +:+ nl;
     "NOTE:建中42屆302班同學" +:+ nl; "END:VCARD" +:+ nl] !! 2%nat
    = Some ("N:" +:+ first +:+ ";" +:+ rest +:+ ";;;" +:+ nl)
    /\ first = utf8.EncodeRune
                 (fst (utf8.DecodeRuneInString (Fullname declinedContact)))
    /\ (first +:+ rest = Fullname declinedContact
        <-> ValidString (Fullname declinedContact) = true).
Proof.
  apply (generateVCard_name_line declinedContact).
  vm_compute. reflexivity.
Defined.

(** A name with a byte that is no UTF-8: the byte comes out as U+FFFD. *)
Example generateVCard_invalid_name :
  ValidString (String (ascii_of_nat 255) "x") = false
  /\ utf8.stringOfRunes (utf8.runes (String (ascii_of_nat 255) "x"))
     = String (ascii_of_nat 239)
         (String (ascii_of_nat 191) (String (ascii_of_nat 189) "x")).
Proof. split; vm_compute; reflexivity. Qed.

(** ** The CSV list tool's parser on rows of one width *)

Section CSVRows.

Variable Join : string -> string -> string.
Variable decode : string -> list csv.line.

Lemma CSV_parseRecord_total (dataFolder : string) (rec : list string) :
  (6 <= length rec)%nat ->
  exists parsed, CSVTool.parseRecord Join dataFolder rec = Ok parsed.
Proof.
  intros Hlen. unfold CSVTool.parseRecord.
  destruct (lookup_lt_is_Some_2 rec 0 ltac:(lia)) as [r0 H0].
  destruct (lookup_lt_is_Some_2 rec 1 ltac:(lia)) as [r1 H1].
  destruct (lookup_lt_is_Some_2 rec 2 ltac:(lia)) as [r2 H2].
  destruct (lookup_lt_is_Some_2 rec 3 ltac:(lia)) as [r3 H3].
  destruct (lookup_lt_is_Some_2 rec 4 ltac:(lia)) as [r4 H4].
  destruct (lookup_lt_is_Some_2 rec 5 ltac:(lia)) as [r5 H5].
  rewrite (index_lookup _ _ _ H0), (index_lookup _ _ _ H1),
    (index_lookup _ _ _ H2), (index_lookup _ _ _ H3),
    (index_lookup _ _ _ H4), (index_lookup _ _ _ H5).
  cbn [bind]. destruct (strconv.ParseInt r0) as [v|]; [|eauto].
  destruct (v =? 0); eauto.
Qed.

Lemma CSV_readLoop_rows (dataFolder : string) (n : nat)
    (pending : list csv.line) :
  (6 <= n)%nat -> rowsOfWidth n pending ->
  forall (FieldsPerRecord : nat) (contactLst : list ListCSV.contact),
    FieldsPerRecord = 0%nat \/ FieldsPerRecord = n ->
    exists cs,
      CSVTool.readLoop Join dataFolder FieldsPerRecord pending contactLst
      = Ok cs.
Proof.
  intros Hn Hrows. induction Hrows as [|l pending Hl Hrows IH];
    intros fpr contactLst Hfpr; cbn [CSVTool.readLoop]; [eauto|].
  destruct l as [f0 fs|]; [|contradiction].
  assert (Hread : csv.readRecord fpr (csv.Fields f0 fs) = (Ok (f0 :: fs), n)).
  { unfold csv.readRecord. destruct Hfpr as [->| ->].
    - cbn [Nat.ltb Nat.leb]. now rewrite Hl.
    - destruct (Nat.ltb_spec 0 n); [|lia].
      rewrite Hl, Nat.eqb_refl. reflexivity. }
  rewrite Hread. cbn [bind].
  destruct (CSV_parseRecord_total dataFolder (f0 :: fs)) as [parsed ->];
    [lia|].
  cbn [bind]. destruct parsed; apply IH; now right.
Qed.

(** X24: the CSV list tool.  When the list file is there and every line of
    it is a row of the same width, six columns or more, [parseInputList]
    returns a list of contacts: no row is an error and none makes it
    panic. *)
Theorem CSVTool_parseInputList_succeeds (w : World)
    (dataFolder lstFname : string) (content : string) (n : nat) :
  files w !! Join dataFolder lstFname = Some content ->
  (6 <= n)%nat ->
  rowsOfWidth n (decode content) ->
  exists cs : list ListCSV.contact,
    CSVTool.parseInputList Join decode w dataFolder lstFname = Ok cs.
Proof.
  intros Hfile Hn Hrows. unfold CSVTool.parseInputList, os.Open, os.ReadFile.
  rewrite Hfile. cbn [bind].
  apply (CSV_readLoop_rows dataFolder n); auto.
Qed.

End CSVRows.

Lemma CSVTool_parseInputList_succeeds_witness :
  exists cs : list ListCSV.contact,
    CSVTool.parseInputList joinPath commaLines (listWorld sampleCSV)
      "testdata" "list.txt" = Ok cs.
Proof.
  apply (CSVTool_parseInputList_succeeds joinPath commaLines
           (listWorld sampleCSV) "testdata" "list.txt" sampleCSV 6).
  - reflexivity.
  - lia.
  - vm_compute. repeat constructor.
Defined.

(** A list of the CSV list tool whose only row has three columns: the
    reader accepts it and the parser panics at the fourth. *)
Example CSVTool_short_row_panics :
  CSVTool.parseInputList joinPath commaLines (listWorld ("1,301,Bob" +:+ nl))
    "testdata" "list.txt"
  = Panic (IndexOutOfRange 3 3).
Proof. vm_compute. reflexivity. Qed.
